(** * WIPO PatentScope crawler: a shallow embedding of [wipo_crawler.py]

    The development follows the four steps of the source file:
    identifier discovery ([search_wipo_wo_numbers]), page acquisition
    ([fetch_detail_html]), label-driven extraction ([parse_biblio_data] and
    its helpers) and the batch loop ([search_wipo_patents]).

    Conventions.
    - A Python [str] is a sequence of code points; a [string] here is its
      UTF-8 encoding.  Substring tests are the same on both.  [str.strip]
      and the digit class [\d] are Unicode's, read off the encoded
      characters.  The regular expressions compiled from label texts are
      modelled for the label texts without operators (those of the source
      are of that kind), with the case folding of [re.IGNORECASE]; the
      abstract [find] of the BeautifulSoup interface assumes nothing
      about them.
    - Python [int] is [Z]; list slicing [l[:n]] keeps Python's meaning for
      negative [n].
    - A Python [dict] is a [gmap] from its string keys.
    - Exceptions are values: [exc A] is either a result or a raised
      exception, and [try ... except Exception] is [try_except]. *)

From Stdlib Require Import ZArith Ascii String List DecimalString.
From Stdlib Require Import Floats.SpecFloat.
From stdpp Require Import base option list strings gmap.

Local Open Scope Z_scope.

(* ===================================================================== *)
(** ** Exceptions *)
(* ===================================================================== *)

(** The subclasses of Python's [Exception] that the source distinguishes. *)
Inductive exception :=
| PlaywrightTimeout          (* playwright.async_api.TimeoutError *)
| AsyncioTimeoutError        (* asyncio.TimeoutError *)
| Error (msg : string).      (* any other instance of Exception *)

(** [asyncio.CancelledError] derives from [BaseException], not from
    [Exception]: an [except Exception] clause does not catch it. *)
Inductive base_exception :=
| Exn (e : exception)
| CancelledError.

Inductive exc (A : Type) :=
| Ok (a : A)
| Raise (e : exception).
Arguments Ok {A} a.
Arguments Raise {A} e.

Definition exc_bind {A B} (m : exc A) (k : A -> exc B) : exc B :=
  match m with
  | Ok a => k a
  | Raise e => Raise e
  end.

(** [try: body / except Exception: handler]. *)
Definition try_except {A} (body : exc A) (handler : exception -> exc A) : exc A :=
  match body with
  | Ok a => Ok a
  | Raise e => handler e
  end.

Declare Scope exc_scope.
Delimit Scope exc_scope with exc.
Notation "x <- m ;; k" := (exc_bind m (fun x => k))
  (at level 100, m at next level, right associativity) : exc_scope.

(* ===================================================================== *)
(** ** Strings *)
(* ===================================================================== *)

Module Str.

Fixpoint prefix (p s : string) : bool :=
  match p, s with
  | EmptyString, _ => true
  | String a p', String b s' => if Ascii.eqb a b then prefix p' s' else false
  | String _ _, EmptyString => false
  end.

(** Python's [p in s]. *)
Fixpoint contains (p s : string) : bool :=
  if prefix p s then true
  else match s with
       | EmptyString => false
       | String _ s' => contains p s'
       end.

(** A byte of the form [10xxxxxx], which continues a character. *)
Definition is_continuation (c : ascii) : bool :=
  let n := N_of_ascii c in ((128 <=? n) && (n <? 192))%N.

Definition starts_inside (s : string) : bool :=
  match s with
  | String c _ => is_continuation c
  | EmptyString => false
  end.

(** The characters of a string: every byte that is not a continuation
    byte starts one. *)
Fixpoint chars (s : string) : list string :=
  match s with
  | EmptyString => []
  | String c s' =>
      match chars s' with
      | ch :: rest =>
          if starts_inside ch then String c ch :: rest
          else String c EmptyString :: ch :: rest
      | [] => [String c EmptyString]
      end
  end.

(** [len(s)]. *)
Definition len (s : string) : nat := length (chars s).

Definition low_bits (c : ascii) : N := (N_of_ascii c mod 64)%N.

(** The code point that a character encodes; [1114112], which is no
    code point, when the bytes are not the UTF-8 encoding of one. *)
Definition code_point (ch : string) : N :=
  let none := 1114112%N in
  match ch with
  | String a EmptyString =>
      let n := N_of_ascii a in if (n <? 128)%N then n else none
  | String a (String b EmptyString) =>
      let n := N_of_ascii a in
      if ((194 <=? n) && (n <? 224))%N && is_continuation b
      then ((n mod 32) * 64 + low_bits b)%N
      else none
  | String a (String b (String c EmptyString)) =>
      let n := N_of_ascii a in
      let p := ((n mod 16) * 4096 + low_bits b * 64 + low_bits c)%N in
      if ((224 <=? n) && (n <? 240))%N && is_continuation b && is_continuation c
         && ((2048 <=? p) && negb ((55296 <=? p) && (p <? 57344)))%N
      then p
      else none
  | String a (String b (String c (String d EmptyString))) =>
      let n := N_of_ascii a in
      let p := ((n mod 8) * 262144 + low_bits b * 4096 + low_bits c * 64
                + low_bits d)%N in
      if ((240 <=? n) && (n <? 245))%N
         && is_continuation b && is_continuation c && is_continuation d
         && ((65536 <=? p) && (p <? none))%N
      then p
      else none
  | _ => none
  end.

(** The code points [c] with [chr(c).isspace()], which are those that
    [str.strip()] removes. *)
Definition is_space_point (n : N) : bool :=
  (((9 <=? n) && (n <=? 13)) || ((28 <=? n) && (n <=? 32))
   || (n =? 133) || (n =? 160) || (n =? 5760)
   || ((8192 <=? n) && (n <=? 8202))
   || (n =? 8232) || (n =? 8233) || (n =? 8239) || (n =? 8287) || (n =? 12288))%N.

Definition is_space (ch : string) : bool := is_space_point (code_point ch).

Fixpoint lstrip_chars (l : list string) : list string :=
  match l with
  | [] => []
  | ch :: l' => if is_space ch then lstrip_chars l' else l
  end.

(** [s.strip()]. *)
Definition strip (s : string) : string :=
  String.concat EmptyString
    (rev (lstrip_chars (rev (lstrip_chars (chars s))))).

(** The digit zero of every run of ten decimal digits of Unicode 14.0
    (category Nd), the Unicode version of CPython 3.11. *)
Definition decimal_zeros : list N :=
  [ 48; 1632; 1776; 1984; 2406; 2534; 2662; 2790;
    2918; 3046; 3174; 3302; 3430; 3558; 3664; 3792;
    3872; 4160; 4240; 6112; 6160; 6470; 6608; 6784;
    6800; 6992; 7088; 7232; 7248; 42528; 43216; 43264;
    43472; 43504; 43600; 44016; 65296; 66720; 68912; 69734;
    69872; 69942; 70096; 70384; 70736; 70864; 71248; 71360;
    71472; 71904; 72016; 72784; 73040; 73120; 92768; 92864;
    93008; 120782; 120792; 120802; 120812; 120822; 123200; 123632;
    125264; 130032 ]%N.

(** The code points that [\d] matches in a [str] pattern: the decimal
    digits of Unicode. *)
Definition is_decimal_point (n : N) : bool :=
  existsb (fun z => ((z <=? n) && (n <? z + 10))%N) decimal_zeros.

Definition is_decimal (ch : string) : bool := is_decimal_point (code_point ch).

Definition is_upper (c : ascii) : bool :=
  let n := nat_of_ascii c in (65 <=? n)%nat && (n <=? 90)%nat.

(** The lower-case letter of an ASCII letter. *)
Definition lower_char (c : ascii) : ascii :=
  if is_upper c then ascii_of_nat (nat_of_ascii c + 32) else c.

(** [sep.join(l)]. *)
Fixpoint join (sep : string) (l : list string) : string :=
  match l with
  | [] => EmptyString
  | [x] => x
  | x :: l' => x +:+ sep +:+ join sep l'
  end.

(** Truthiness of a [str]. *)
Definition nonempty (s : string) : bool :=
  match s with EmptyString => false | _ => true end.

(** The patterns without regular-expression operators: ASCII letters,
    digits and spaces.  Every label that [parse_biblio_data] looks up is
    one. *)
Definition is_plain_char (c : ascii) : bool :=
  let n := nat_of_ascii c in
  ((48 <=? n) && (n <=? 57) || (65 <=? n) && (n <=? 90)
   || (97 <=? n) && (n <=? 122) || (n =? 32))%nat.

Definition is_plain (pat : string) : bool :=
  forallb is_plain_char (list_ascii_of_string pat).

(** Whether the character [t] of a text matches the character [p] of a
    plain pattern compiled with [re.IGNORECASE]: the two are the same
    ASCII character up to the case of a letter, or [p] is one of the
    letters i, s, k and [t] one of the characters outside ASCII that
    Python pairs with it (U+0130 and U+0131 with i, U+017F with s,
    U+212A with k). *)
Definition ci_match (p : ascii) (t : string) : bool :=
  let q := lower_char p in
  match t with
  | String c EmptyString =>
      (nat_of_ascii c <? 128)%nat && Ascii.eqb (lower_char c) q
  | _ =>
      let n := code_point t in
      (Ascii.eqb q "i" && ((n =? 304) || (n =? 305)))%N
      || (Ascii.eqb q "s" && (n =? 383))%N
      || (Ascii.eqb q "k" && (n =? 8490))%N
  end.

Fixpoint ci_prefix (pat : string) (text : list string) : bool :=
  match pat, text with
  | EmptyString, _ => true
  | String p pat', t :: text' => ci_match p t && ci_prefix pat' text'
  | String _ _, [] => false
  end.

Fixpoint ci_contains (pat : string) (text : list string) : bool :=
  if ci_prefix pat text then true
  else match text with
       | [] => false
       | _ :: text' => ci_contains pat text'
       end.

(** [re.compile(pat, re.IGNORECASE).search(s) is not None] for a plain
    pattern [pat]: the pattern occurs in the text, case disregarded.
    For a pattern with operators, or one that does not compile, this
    function is not the source's, and no statement below relies on it
    there. *)
Definition re_search_ignorecase (pat s : string) : bool :=
  ci_contains pat (chars s).

End Str.

(** [l[:n]] on a Python list. *)
Definition slice_to {A} (n : Z) (l : list A) : list A :=
  if 0 <=? n then take (Z.to_nat n) l
  else take (Z.to_nat (Z.of_nat (length l) + n)) l.

(** [list(dict.fromkeys(l))]: keys in insertion order, a key that is
    inserted again keeps its place. *)
Definition fromkeys {A} `{EqDecision A} (l : list A) : list A :=
  foldl (fun d k => if decide (k ∈ d) then d else d ++ [k]) [] l.

(* ===================================================================== *)
(** ** The BeautifulSoup interface used by the source *)
(* ===================================================================== *)

(** The calls the source makes on BeautifulSoup objects.  Each may raise:
    the source wraps every use in [try ... except Exception].
    - [find t name class_ string]:
        [t.find(name, class_=class_, string=re.compile(string, re.IGNORECASE))],
        the two keyword arguments given only when they are [Some];
    - [find_parent t name class_]: [t.find_parent(name, class_=class_)];
    - [find_all t name class_]: [t.find_all(name, class_=class_)];
    - [get_text t sep]: [t.get_text(strip=True, separator=sep)];
    - [find_all_href t name]: the [link['href']] of every [link] of
        [t.find_all(name, href=True)]. *)
Class Bs4 (tag : Type) := {
  find : tag -> string -> option string -> option string -> exc (option tag);
  find_parent : tag -> string -> string -> exc (option tag);
  find_all : tag -> string -> option string -> exc (list tag);
  get_text : tag -> string -> exc string;
  find_all_href : tag -> string -> exc (list string)
}.

(** [for x in l: acc = f acc x], where [f] may raise. *)
Fixpoint exc_foldl {A B} (f : B -> A -> exc B) (acc : B) (l : list A) : exc B :=
  match l with
  | [] => Ok acc
  | x :: l' => exc_bind (f acc x) (fun acc' => exc_foldl f acc' l')
  end.

(** Values stored in the [biblio_data] dictionary, and in the record. *)
Inductive value :=
| VNone
| VStr (s : string)
| VList (l : list string).

Inductive top_value :=
| TStr (s : string)
| TBool (b : bool)
| TDict (d : gmap string value).

Definition of_optional (o : option string) : value :=
  match o with
  | Some s => VStr s
  | None => VNone
  end.

(** Truthiness of an [Optional[str]]. *)
Definition truthy (o : option string) : bool :=
  match o with
  | Some s => Str.nonempty s
  | None => false
  end.

(** The scalar fields of [biblio_data] with the label each is read from. *)
Definition scalar_fields : list (string * string) :=
  [ ("publication_number", "Publication Number");
    ("publication_date", "Publication Date");
    ("application_number", "International Application No");
    ("filing_date", "International Filing Date");
    ("title", "Title");
    ("abstract", "Abstract");
    ("priority_data", "Priority Data") ].

(** The scalar fields other than the two that decide success. *)
Definition other_scalar_fields : list (string * string) :=
  [ ("publication_date", "Publication Date");
    ("application_number", "International Application No");
    ("filing_date", "International Filing Date");
    ("abstract", "Abstract");
    ("priority_data", "Priority Data") ].

Section Extractor.

Context {tag : Type} `{Bs4 tag}.

(** [BeautifulSoup(html, 'html.parser')]: the root object of the parsed
    document, or the exception of a parser that rejects the markup
    ([ParserRejectedMarkup]). *)
Variable BeautifulSoup : string -> exc tag.

Local Open Scope exc_scope.

Definition extract_field_by_label (soup : tag) (label_text : string)
  : exc (option string) :=
  try_except
    (label <- find soup "span" (Some "ps-field--label") (Some label_text);;
     match label with
     | None => Ok None
     | Some label =>
         field_div <- find_parent label "div" "ps-field";;
         match field_div with
         | None => Ok None
         | Some field_div =>
             value_span <- find field_div "span" (Some "ps-field--value") None;;
             match value_span with
             | None => Ok None
             | Some value_span =>
                 text <- get_text value_span " ";;
                 Ok (if Str.nonempty text then Some text else None)
             end
         end
     end)
    (fun _ => Ok None).

Definition extract_list_field (soup : tag) (label_text : string)
  : exc (list string) :=
  try_except
    (label <- find soup "span" (Some "ps-field--label") (Some label_text);;
     match label with
     | None => Ok []
     | Some label =>
         field_div <- find_parent label "div" "ps-field";;
         match field_div with
         | None => Ok []
         | Some field_div =>
             person_list <- find field_div "ul" (Some "biblio-person-list") None;;
             match person_list with
             | None => Ok []
             | Some person_list =>
                 lis <- find_all person_list "li" None;;
                 exc_foldl
                   (fun names li =>
                      name_span <- find li "span" (Some "biblio-person-list--name") None;;
                      match name_span with
                      | None => Ok names
                      | Some name_span =>
                          name <- get_text name_span EmptyString;;
                          Ok (if Str.nonempty name then names ++ [name] else names)
                      end)
                   [] lis
             end
         end
     end)
    (fun _ => Ok []).

Definition extract_ipc_codes (soup : tag) : exc (list string) :=
  try_except
    (label <- find soup "span" (Some "ps-field--label") (Some "IPC");;
     match label with
     | None => Ok []
     | Some label =>
         field_div <- find_parent label "div" "ps-field";;
         match field_div with
         | None => Ok []
         | Some field_div =>
             classifications <- find_all field_div "div" (Some "patent-classification");;
             exc_foldl
               (fun ipc_codes classification =>
                  link <- find classification "a" None None;;
                  match link with
                  | None => Ok ipc_codes
                  | Some link =>
                      code <- get_text link EmptyString;;
                      Ok (if Str.nonempty code then ipc_codes ++ [code] else ipc_codes)
                  end)
               [] classifications
         end
     end)
    (fun _ => Ok []).

(** The dictionary [data] as it is created at the top of
    [parse_biblio_data]. *)
Definition initial_data (wo_number : string) : gmap string top_value :=
  <["wo_number" := TStr wo_number]>
    (<["source" := TStr "WIPO"]>
       (<["extraction_successful" := TBool false]>
          (<["biblio_data" := TDict ∅]> ∅))).

(** The body of the [try] block of [parse_biblio_data]: the eleven
    extractions, then the two assignments into [data]. *)
Definition parse_biblio_body (soup : tag) (html : string)
    (data : gmap string top_value) : exc (gmap string top_value) :=
  pub_number <- extract_field_by_label soup "Publication Number";;
  pub_date <- extract_field_by_label soup "Publication Date";;
  app_number <- extract_field_by_label soup "International Application No";;
  filing_date <- extract_field_by_label soup "International Filing Date";;
  title <- extract_field_by_label soup "Title";;
  abstract <- extract_field_by_label soup "Abstract";;
  priority <- extract_field_by_label soup "Priority Data";;
  applicants <- extract_list_field soup "Applicants";;
  inventors <- extract_list_field soup "Inventors";;
  ipc_codes <- extract_ipc_codes soup;;
  cpc_codes <- (if Str.contains "CPC" html then extract_ipc_codes soup else Ok []);;
  let data :=
    <["biblio_data" := TDict
        (<["publication_number" := of_optional pub_number]>
        (<["publication_date" := of_optional pub_date]>
        (<["application_number" := of_optional app_number]>
        (<["filing_date" := of_optional filing_date]>
        (<["title" := of_optional title]>
        (<["abstract" := of_optional abstract]>
        (<["applicants" := VList applicants]>
        (<["inventors" := VList inventors]>
        (<["ipc_codes" := VList ipc_codes]>
        (<["cpc_codes" := VList cpc_codes]>
        (<["priority_data" := of_optional priority]> ∅)))))))))))]> data in
  if truthy pub_number && truthy title
  then Ok (<["extraction_successful" := TBool true]> data)
  else Ok data.

(** [try: body / except Exception: log], then [return data]: when the
    body raises, [data] is still the initial dictionary, because the
    assignments are the last statements of the body. *)
Definition after_try (attempt : exc (gmap string top_value))
    (data : gmap string top_value) : gmap string top_value :=
  match attempt with
  | Ok data' => data'
  | Raise _ => data
  end.

(** [parse_biblio_data] from the creation of [data] on: the [try]
    statement and [return data]. *)
Definition parse_biblio_soup (soup : tag) (html wo_number : string)
  : gmap string top_value :=
  let data := initial_data wo_number in
  after_try (parse_biblio_body soup html data) data.

(** The constructor is called before the [try] statement: what it
    raises leaves the function. *)
Definition parse_biblio_data (html wo_number : string)
  : exc (gmap string top_value) :=
  soup <- BeautifulSoup html;;
  Ok (parse_biblio_soup soup html wo_number).

(** No label-role element matches the label text. *)
Definition label_absent (soup : tag) (label_text : string) : Prop :=
  find soup "span" (Some "ps-field--label") (Some label_text) = Ok None.

(** The label is found, it has a field container, the container has a
    value element, and that element's text is [text]. *)
Definition resolves_to (soup : tag) (label_text text : string) : Prop :=
  exists label field_div value_span,
    find soup "span" (Some "ps-field--label") (Some label_text) = Ok (Some label)
    /\ find_parent label "div" "ps-field" = Ok (Some field_div)
    /\ find field_div "span" (Some "ps-field--value") None = Ok (Some value_span)
    /\ get_text value_span " " = Ok text.

(** [data["extraction_successful"]] and its truthiness. *)
Definition extraction_successful (data : gmap string top_value) : bool :=
  match data !! "extraction_successful" with
  | Some (TBool b) => b
  | _ => false
  end.

(** [data["biblio_data"][key]]. *)
Definition biblio_field (data : gmap string top_value) (key : string) : option value :=
  match data !! "biblio_data" with
  | Some (TDict d) => d !! key
  | _ => None
  end.

End Extractor.

(* ===================================================================== *)
(** ** A concrete document tree *)
(* ===================================================================== *)

(** The parse tree BeautifulSoup builds, restricted to what the source
    inspects: tag names, the [class] list, the [href] attribute, text. *)
Module Dom.

#[warnings="-register-all"]
Inductive node :=
| NavigableString (s : string)
| Tag (name : string) (classes : list string) (href : option string)
      (contents : list node).

(** An element knows its ancestors, nearest first ([.parents]). *)
Record element := { el_node : node; el_parents : list node }.

(** [.descendants]: document order, the element itself excluded. *)
Fixpoint descendants (ps : list node) (n : node) {struct n} : list element :=
  match n with
  | NavigableString _ => []
  | Tag _ _ _ kids =>
      (fix go (ks : list node) : list element :=
         match ks with
         | [] => []
         | k :: ks' =>
             {| el_node := k; el_parents := n :: ps |}
               :: descendants (n :: ps) k ++ go ks'
         end) kids
  end.

Definition el_descendants (e : element) : list element :=
  descendants (el_parents e) (el_node e).

(** [.string]: the text of a string, the [.string] of an only child. *)
Fixpoint node_string (n : node) : option string :=
  match n with
  | NavigableString s => Some s
  | Tag _ _ _ [k] => node_string k
  | Tag _ _ _ _ => None
  end.

(** The filter of [find], [find_all] and [find_parent]: the tag name,
    one of the classes, and the [.string] searched by the pattern. *)
Definition matches (name : string) (class_ pat : option string) (n : node) : bool :=
  match n with
  | NavigableString _ => false
  | Tag nm cls _ _ =>
      String.eqb nm name
      && match class_ with
         | None => true
         | Some c => existsb (String.eqb c) cls
         end
      && match pat with
         | None => true
         | Some p =>
             match node_string n with
             | Some s => Str.re_search_ignorecase p s
             | None => false
             end
         end
  end.

Definition dom_find_all (e : element) (name : string) (class_ pat : option string)
  : list element :=
  List.filter (fun d => matches name class_ pat (el_node d)) (el_descendants e).

Definition dom_find (e : element) (name : string) (class_ pat : option string)
  : option element :=
  head (dom_find_all e name class_ pat).

Fixpoint find_parent_in (ps : list node) (name class_ : string) : option element :=
  match ps with
  | [] => None
  | p :: ps' =>
      if matches name (Some class_) None p
      then Some {| el_node := p; el_parents := ps' |}
      else find_parent_in ps' name class_
  end.

Definition dom_find_parent (e : element) (name class_ : string) : option element :=
  find_parent_in (el_parents e) name class_.

(** The stripped, non-empty strings below an element, as
    [get_text(strip=True)] collects them. *)
Definition stripped_strings (e : element) : list string :=
  omap (fun d =>
          match el_node d with
          | NavigableString s =>
              let t := Str.strip s in
              if Str.nonempty t then Some t else None
          | Tag _ _ _ _ => None
          end) (el_descendants e).

Definition dom_get_text (e : element) (sep : string) : string :=
  Str.join sep (stripped_strings e).

Definition dom_hrefs (e : element) (name : string) : list string :=
  omap (fun d =>
          match el_node d with
          | Tag nm _ (Some h) _ => if String.eqb nm name then Some h else None
          | _ => None
          end) (el_descendants e).

(** On a tree none of the calls raises. *)
#[global] Instance bs4_element : Bs4 element := {|
  find e name class_ pat := Ok (dom_find e name class_ pat);
  find_parent e name class_ := Ok (dom_find_parent e name class_);
  find_all e name class_ := Ok (dom_find_all e name class_ None);
  get_text e sep := Ok (dom_get_text e sep);
  find_all_href e name := Ok (dom_hrefs e name)
|}.

(** The root object of a document. *)
Definition soup_of (contents : list node) : element :=
  {| el_node := Tag "[document]" [] None contents; el_parents := [] |}.

(** The markup of one bibliographic field as the site renders it. *)
Definition ps_field (label : string) (value : list node) : node :=
  Tag "div" ["ps-field"; "ps-biblio-field"] None
    [ Tag "span" ["ps-field--label"] None [NavigableString label];
      Tag "span" ["ps-field--value"] None value ].

End Dom.

(* ===================================================================== *)
(** ** Step 1: identifier discovery *)
(* ===================================================================== *)

(** The [n] leading characters of [s] if there are that many and they
    are all decimal digits. *)
Definition take_digits (n : nat) (s : string) : option (list string) :=
  let digits := take n (Str.chars s) in
  if (length digits =? n)%nat && forallb Str.is_decimal digits
  then Some digits
  else None.

Fixpoint drop_chars (n : nat) (s : string) : string :=
  match n, s with
  | O, _ => s
  | S n', String _ s' => drop_chars n' s'
  | S _, EmptyString => EmptyString
  end.

(** [re.search(r'docId=(WO\d{4}\d{6})', s)] and [match.group(1)]: the
    leftmost place where [docId=WO] is followed by ten decimal digits. *)
Fixpoint re_search_docid (s : string) : option string :=
  match (if Str.prefix "docId=WO" s then take_digits 10 (drop_chars 8 s) else None) with
  | Some digits => Some ("WO" +:+ String.concat EmptyString digits)
  | None =>
      match s with
      | EmptyString => None
      | String _ s' => re_search_docid s'
      end
  end.

(** The loop over the links that fills [wo_numbers]. *)
Definition collect_wo_numbers (hrefs : list string) : list string :=
  foldl (fun wo_numbers href =>
           if Str.contains "detail.jsf?docId=" href
           then match re_search_docid href with
                | Some wo => wo_numbers ++ [wo]
                | None => wo_numbers
                end
           else wo_numbers) [] hrefs.

Definition build_query (molecule : string) (dev_codes : option (list string))
    (cas : option string) : string :=
  let query_parts := [molecule] in
  let query_parts :=
    match dev_codes with
    | Some ((_ :: _) as codes) => query_parts ++ slice_to 3 codes
    | _ => query_parts
    end in
  let query_parts :=
    match cas with
    | Some c => if Str.nonempty c then query_parts ++ [c] else query_parts
    | None => query_parts
    end in
  Str.join " OR " query_parts.

(** The identifier carried by one hyperlink target, if any. *)
Definition link_identifier (href : string) : option string :=
  if Str.contains "detail.jsf?docId=" href then re_search_docid href else None.

(** Deduplication that keeps the first occurrence of every element, as
    the specification words it: the head stays, its later copies go. *)
Fixpoint first_seen (l : list string) : list string :=
  match l with
  | [] => []
  | x :: l' => x :: List.filter (fun y => negb (String.eqb y x)) (first_seen l')
  end.

Section Discovery.

Context {tag : Type} `{Bs4 tag}.
Variable BeautifulSoup : string -> exc tag.

(** [client.get(SEARCH_URL, params={"query": q})] followed by
    [raise_for_status()]: the body of the response, or an exception. *)
Variable http_get : string -> exc string.

Local Open Scope exc_scope.

Definition search_wipo_wo_numbers (molecule : string)
    (dev_codes : option (list string)) (cas : option string) (max_results : Z)
  : list string :=
  let query := build_query molecule dev_codes cas in
  let attempt :=
    text <- http_get ("FP:(" +:+ query +:+ ")");;
    soup <- BeautifulSoup text;;
    hrefs <- find_all_href soup "a";;
    let wo_numbers := collect_wo_numbers hrefs in
    Ok (slice_to max_results (fromkeys wo_numbers)) in
  match attempt with
  | Ok wo_numbers => wo_numbers
  | Raise _ => []
  end.

(** The hyperlink targets of the response body, in document order, or
    the exception of the request, of the parser or of the scan. *)
Definition response_links (molecule : string)
    (dev_codes : option (list string)) (cas : option string) : exc (list string) :=
  text <- http_get ("FP:(" +:+ build_query molecule dev_codes cas +:+ ")");;
  soup <- BeautifulSoup text;;
  find_all_href soup "a".

(** The identifiers of the response body, one per hyperlink that
    carries one, in the order of the links; none when the request, the
    parser or the scan fails. *)
Definition response_identifiers (molecule : string)
    (dev_codes : option (list string)) (cas : option string) : list string :=
  match response_links molecule dev_codes cas with
  | Ok hrefs => omap link_identifier hrefs
  | Raise _ => []
  end.

End Discovery.

(* ===================================================================== *)
(** ** Step 2: page acquisition *)
(* ===================================================================== *)

(** The awaited calls of the source. *)
Inductive call :=
| PlaywrightStart                 (* async_playwright().__aenter__ *)
| Launch                          (* p.chromium.launch *)
| NewContext                      (* browser.new_context *)
| NewPage                         (* context.new_page *)
| Goto (url : string)             (* page.goto *)
| WaitNetworkIdle                 (* page.wait_for_load_state("networkidle") *)
| WaitSelector (selector : string)(* page.wait_for_selector *)
| Content                         (* page.content *)
| BrowserClose.                   (* browser.close *)

(** What an awaited call does: it returns (a text for [Content], nothing
    of interest for the others) or raises.  [CancelledError] is what the
    call raises when [asyncio.wait_for] cancels the unit at this await. *)
Inductive outcome :=
| Returns (text : string)
| Raises (e : base_exception).

Inductive level := INFO | WARNING | ERROR.

(** The log lines of steps 2 and 4 and of the main loop. *)
Inductive message :=
| MsgLoading (wo : string)
| MsgNetworkIdleTimeout (wo : string)
| MsgNeverAppeared (wo : string)
| MsgHtmlLoaded (chars : nat)
| MsgTimeoutLoading (wo : string)
| MsgErrorLoading (wo : string)
| MsgInitFailed (wo : string)
| MsgTimeoutTotal (wo : string)
| MsgUnexpected (wo : string)
| MsgFetchFailed (wo : string)
| MsgExtractFailed (wo : string)
| MsgSearch (molecule : string)
| MsgNoPatents
| MsgProcessingAll (total : nat)
| MsgProcessing (i total : nat) (wo : string)
| MsgComplete (extracted total : nat).

Inductive event :=
| Await (c : call) (o : outcome)       (* an awaited call and what it did *)
| PlaywrightStop                       (* async_playwright().__aexit__ *)
| Log (l : level) (m : message)
| Progress (pct : Z) (msg : string)    (* progress_callback(pct, msg) *)
| Sleep (seconds : nat).               (* asyncio.sleep *)

(** The result of a coroutine: a value, or an exception on its way up. *)
Inductive res (A : Type) :=
| Ret (a : A)
| Throw (e : base_exception).
Arguments Ret {A} a.
Arguments Throw {A} e.

(** Coroutines run against a history of events, which they extend. *)
Definition M (A : Type) : Type := list event -> res A * list event.

Definition ret {A} (a : A) : M A := fun tr => (Ret a, tr).

Definition bind {A B} (m : M A) (k : A -> M B) : M B :=
  fun tr =>
    match m tr with
    | (Ret a, tr') => k a tr'
    | (Throw e, tr') => (Throw e, tr')
    end.

Definition emit (ev : event) : M unit := fun tr => (Ret tt, tr ++ [ev]).

Definition log (l : level) (m : message) : M unit := emit (Log l m).

(** [try: body / except PlaywrightTimeout: h1 / except Exception: h2]:
    one statement with two clauses, so an exception raised by a handler
    is not caught by the other clause. *)
Definition except_PlaywrightTimeout_Exception {A} (body h1 h2 : M A) : M A :=
  fun tr =>
    match body tr with
    | (Throw (Exn PlaywrightTimeout), tr') => h1 tr'
    | (Throw (Exn _), tr') => h2 tr'
    | r => r
    end.

(** [try: body / except PlaywrightTimeout: handler]. *)
Definition except_PlaywrightTimeout {A} (body handler : M A) : M A :=
  fun tr =>
    match body tr with
    | (Throw (Exn PlaywrightTimeout), tr') => handler tr'
    | r => r
    end.

(** [try: body / except Exception: handler].  A [CancelledError] passes. *)
Definition except_Exception {A} (body handler : M A) : M A :=
  fun tr =>
    match body tr with
    | (Throw (Exn _), tr') => handler tr'
    | r => r
    end.

(** [try: body / except asyncio.TimeoutError: h1 / except Exception: h2]. *)
Definition except_TimeoutError_Exception {A} (body h1 h2 : M A) : M A :=
  fun tr =>
    match body tr with
    | (Throw (Exn AsyncioTimeoutError), tr') => h1 tr'
    | (Throw (Exn _), tr') => h2 tr'
    | r => r
    end.

Declare Scope m_scope.
Delimit Scope m_scope with M.
Notation "x <- m ;; k" := (bind m (fun x => k))
  (at level 100, m at next level, right associativity) : m_scope.
Notation "m ;; k" := (bind m (fun _ => k))
  (at level 100, right associativity) : m_scope.

(** The browsers that the code has launched and has not closed itself
    after a history: a [launch] that returns opens one, a
    [browser.close()] that returns closes one.  What leaving the
    [async with async_playwright()] block does to a browser that is
    still open is decided by Playwright, not by the source, and is not
    counted. *)
Definition browser_step (n : nat) (ev : event) : nat :=
  match ev with
  | Await Launch (Returns _) => S n
  | Await BrowserClose (Returns _) => pred n
  | _ => n
  end.

Definition open_browsers (tr : list event) : nat := foldl browser_step O tr.

(** The events a coroutine adds to the history [tr0] it starts from. *)
Definition new_events {A} (m : M A) (tr0 : list event) : list event :=
  drop (length tr0) (snd (m tr0)).

(** What follows the first event that satisfies [p]. *)
Fixpoint events_after (p : event -> bool) (tr : list event) : list event :=
  match tr with
  | [] => []
  | ev :: tr' => if p ev then tr' else events_after p tr'
  end.

Definition is_settle_timeout (ev : event) : bool :=
  match ev with
  | Await WaitNetworkIdle (Raises (Exn PlaywrightTimeout)) => true
  | _ => false
  end.

Definition is_gate_wait (ev : event) : bool :=
  match ev with
  | Await (WaitSelector _) _ => true
  | _ => false
  end.

Definition is_gate_timeout (ev : event) : bool :=
  match ev with
  | Await (WaitSelector _) (Raises (Exn PlaywrightTimeout)) => true
  | _ => false
  end.

Definition is_content (ev : event) : bool :=
  match ev with
  | Await Content _ => true
  | _ => false
  end.

Definition is_close (ev : event) : bool :=
  match ev with
  | Await BrowserClose _ => true
  | _ => false
  end.

Definition is_page_created (ev : event) : bool :=
  match ev with
  | Await NewPage (Returns _) => true
  | _ => false
  end.

Definition is_cancelled (ev : event) : bool :=
  match ev with
  | Await _ (Raises CancelledError) => true
  | _ => false
  end.

(** The identifier of a unit-failure log line of [process_wo_safe] and
    [_process_wo_internal]. *)
Definition failure_of (ev : event) : option string :=
  match ev with
  | Log ERROR (MsgFetchFailed wo) => Some wo
  | Log ERROR (MsgExtractFailed wo) => Some wo
  | Log ERROR (MsgTimeoutTotal wo) => Some wo
  | Log ERROR (MsgUnexpected wo) => Some wo
  | _ => None
  end.

(** The index and identifier of a "[i/total] Processing ..." log line. *)
Definition processing_of (ev : event) : option (nat * string) :=
  match ev with
  | Log INFO (MsgProcessing i _ wo) => Some (i, wo)
  | _ => None
  end.

Definition progress_of (ev : event) : option (Z * string) :=
  match ev with
  | Progress pct msg => Some (pct, msg)
  | _ => None
  end.

Definition sleep_of (ev : event) : option nat :=
  match ev with
  | Sleep n => Some n
  | _ => None
  end.

Definition DETAIL_URL : string := "https://patentscope.wipo.int/search/en/detail.jsf".

(** The selector [text="Publication Number"] of the readiness gate. *)
Definition READY_SELECTOR : string :=
  let quote := String (ascii_of_nat 34) EmptyString in
  "text=" +:+ quote +:+ "Publication Number" +:+ quote.

Section Acquisition.

(** The outside world: what each awaited call does, given everything
    that happened before it. *)
Variable world : list event -> call -> outcome.

Local Open Scope m_scope.

Definition await (c : call) : M string :=
  fun tr =>
    match world tr c with
    | Returns s => (Ret s, tr ++ [Await c (Returns s)])
    | Raises e => (Throw e, tr ++ [Await c (Raises e)])
    end.

(** [async with async_playwright() as p: body]. *)
Definition with_async_playwright {A} (body : M A) : M A :=
  _ <- await PlaywrightStart;;
  fun tr =>
    let (r, tr') := body tr in
    (r, tr' ++ [PlaywrightStop]).

(** The readiness gate of [fetch_detail_html]: [true] when the marker
    appeared; on a timeout the handler logs, closes the browser and the
    function returns [None], which is [false] here. *)
Definition readiness_gate (wo_number : string) : M bool :=
  except_PlaywrightTimeout
    (_ <- await (WaitSelector READY_SELECTOR);; ret true)
    (log ERROR (MsgNeverAppeared wo_number);;
     _ <- await BrowserClose;;
     ret false).

Definition fetch_detail_html (wo_number : string) (headless : bool)
  : M (option string) :=
  let url := DETAIL_URL +:+ "?docId=" +:+ wo_number in
  except_Exception
    (with_async_playwright
       (_ <- await Launch;;
        _ <- await NewContext;;
        _ <- await NewPage;;
        except_PlaywrightTimeout_Exception
             (log INFO (MsgLoading wo_number);;
              _ <- await (Goto url);;
              except_PlaywrightTimeout
                (_ <- await WaitNetworkIdle;; ret tt)
                (log WARNING (MsgNetworkIdleTimeout wo_number));;
              ready <- readiness_gate wo_number;;
              if ready : bool then
                html <- await Content;;
                _ <- await BrowserClose;;
                log INFO (MsgHtmlLoaded (Str.len html));;
                ret (Some html)
              else ret None)
             (log ERROR (MsgTimeoutLoading wo_number);;
              _ <- await BrowserClose;;
              ret None)
             (log ERROR (MsgErrorLoading wo_number);;
              _ <- await BrowserClose;;
              ret None)))
    (log ERROR (MsgInitFailed wo_number);;
     ret None).

End Acquisition.

(* ===================================================================== *)
(** ** Python floats *)
(* ===================================================================== *)

(** IEEE 754 binary64, round to nearest even, as CPython's [float]. *)
Module Float.

Definition prec : Z := 53.
Definition emax : Z := 1024.

(** [float(n)] for a natural number. *)
Definition of_nat (n : nat) : spec_float :=
  binary_normalize prec emax (Z.of_nat n) 0 false.

Definition div (x y : spec_float) : spec_float := SFdiv prec emax x y.
Definition mul (x y : spec_float) : spec_float := SFmul prec emax x y.

(** The integer part of a finite, positive or negative, binary
    fraction [m * 2^e], rounded toward zero. *)
Definition truncate (s : bool) (m : positive) (e : Z) : Z :=
  let a := match e with
           | Zneg p => Z.shiftr (Zpos m) (Zpos p)
           | _ => Z.shiftl (Zpos m) e
           end in
  if s then - a else a.

(** [int(x)]: truncation toward zero.  On an infinity or a NaN Python
    raises; no quotient of a list index by the list's length is one,
    and [0] stands for that case here. *)
Definition to_int (x : spec_float) : Z :=
  match x with
  | S754_finite s m e => truncate s m e
  | _ => 0
  end.

(** [round(x)]: the nearest integer, ties to the even one. *)
Definition round (x : spec_float) : Z :=
  match x with
  | S754_finite s m (Zneg p) =>
      let q := Z.shiftr (Zpos m) (Zpos p) in
      let r := Zpos m - Z.shiftl q (Zpos p) in
      let half := Z.shiftl 1 (Zpos p - 1) in
      let a := if (half <? r) || ((half =? r) && Z.odd q) then q + 1 else q in
      if s then - a else a
  | _ => to_int x
  end.

End Float.

(* ===================================================================== *)
(** ** Steps 4 and 5: one identifier, then the batch *)
(* ===================================================================== *)

(** [(i / total) * 100]. *)
Definition percent_product (i total : nat) : spec_float :=
  Float.mul (Float.div (Float.of_nat i) (Float.of_nat total)) (Float.of_nat 100).

(** [int((i / total) * 100)]. *)
Definition progress_pct (i total : nat) : Z :=
  Float.to_int (percent_product i total).

(** The product is a finite number, and its integer part lies between 0
    and 100 and is the exact quotient [100 * i / total] or one less. *)
Definition percent_in_range (i total : nat) : bool :=
  match percent_product i total with
  | S754_finite _ _ _ =>
      let p := progress_pct i total in
      let q := (100 * Z.of_nat i) / Z.of_nat total in
      (0 <=? p) && (p <=? 100) && ((p =? q) || (p =? q - 1))
  | _ => false
  end.

(** [str(n)]. *)
Definition str_of_nat (n : nat) : string := NilZero.string_of_uint (Nat.to_uint n).

(** [f"Processing {wo_number} ({i}/{total})"]. *)
Definition progress_message (wo_number : string) (i total : nat) : string :=
  "Processing " +:+ wo_number +:+ " (" +:+ str_of_nat i +:+ "/"
    +:+ str_of_nat total +:+ ")".

(** Truthiness of a [dict]. *)
Definition dict_truthy {V} (d : gmap string V) : bool :=
  negb (bool_decide (d = ∅)).

(** [round((i / total) * 100)], the percentage as the specification
    words it. *)
Definition claimed_pct (i total : nat) : Z :=
  Float.round (percent_product i total).

(** [data["wo_number"]]. *)
Definition record_identifier (data : gmap string top_value) : option string :=
  match data !! "wo_number" with
  | Some (TStr s) => Some s
  | _ => None
  end.

(** The log line that reports the failure of a unit, if it failed. *)
Definition unit_failure (wo_number : string) (unit : option (gmap string top_value))
  : option string :=
  match unit with
  | Some _ => None
  | None => Some wo_number
  end.

Section Coordinator.

Context {tag : Type} `{Bs4 tag}.
Variable BeautifulSoup : string -> exc tag.
Variable http_get : string -> exc string.
Variable world : list event -> call -> outcome.

Local Open Scope m_scope.

(** A call that is not awaited: its exception, if it raises, is on its
    way up from here. *)
Definition call_sync {A} (r : exc A) : M A :=
  fun tr =>
    match r with
    | Ok a => (Ret a, tr)
    | Raise e => (Throw (Exn e), tr)
    end.

(** [asyncio.wait_for(coro, timeout=60.0)].  When the time is up the
    coroutine is cancelled at the await it is suspended on, and once
    the [CancelledError] has left it [wait_for] raises
    [asyncio.TimeoutError]. *)
Definition wait_for {A} (coro : M A) : M A :=
  fun tr =>
    match coro tr with
    | (Throw CancelledError, tr') => (Throw (Exn AsyncioTimeoutError), tr')
    | r => r
    end.

Definition _process_wo_internal (wo_number : string) (headless : bool)
  : M (option (gmap string top_value)) :=
  html <- fetch_detail_html world wo_number headless;;
  if negb (truthy html) then
    log ERROR (MsgFetchFailed wo_number);;
    ret None
  else
    data <- call_sync (parse_biblio_data BeautifulSoup (default EmptyString html) wo_number);;
    if negb (extraction_successful data) then
      log ERROR (MsgExtractFailed wo_number);;
      ret None
    else ret (Some data).

Definition process_wo_safe (wo_number : string) (headless : bool)
  : M (option (gmap string top_value)) :=
  except_TimeoutError_Exception
    (wait_for (_process_wo_internal wo_number headless))
    (log ERROR (MsgTimeoutTotal wo_number);; ret None)
    (log ERROR (MsgUnexpected wo_number);; ret None).

(** The [for i, wo_number in enumerate(wo_numbers, 1)] loop, from index
    [i] on, with the [results] accumulated so far.  [progress_callback]
    tells whether a callback was passed; its calls are [Progress]
    events. *)
Fixpoint process_all (progress_callback headless : bool) (total i : nat)
    (wo_numbers : list string) (results : list (gmap string top_value))
  : M (list (gmap string top_value)) :=
  match wo_numbers with
  | [] => ret results
  | wo_number :: rest =>
      log INFO (MsgProcessing i total wo_number);;
      (if progress_callback
       then emit (Progress (progress_pct i total) (progress_message wo_number i total))
       else ret tt);;
      data <- process_wo_safe wo_number headless;;
      let results :=
        match data with
        | Some d => if dict_truthy d then results ++ [d] else results
        | None => results
        end in
      (if (i <? total)%nat then emit (Sleep 1) else ret tt);;
      process_all progress_callback headless total (S i) rest results
  end.

Definition search_wipo_patents (molecule : string)
    (dev_codes : option (list string)) (cas : option string) (max_results : Z)
    (progress_callback headless : bool)
  : M (list (gmap string top_value)) :=
  log INFO (MsgSearch molecule);;
  (if progress_callback then emit (Progress 0 "Searching WIPO...") else ret tt);;
  let wo_numbers :=
    search_wipo_wo_numbers BeautifulSoup http_get molecule dev_codes cas max_results in
  match wo_numbers with
  | [] =>
      log WARNING MsgNoPatents;;
      ret []
  | _ :: _ =>
      let wo_numbers := slice_to max_results wo_numbers in
      let total := length wo_numbers in
      log INFO (MsgProcessingAll total);;
      results <- process_all progress_callback headless total 1 wo_numbers [];;
      log INFO (MsgComplete (length results) total);;
      ret results
  end.

(** What the unit of one identifier returned, when it is a record: the
    record extracted from some document for that identifier, with
    [extraction_successful] true. *)
Definition unit_ok (wo_number : string) (unit : option (gmap string top_value))
  : Prop :=
  forall d, unit = Some d ->
    exists html, parse_biblio_data BeautifulSoup html wo_number = Ok d
                 /\ extraction_successful d = true.

End Coordinator.

(* ===================================================================== *)
(** ** Records and sample documents *)
(* ===================================================================== *)

(** The dictionary [parse_biblio_data] returns when the eleven
    extractions gave these values. *)
Definition biblio_record (wo_number : string)
    (pub_number pub_date app_number filing_date title abstract priority : option string)
    (applicants inventors ipc_codes cpc_codes : list string)
  : gmap string top_value :=
  let data :=
    <["biblio_data" := TDict
        (<["publication_number" := of_optional pub_number]>
        (<["publication_date" := of_optional pub_date]>
        (<["application_number" := of_optional app_number]>
        (<["filing_date" := of_optional filing_date]>
        (<["title" := of_optional title]>
        (<["abstract" := of_optional abstract]>
        (<["applicants" := VList applicants]>
        (<["inventors" := VList inventors]>
        (<["ipc_codes" := VList ipc_codes]>
        (<["cpc_codes" := VList cpc_codes]>
        (<["priority_data" := of_optional priority]> ∅)))))))))))]>
      (initial_data wo_number) in
  if truthy pub_number && truthy title
  then <["extraction_successful" := TBool true]> data
  else data.

Module Examples.
Import Dom.

Definition person_list (names : list string) : list node :=
  [ Tag "span" ["patent-person"] None
      [ Tag "ul" ["biblio-person-list"] None
          (map (fun n => Tag "li" [] None
                  [Tag "span" ["biblio-person-list--name"] None [NavigableString n]])
               names) ] ].

Definition classification (code version : string) : node :=
  Tag "div" ["patent-classification"] None
    [ Tag "a" [] (Some "#") [NavigableString code];
      Tag "span" [] None [NavigableString version] ].

(** A detail page with every field. *)
Definition full_page : list node :=
  [ Tag "html" [] None
      [ Tag "body" [] None
          [ ps_field "Publication Number" [NavigableString " WO/2019/028689 "];
            ps_field "Publication Date" [NavigableString "14.02.2019"];
            ps_field "International Application No." [NavigableString "PCT/CN2017/096620"];
            ps_field "International Filing Date" [NavigableString "09.08.2017"];
            ps_field "IPC"
              [classification "C07D 231/14" "2006.1"; classification "A61K 31/415" "2006.1"];
            ps_field "CPC" [classification "A61P 35/00" "2018.1"];
            ps_field "Applicants" (person_list ["ACME PHARMA"; " "; "BETA LABS"]);
            ps_field "Inventors" (person_list ["DOE, Jane"]);
            ps_field "Title" [NavigableString "(EN) CRYSTALLINE FORM"];
            ps_field "Abstract" [NavigableString "A crystalline "; Tag "b" [] None [NavigableString " form "]];
            ps_field "Priority Data" [] ] ] ].

(** A page without the "Publication Number" and "Title" fields. *)
Definition partial_page : list node :=
  [ Tag "html" [] None
      [ Tag "body" [] None
          [ ps_field "Publication Date" [NavigableString "14.02.2019"];
            ps_field "IPC" [classification "C07D 231/14" "2006.1"];
            ps_field "Applicants" (person_list ["ACME PHARMA"]);
            ps_field "Abstract" [NavigableString "  "] ] ] ].

(** A page with none of the labelled fields. *)
Definition empty_page : list node :=
  [ Tag "html" [] None
      [ Tag "body" [] None [ Tag "p" [] None [NavigableString "No data"] ] ] ].

(** A result page: seven links, five distinct identifiers. *)
Definition result_page : list node :=
  [ Tag "html" [] None
      [ Tag "body" [] None
          (map (fun h => Tag "a" [] (Some h) [NavigableString "link"])
             [ "/search/en/detail.jsf?docId=WO2019028689";
               "/search/en/detail.jsf?docId=WO2018036558&tab=PCT";
               "/search/en/detail.jsf?docId=WO2019028689";
               "/search/en/help.jsf";
               "/search/en/detail.jsf?docId=WO2017000111";
               "/search/en/detail.jsf?docId=WO2018036558";
               "/search/en/detail.jsf?docId=WO2016000222";
               "/search/en/detail.jsf?docId=WO2015000333";
               "/search/en/detail.jsf?docId=WO2014000444";
               "/search/en/detail.jsf?docId=US2014000444" ]) ] ].

(** A parser that accepts every markup and builds [page] from it. *)
Definition parse_as (page : list node) (html : string) : exc element :=
  Ok (soup_of page).

(** A markup that [html.parser] rejects: a marked section with an
    unknown keyword. *)
Definition rejected_markup : string := "<![zz[ x ]]>".

(** A parser that rejects [rejected_markup] and builds [page] from any
    other markup. *)
Definition parse_rejecting (page : list node) (html : string) : exc element :=
  if String.eqb html rejected_markup
  then Raise (Error "ParserRejectedMarkup")
  else Ok (soup_of page).

(** A page whose only field is labelled CPC. *)
Definition cpc_only_page : list node :=
  [ Tag "html" [] None
      [ Tag "body" [] None
          [ ps_field "CPC" [classification "A61P 35/00" "2018.1"] ] ] ].

(** The raw text of that page. *)
Definition cpc_only_html : string :=
  "<html><body><div class='ps-field ps-biblio-field'>"
    +:+ "<span class='ps-field--label'>CPC</span>"
    +:+ "<span class='ps-field--value'><div class='patent-classification'>"
    +:+ "<a href='#'>A61P 35/00</a><span>2018.1</span></div></span>"
    +:+ "</div></body></html>".

(** A search service that answers every query with the same body. *)
Definition http_ok (query : string) : exc string := Ok "<html>results</html>".

(** The raw text of a detail page that mentions CPC. *)
Definition detail_html : string := "<html><span>IPC</span><span>CPC</span></html>".

(** The parser on the two documents of the site: the result list for the
    body of the search response, the detail page for [detail_html]. *)
Definition parse_site (html : string) : exc element :=
  if String.eqb html detail_html then Ok (soup_of full_page)
  else Ok (soup_of result_page).

(** The URL of the last navigation of a history. *)
Definition last_goto (tr : list event) : option string :=
  last (omap (fun ev => match ev with
                        | Await (Goto url) _ => Some url
                        | _ => None
                        end) tr).

(** Every call returns; the page content is [html]. *)
Definition world_ok (html : string) (tr : list event) (c : call) : outcome :=
  match c with
  | Content => Returns html
  | _ => Returns EmptyString
  end.

(** The readiness marker never appears on the page of [wo_number]. *)
Definition world_marker_missing (wo_number html : string) (tr : list event) (c : call)
  : outcome :=
  match c with
  | WaitSelector _ =>
      if bool_decide (last_goto tr = Some (DETAIL_URL +:+ "?docId=" +:+ wo_number))
      then Raises (Exn PlaywrightTimeout)
      else Returns EmptyString
  | Content => Returns html
  | _ => Returns EmptyString
  end.

(** The network never goes quiet and the marker never appears. *)
Definition world_timeouts (tr : list event) (c : call) : outcome :=
  match c with
  | WaitNetworkIdle => Raises (Exn PlaywrightTimeout)
  | WaitSelector _ => Raises (Exn PlaywrightTimeout)
  | _ => Returns EmptyString
  end.

(** The unit is cancelled while the page content is read. *)
Definition world_cancelled (tr : list event) (c : call) : outcome :=
  match c with
  | Content => Raises CancelledError
  | _ => Returns EmptyString
  end.

End Examples.

(* ===================================================================== *)
(** ** Further definitions for the properties of each step *)
(* ===================================================================== *)

(** The shape [WO\d{4}\d{6}] of a document identifier: the two letters
    and ten characters, each a decimal digit. *)
Definition is_wo_number (s : string) : Prop :=
  exists digits : list string,
    s = "WO" +:+ String.concat EmptyString digits
    /\ length digits = 10%nat
    /\ Forall (fun ch => Str.is_decimal ch = true) digits.

(** A no-break space, U+00A0, and the digit one of the full-width
    digits, U+FF11. *)
Definition nbsp : string :=
  String (ascii_of_nat 194) (String (ascii_of_nat 160) EmptyString).

Definition fullwidth_one : string :=
  String (ascii_of_nat 239) (String (ascii_of_nat 188)
    (String (ascii_of_nat 145) EmptyString)).

Section ListFields.

Context {tag : Type} `{Bs4 tag}.

(** What the loop of [extract_list_field] takes from one list item: the
    text of its name element when there is one and the text is not
    empty, nothing otherwise. *)
Definition item_name (li : tag) (name : option string) : Prop :=
  match name with
  | Some text =>
      exists name_span,
        find li "span" (Some "biblio-person-list--name") None = Ok (Some name_span)
        /\ get_text name_span EmptyString = Ok text
        /\ text <> EmptyString
  | None =>
      find li "span" (Some "biblio-person-list--name") None = Ok None
      \/ exists name_span,
           find li "span" (Some "biblio-person-list--name") None = Ok (Some name_span)
           /\ get_text name_span EmptyString = Ok EmptyString
  end.

(** The label is found, it has a field container, the container has a
    person list, and the items of the list give [names], in order. *)
Definition persons_resolve_to (soup : tag) (label_text : string)
    (names : list string) : Prop :=
  exists label field_div person_list lis items,
    find soup "span" (Some "ps-field--label") (Some label_text) = Ok (Some label)
    /\ find_parent label "div" "ps-field" = Ok (Some field_div)
    /\ find field_div "ul" (Some "biblio-person-list") None = Ok (Some person_list)
    /\ find_all person_list "li" None = Ok lis
    /\ Forall2 item_name lis items
    /\ names = omap id items.

(** What the loop of [extract_ipc_codes] takes from one classification
    entry: the text of its link when there is one and the text is not
    empty. *)
Definition entry_code (classification : tag) (code : option string) : Prop :=
  match code with
  | Some text =>
      exists link,
        find classification "a" None None = Ok (Some link)
        /\ get_text link EmptyString = Ok text
        /\ text <> EmptyString
  | None =>
      find classification "a" None None = Ok None
      \/ exists link,
           find classification "a" None None = Ok (Some link)
           /\ get_text link EmptyString = Ok EmptyString
  end.

(** The label "IPC" is found, it has a field container, and the
    classification entries of the container give [codes], in order. *)
Definition codes_resolve_to (soup : tag) (codes : list string) : Prop :=
  exists label field_div classifications entries,
    find soup "span" (Some "ps-field--label") (Some "IPC") = Ok (Some label)
    /\ find_parent label "div" "ps-field" = Ok (Some field_div)
    /\ find_all field_div "div" (Some "patent-classification") = Ok classifications
    /\ Forall2 entry_code classifications entries
    /\ codes = omap id entries.

End ListFields.

(** The keys of the record and of its [biblio_data] dictionary. *)
Definition record_keys : list string :=
  ["wo_number"; "source"; "extraction_successful"; "biblio_data"].

Definition biblio_keys : list string :=
  ["publication_number"; "publication_date"; "application_number"; "filing_date";
   "title"; "abstract"; "applicants"; "inventors"; "ipc_codes"; "cpc_codes";
   "priority_data"].

Definition list_keys : list string :=
  ["applicants"; "inventors"; "ipc_codes"; "cpc_codes"].

(** One person and a list of persons, one classification entry: the
    markup of [Examples.person_list] and [Examples.classification]. *)
Definition li_of (n : string) : Dom.node :=
  Dom.Tag "li" [] None
    [Dom.Tag "span" ["biblio-person-list--name"] None [Dom.NavigableString n]].

Definition ul_of (names : list string) : Dom.node :=
  Dom.Tag "ul" ["biblio-person-list"] None (map li_of names).

Definition entry_of (e : string * string) : Dom.node :=
  Examples.classification (fst e) (snd e).

(** What the value element of a rendered field holds: a text, a list of
    persons, or a list of classification entries (code and version). *)
Inductive field_content :=
| Scalar (text : string)
| Persons (names : list string)
| Classes (entries : list (string * string)).

Definition render_content (c : field_content) : list Dom.node :=
  match c with
  | Scalar text => [Dom.NavigableString text]
  | Persons names => Examples.person_list names
  | Classes entries => map entry_of entries
  end.

Definition render_field (f : string * field_content) : Dom.node :=
  Dom.ps_field (fst f) (render_content (snd f)).

(** A detail page: the fields, one block each, in the body of the
    document. *)
Definition page_body (fields : list (string * field_content)) : Dom.node :=
  Dom.Tag "body" [] None (map render_field fields).

Definition page_html (fields : list (string * field_content)) : Dom.node :=
  Dom.Tag "html" [] None [page_body fields].

Definition render_page (fields : list (string * field_content)) : Dom.element :=
  Dom.soup_of [page_html fields].

(** The ancestors of a field block of the page, nearest first. *)
Definition block_parents (fields : list (string * field_content)) : list Dom.node :=
  [page_body fields; page_html fields; Dom.el_node (render_page fields)].

(** The first field whose label the label text matches, and its
    content. *)
Fixpoint first_match (label_text : string) (fields : list (string * field_content))
  : option (string * field_content) :=
  match fields with
  | [] => None
  | f :: rest =>
      if Str.re_search_ignorecase label_text (fst f) then Some f
      else first_match label_text rest
  end.

Definition first_field (label_text : string) (fields : list (string * field_content))
  : option field_content :=
  snd <$> first_match label_text fields.

(** The label element, the block and the value element of a field of a
    page, as the document calls return them. *)
Definition block_el (fields : list (string * field_content))
    (f : string * field_content) : Dom.element :=
  {| Dom.el_node := render_field f; Dom.el_parents := block_parents fields |}.

Definition label_el (fields : list (string * field_content))
    (f : string * field_content) : Dom.element :=
  {| Dom.el_node :=
       Dom.Tag "span" ["ps-field--label"] None [Dom.NavigableString (fst f)];
     Dom.el_parents := render_field f :: block_parents fields |}.

Definition value_el (fields : list (string * field_content))
    (f : string * field_content) : Dom.element :=
  {| Dom.el_node := Dom.Tag "span" ["ps-field--value"] None (render_content (snd f));
     Dom.el_parents := render_field f :: block_parents fields |}.

(** A text as [get_text(strip=True)] returns it, absent when empty. *)
Definition stripped (text : string) : option string :=
  let t := Str.strip text in
  if Str.nonempty t then Some t else None.

(** The texts that are not empty once stripped, stripped. *)
Definition stripped_all (texts : list string) : list string :=
  omap stripped texts.

(** What each extractor reads from the content of the field it found. *)
Definition scalar_of (c : option field_content) : option string :=
  match c with
  | Some (Scalar text) => stripped text
  | _ => None
  end.

Definition persons_of (c : option field_content) : list string :=
  match c with
  | Some (Persons names) => stripped_all names
  | _ => []
  end.

Definition codes_of (c : option field_content) : list string :=
  match c with
  | Some (Classes entries) => stripped_all (map fst entries)
  | _ => []
  end.


(** The list element of a field of persons. *)
Definition ul_el (fields : list (string * field_content)) (l : string)
    (names : list string) : Dom.element :=
  {| Dom.el_node := ul_of names;
     Dom.el_parents :=
       Dom.Tag "span" ["patent-person"] None [ul_of names]
         :: Dom.el_node (value_el fields (l, Persons names))
         :: Dom.el_parents (value_el fields (l, Persons names)) |}.

(** The awaited call of an event. *)
Definition awaited (ev : event) : option call :=
  match ev with
  | Await c _ => Some c
  | _ => None
  end.

(** The calls of [fetch_detail_html] when nothing fails, in order. *)
Definition happy_calls (wo_number : string) : list call :=
  [ PlaywrightStart; Launch; NewContext; NewPage;
    Goto (DETAIL_URL +:+ "?docId=" +:+ wo_number);
    WaitNetworkIdle; WaitSelector READY_SELECTOR; Content; BrowserClose ].

(** A call that raised, other than the quiet-network wait timing out. *)
Definition is_fatal (ev : event) : bool :=
  match ev with
  | Await WaitNetworkIdle (Raises (Exn PlaywrightTimeout)) => false
  | Await _ (Raises _) => true
  | _ => false
  end.

(** The navigation raised an exception. *)
Definition is_goto_failure (ev : event) : bool :=
  match ev with
  | Await (Goto _) (Raises (Exn _)) => true
  | _ => false
  end.

(** The browser, its context or its page could not be created. *)
Definition is_init_failure (ev : event) : bool :=
  match ev with
  | Await Launch (Raises (Exn _)) => true
  | Await NewContext (Raises (Exn _)) => true
  | Await NewPage (Raises (Exn _)) => true
  | _ => false
  end.

Definition is_settle_wait (ev : event) : bool :=
  match ev with
  | Await WaitNetworkIdle _ => true
  | _ => false
  end.

Definition is_stop (ev : event) : bool :=
  match ev with
  | PlaywrightStop => true
  | _ => false
  end.

(** A browser was launched; a [browser.close()] returned; a
    [browser.close()] raised. *)
Definition is_launched (ev : event) : bool :=
  match ev with
  | Await Launch (Returns _) => true
  | _ => false
  end.

Definition is_closed (ev : event) : bool :=
  match ev with
  | Await BrowserClose (Returns _) => true
  | _ => false
  end.

Definition is_close_failure (ev : event) : bool :=
  match ev with
  | Await BrowserClose (Raises _) => true
  | _ => false
  end.

(** The page content that a history read, if it did. *)
Definition content_of (ev : event) : option string :=
  match ev with
  | Await Content (Returns html) => Some html
  | _ => None
  end.

(** The events of one identifier in the batch: the "Processing" line,
    the progress call when a callback was passed, the events of the unit,
    and the pacing sleep unless the identifier is the last. *)
Definition unit_block (progress_callback : bool) (total i : nat)
    (wo_number : string) (unit_events : list event) : list event :=
  [Log INFO (MsgProcessing i total wo_number)]
    ++ (if progress_callback
        then [Progress (progress_pct i total) (progress_message wo_number i total)]
        else [])
    ++ unit_events
    ++ (if (i <? total)%nat then [Sleep 1] else []).

Fixpoint batch_blocks (progress_callback : bool) (total i : nat)
    (wo_numbers : list string) (units : list (list event)) : list event :=
  match wo_numbers, units with
  | wo_number :: wo_numbers', unit_events :: units' =>
      unit_block progress_callback total i wo_number unit_events
        ++ batch_blocks progress_callback total (S i) wo_numbers' units'
  | _, _ => []
  end.

(** The rhythm of a batch: the start of the unit of index [i], a pause
    of some seconds. *)
Inductive tick :=
| Start (i : nat)
| Pause (seconds : nat).

Definition tick_of (ev : event) : option tick :=
  match ev with
  | Log INFO (MsgProcessing i _ _) => Some (Start i)
  | Sleep n => Some (Pause n)
  | _ => None
  end.

Definition is_unexpected (ev : event) : bool :=
  match ev with
  | Log ERROR (MsgUnexpected _) => true
  | _ => false
  end.

Definition is_await (ev : event) : bool :=
  match ev with
  | Await _ _ => true
  | _ => false
  end.

Definition is_start (ev : event) : bool :=
  match ev with
  | Await PlaywrightStart _ => true
  | _ => false
  end.

Definition is_start_call (c : call) : bool :=
  match c with
  | PlaywrightStart => true
  | _ => false
  end.

(** A run of the unit of [wo_number]: what [process_wo_safe] returned
    and the events it added, from some history. *)
Definition unit_run {tag : Type} `{Bs4 tag} (BeautifulSoup : string -> exc tag)
    (world : list event -> call -> outcome) (headless : bool)
    (wo_number : string) (run : option (gmap string top_value) * list event) : Prop :=
  exists tr, process_wo_safe BeautifulSoup world wo_number headless tr
             = (Ret run.1, tr ++ run.2).

(** The units of a batch, run one after the other: from the history
    [tr], the unit of each identifier is [process_wo_safe], run from the
    history as it stands after the "Processing" line and the progress
    call of that identifier; [runs] holds what each returned and the
    events it added. *)
Fixpoint batch_runs {tag : Type} `{Bs4 tag} (BeautifulSoup : string -> exc tag)
    (world : list event -> call -> outcome) (progress_callback headless : bool)
    (total i : nat) (wo_numbers : list string)
    (runs : list (option (gmap string top_value) * list event))
    (tr : list event) : Prop :=
  match wo_numbers, runs with
  | [], [] => True
  | wo_number :: wo_numbers', run :: runs' =>
      let tr1 :=
        tr ++ [Log INFO (MsgProcessing i total wo_number)]
           ++ (if progress_callback
               then [Progress (progress_pct i total)
                       (progress_message wo_number i total)]
               else []) in
      process_wo_safe BeautifulSoup world wo_number headless tr1
      = (Ret run.1, tr1 ++ run.2)
      /\ batch_runs BeautifulSoup world progress_callback headless total (S i)
           wo_numbers' runs'
           (tr1 ++ run.2 ++ (if (i <? total)%nat then [Sleep 1] else []))
  | _, _ => False
  end.

(** The percentages of a batch of [total] identifiers: each is within 0
    and 100 and is the exact quotient or one below it, none is below the
    one before, and the last one is 100. *)
Definition percents_well_behaved (total : nat) : bool :=
  forallb (fun i => percent_in_range i total
                    && (progress_pct (i - 1) total <=? progress_pct i total))
    (seq 1 total)
  && (progress_pct total total =? 100).

(** Sample services and pages for the further properties. *)

(** A search service that is down. *)
Definition http_down (query : string) : exc string := Raise (Error "connection refused").

(** A result page with two links, to two documents. *)
Definition two_links_page : list Dom.node :=
  [ Dom.Tag "html" [] None
      [ Dom.Tag "body" [] None
          (map (fun h => Dom.Tag "a" [] (Some h) [Dom.NavigableString "link"])
             [ "/search/en/detail.jsf?docId=WO2019028689";
               "/search/en/detail.jsf?docId=WO2018036558&tab=PCT" ]) ] ].

(** The navigation fails. *)
Definition world_goto_fails (tr : list event) (c : call) : outcome :=
  match c with
  | Goto _ => Raises (Exn (Error "net::ERR_NAME_NOT_RESOLVED"))
  | _ => Returns EmptyString
  end.


(** A detail page given by its fields. *)
Definition sample_fields : list (string * field_content) :=
  [ ("Publication Number", Scalar " WO/2019/028689 ");
    ("Subtitle", Scalar "not the title");
    ("Title", Scalar "(EN) CRYSTALLINE FORM");
    ("Abstract", Scalar "   ");
    ("IPC", Classes [("C07D 231/14", "2006.1"); (" ", "2006.1"); ("C07D 231/14", "2006.1")]);
    ("Applicants", Persons ["ACME PHARMA"; nbsp; "BETA LABS " +:+ nbsp]) ].

(* ===================================================================== *)
(** * Theorems *)
(* ===================================================================== *)

(** ** Discovery *)

Lemma slice_to_nonneg {A} (n : Z) (l : list A) :
  0 <= n -> slice_to n l = take (Z.to_nat n) l.
Proof.
  intros Hn. unfold slice_to.
  destruct (Z.leb_spec 0 n) as [_|Hlt]; [reflexivity | lia].
Qed.

Lemma slice_to_nil {A} (n : Z) : slice_to n (@nil A) = [].
Proof. unfold slice_to. destruct (0 <=? n); apply take_nil. Qed.

Lemma filter_first_seen_ext (P Q : string -> bool) (l : list string) :
  (forall y, P y = Q y) -> List.filter P l = List.filter Q l.
Proof.
  intros HPQ. induction l as [|a l IH]; simpl; [reflexivity|].
  rewrite HPQ, IH. reflexivity.
Qed.

Lemma filter_filter_bool (P Q : string -> bool) (l : list string) :
  List.filter P (List.filter Q l) = List.filter (fun y => Q y && P y) l.
Proof.
  induction l as [|a l IH]; simpl; [reflexivity|].
  destruct (Q a); simpl; [destruct (P a)|]; rewrite IH; reflexivity.
Qed.

(** The dictionary-based loop of the source, started from the keys [d],
    keeps [d] and appends the first occurrences that are not in [d]. *)
Lemma fromkeys_loop (l d : list string) :
  foldl (fun d k => if decide (k ∈ d) then d else d ++ [k]) d l =
  d ++ List.filter (fun y => negb (bool_decide (y ∈ d))) (first_seen l).
Proof.
  revert d. induction l as [|x l IH]; intros d; simpl.
  - by rewrite app_nil_r.
  - destruct (decide (x ∈ d)) as [Hin|Hnin].
    + rewrite IH. f_equal.
      rewrite (bool_decide_eq_true_2 _ Hin). simpl.
      rewrite filter_filter_bool. apply filter_first_seen_ext.
      intros y. destruct (String.eqb_spec y x) as [->|Hne]; simpl.
      * by rewrite (bool_decide_eq_true_2 _ Hin).
      * reflexivity.
    + rewrite IH. rewrite <- app_assoc. f_equal. simpl.
      rewrite (bool_decide_eq_false_2 _ Hnin). simpl. f_equal.
      rewrite filter_filter_bool. apply filter_first_seen_ext.
      intros y. destruct (String.eqb_spec y x) as [->|Hne]; simpl.
      * apply negb_false_iff, bool_decide_eq_true_2.
        apply elem_of_app. right. by apply list_elem_of_singleton.
      * f_equal. apply bool_decide_ext.
        rewrite elem_of_app, list_elem_of_singleton. tauto.
Qed.

Lemma fromkeys_first_seen (l : list string) : fromkeys l = first_seen l.
Proof.
  unfold fromkeys. rewrite fromkeys_loop. simpl.
  induction (first_seen l) as [|a r IH]; simpl; [reflexivity|].
  by rewrite IH.
Qed.

Lemma elem_of_filter_bool (P : string -> bool) (l : list string) (x : string) :
  x ∈ List.filter P l <-> x ∈ l /\ P x = true.
Proof. rewrite !list_elem_of_In. apply filter_In. Qed.

Lemma NoDup_filter_bool (P : string -> bool) (l : list string) :
  NoDup l -> NoDup (List.filter P l).
Proof.
  induction 1 as [|x l Hx Hl IH]; simpl; [constructor|].
  destruct (P x); [|assumption].
  constructor; [|assumption]. rewrite elem_of_filter_bool. tauto.
Qed.

Lemma NoDup_first_seen (l : list string) : NoDup (first_seen l).
Proof.
  induction l as [|x l IH]; simpl; constructor.
  - rewrite elem_of_filter_bool. intros [_ Hx].
    by rewrite String.eqb_refl in Hx.
  - by apply NoDup_filter_bool.
Qed.

Lemma elem_of_first_seen (l : list string) (x : string) :
  x ∈ first_seen l <-> x ∈ l.
Proof.
  induction l as [|a l IH]; simpl; [reflexivity|].
  rewrite !elem_of_cons, elem_of_filter_bool, IH.
  destruct (String.eqb_spec x a) as [->|Hne]; simpl; intuition congruence.
Qed.

Lemma sublist_filter_bool (P : string -> bool) (l : list string) :
  List.filter P l `sublist_of` l.
Proof.
  induction l as [|a l IH]; simpl; [constructor|].
  destruct (P a); by constructor.
Qed.

Lemma sublist_first_seen (l : list string) : first_seen l `sublist_of` l.
Proof.
  induction l as [|x l IH]; simpl; [constructor|].
  apply sublist_skip. etransitivity; [apply sublist_filter_bool | exact IH].
Qed.

Lemma collect_wo_numbers_omap (hrefs : list string) :
  collect_wo_numbers hrefs = omap link_identifier hrefs.
Proof.
  unfold collect_wo_numbers.
  enough (forall acc,
    foldl (fun wo_numbers href =>
             if Str.contains "detail.jsf?docId=" href
             then match re_search_docid href with
                  | Some wo => wo_numbers ++ [wo]
                  | None => wo_numbers
                  end
             else wo_numbers) acc hrefs = acc ++ omap link_identifier hrefs) as Hgen
    by apply (Hgen []).
  induction hrefs as [|h hs IH]; intros acc; simpl.
  - by rewrite app_nil_r.
  - rewrite IH. unfold link_identifier at 2.
    destruct (Str.contains _ h); [|reflexivity].
    destruct (re_search_docid h); [|reflexivity].
    by rewrite <- app_assoc.
Qed.

Section DiscoveryFacts.

Context {tag : Type} `{Bs4 tag}.
Variable BeautifulSoup : string -> exc tag.
Variable http_get : string -> exc string.

Lemma search_wipo_wo_numbers_eq molecule dev_codes cas max_results :
  search_wipo_wo_numbers BeautifulSoup http_get molecule dev_codes cas max_results =
  slice_to max_results
    (first_seen (response_identifiers BeautifulSoup http_get molecule dev_codes cas)).
Proof.
  unfold search_wipo_wo_numbers, response_identifiers, response_links.
  destruct (http_get _) as [text|e]; simpl; [|by rewrite slice_to_nil].
  destruct (BeautifulSoup text) as [soup|e]; simpl; [|by rewrite slice_to_nil].
  destruct (find_all_href _ _) as [hrefs|e]; simpl; [|by rewrite slice_to_nil].
  by rewrite fromkeys_first_seen, collect_wo_numbers_omap.
Qed.

(** C5: for a search specification (whose [max_results] is positive),
    discovery returns at most [max_results] identifiers, none of them
    twice, and they are the first [max_results] identifiers of the
    response body in first-seen order: every returned identifier occurs
    in the body, and the returned list is the body's identifiers with
    later copies removed, cut after [max_results], so it keeps the
    order the identifiers have in the body. *)
Theorem discovery_bounded_nodup_first_seen molecule dev_codes cas max_results :
  0 < max_results ->
  let found := response_identifiers BeautifulSoup http_get molecule dev_codes cas in
  let ids :=
    search_wipo_wo_numbers BeautifulSoup http_get molecule dev_codes cas max_results in
  Z.of_nat (length ids) <= max_results
  /\ NoDup ids
  /\ ids = take (Z.to_nat max_results) (first_seen found)
  /\ ids `sublist_of` found
  /\ (forall x, x ∈ ids -> x ∈ found)
  /\ (Z.of_nat (length (first_seen found)) <= max_results -> ids = first_seen found).
Proof.
  intros Hmax found ids. subst ids.
  rewrite search_wipo_wo_numbers_eq. fold found.
  rewrite slice_to_nonneg by lia.
  split; [|split; [|split; [|split; [|split]]]].
  - rewrite length_take. lia.
  - eapply sublist_NoDup; [apply NoDup_first_seen | apply sublist_take].
  - reflexivity.
  - etransitivity; [apply sublist_take | apply sublist_first_seen].
  - intros x Hx. apply elem_of_first_seen.
    apply elem_of_take in Hx as (i & Hi & _).
    eapply list_elem_of_lookup_2; eauto.
  - intros Hlen. apply take_ge. lia.
Qed.

End DiscoveryFacts.

(** ** Extraction *)

Lemma try_except_default {A} (body : exc A) (d : A) :
  exists v, try_except body (fun _ => Ok d) = Ok v.
Proof. destruct body; simpl; eauto. Qed.

Lemma nonempty_true (s : string) : Str.nonempty s = true <-> s <> EmptyString.
Proof. destruct s; simpl; split; congruence. Qed.

Lemma truthy_Some (o : option string) :
  truthy o = true <-> exists s, o = Some s /\ s <> EmptyString.
Proof.
  destruct o as [s|]; simpl.
  - rewrite nonempty_true. split; [eauto | intros (s' & [= <-] & Hs); done].
  - split; [done | intros (s' & [=] & _)].
Qed.

Section ExtractorFacts.

Context {tag : Type} `{Bs4 tag}.
Variable BeautifulSoup : string -> exc tag.

Lemma extract_field_by_label_total soup label_text :
  exists v, extract_field_by_label soup label_text = Ok v.
Proof. apply try_except_default. Qed.

Lemma extract_list_field_total soup label_text :
  exists v, extract_list_field soup label_text = Ok v.
Proof. apply try_except_default. Qed.

Lemma extract_ipc_codes_total soup :
  exists v, extract_ipc_codes soup = Ok v.
Proof. apply try_except_default. Qed.

(** A scalar that is present is never the empty string. *)
Lemma extract_field_by_label_nonempty soup label_text s :
  extract_field_by_label soup label_text = Ok (Some s) -> s <> EmptyString.
Proof.
  unfold extract_field_by_label.
  destruct (find soup _ _ _) as [[label|]|?]; simpl; try congruence.
  destruct (find_parent label _ _) as [[field_div|]|?]; simpl; try congruence.
  destruct (find field_div _ _ _) as [[value_span|]|?]; simpl; try congruence.
  destruct (get_text value_span _) as [text|?]; simpl; try congruence.
  destruct (Str.nonempty text) eqn:Hne; [|congruence].
  intros [= <-]. by apply nonempty_true.
Qed.

Lemma parse_biblio_soup_record soup html wo_number :
  exists pub_number pub_date app_number filing_date title abstract priority
         applicants inventors ipc_codes,
    extract_field_by_label soup "Publication Number" = Ok pub_number
    /\ extract_field_by_label soup "Publication Date" = Ok pub_date
    /\ extract_field_by_label soup "International Application No" = Ok app_number
    /\ extract_field_by_label soup "International Filing Date" = Ok filing_date
    /\ extract_field_by_label soup "Title" = Ok title
    /\ extract_field_by_label soup "Abstract" = Ok abstract
    /\ extract_field_by_label soup "Priority Data" = Ok priority
    /\ extract_list_field soup "Applicants" = Ok applicants
    /\ extract_list_field soup "Inventors" = Ok inventors
    /\ extract_ipc_codes soup = Ok ipc_codes
    /\ parse_biblio_soup soup html wo_number =
       biblio_record wo_number pub_number pub_date app_number filing_date title
         abstract priority applicants inventors ipc_codes
         (if Str.contains "CPC" html then ipc_codes else []).
Proof.
  unfold parse_biblio_soup, after_try, parse_biblio_body.
  destruct (extract_field_by_label_total soup "Publication Number") as [pn Hpn].
  destruct (extract_field_by_label_total soup "Publication Date") as [pd Hpd].
  destruct (extract_field_by_label_total soup "International Application No") as [an Han].
  destruct (extract_field_by_label_total soup "International Filing Date") as [fd Hfd].
  destruct (extract_field_by_label_total soup "Title") as [ti Hti].
  destruct (extract_field_by_label_total soup "Abstract") as [ab Hab].
  destruct (extract_field_by_label_total soup "Priority Data") as [pr Hpr].
  destruct (extract_list_field_total soup "Applicants") as [ap Hap].
  destruct (extract_list_field_total soup "Inventors") as [iv Hiv].
  destruct (extract_ipc_codes_total soup) as [ipc Hipc].
  exists pn, pd, an, fd, ti, ab, pr, ap, iv, ipc.
  rewrite Hpn, Hpd, Han, Hfd, Hti, Hab, Hpr, Hap, Hiv, Hipc.
  repeat (split; [reflexivity|]).
  unfold biblio_record. simpl.
  destruct (Str.contains "CPC" html); simpl;
    destruct (truthy pn && truthy ti); reflexivity.
Qed.

(** The function returns exactly when the constructor does, and what
    the constructor raises is what leaves the function. *)
Lemma parse_biblio_data_Ok html wo_number data :
  parse_biblio_data BeautifulSoup html wo_number = Ok data
  <-> exists soup, BeautifulSoup html = Ok soup
                   /\ data = parse_biblio_soup soup html wo_number.
Proof.
  unfold parse_biblio_data. destruct (BeautifulSoup html) as [soup|e]; simpl.
  - split; [intros [= <-]; by exists soup | intros (soup' & [= <-] & ->); done].
  - split; [discriminate | intros (soup' & [=] & _)].
Qed.

Lemma parse_biblio_data_Raise html wo_number e :
  parse_biblio_data BeautifulSoup html wo_number = Raise e
  <-> BeautifulSoup html = Raise e.
Proof.
  unfold parse_biblio_data. destruct (BeautifulSoup html) as [soup|e']; simpl;
    split; congruence.
Qed.

End ExtractorFacts.

Section RecordFacts.

Variables (wo : string) (pn pd an fd ti ab pr : option string)
          (ap iv ipc cpc : list string).

Let r := biblio_record wo pn pd an fd ti ab pr ap iv ipc cpc.

Lemma biblio_record_flag : extraction_successful r = truthy pn && truthy ti.
Proof.
  subst r. unfold biblio_record, extraction_successful.
  destruct (truthy pn && truthy ti); reflexivity.
Qed.

Lemma biblio_record_top :
  r !! "wo_number" = Some (TStr wo)
  /\ r !! "source" = Some (TStr "WIPO")
  /\ r !! "extraction_successful" = Some (TBool (truthy pn && truthy ti)).
Proof.
  subst r. unfold biblio_record.
  destruct (truthy pn && truthy ti); repeat split; reflexivity.
Qed.

Lemma biblio_record_fields :
  biblio_field r "publication_number" = Some (of_optional pn)
  /\ biblio_field r "publication_date" = Some (of_optional pd)
  /\ biblio_field r "application_number" = Some (of_optional an)
  /\ biblio_field r "filing_date" = Some (of_optional fd)
  /\ biblio_field r "title" = Some (of_optional ti)
  /\ biblio_field r "abstract" = Some (of_optional ab)
  /\ biblio_field r "priority_data" = Some (of_optional pr)
  /\ biblio_field r "applicants" = Some (VList ap)
  /\ biblio_field r "inventors" = Some (VList iv)
  /\ biblio_field r "ipc_codes" = Some (VList ipc)
  /\ biblio_field r "cpc_codes" = Some (VList cpc).
Proof.
  subst r. unfold biblio_record, biblio_field.
  destruct (truthy pn && truthy ti); repeat split; reflexivity.
Qed.

End RecordFacts.

Lemma of_optional_VStr (o : option string) (s : string) :
  of_optional o = VStr s <-> o = Some s.
Proof. destruct o; simpl; split; congruence. Qed.

Lemma of_optional_VNone (o : option string) : of_optional o = VNone <-> o = None.
Proof. destruct o; simpl; split; congruence. Qed.

Section ExtractionClaims.

Context {tag : Type} `{Bs4 tag}.
Variable BeautifulSoup : string -> exc tag.

(** A scalar is present exactly when its label resolves to a text that is
    not empty; every failure along the way, an exception included, leaves
    the scalar absent. *)
Lemma extract_field_by_label_spec soup label_text text :
  extract_field_by_label soup label_text = Ok (Some text)
  <-> resolves_to soup label_text text /\ text <> EmptyString.
Proof.
  unfold extract_field_by_label, resolves_to. split.
  - destruct (find soup _ _ _) as [[label|]|?] eqn:Hl; simpl; try congruence.
    destruct (find_parent label _ _) as [[field_div|]|?] eqn:Hd; simpl; try congruence.
    destruct (find field_div _ _ _) as [[value_span|]|?] eqn:Hv; simpl; try congruence.
    destruct (get_text value_span _) as [t|?] eqn:Ht; simpl; try congruence.
    destruct (Str.nonempty t) eqn:Hne; [|congruence].
    intros [= <-]. split; [|by apply nonempty_true].
    exists label, field_div, value_span. by rewrite Hd, Hv, Ht.
  - intros [(label & field_div & value_span & -> & Hd & Hv & Ht) Hne]. simpl.
    rewrite Hd. simpl. rewrite Hv. simpl. rewrite Ht. simpl.
    apply nonempty_true in Hne. by rewrite Hne.
Qed.

Lemma extract_field_by_label_absent soup label_text :
  label_absent soup label_text -> extract_field_by_label soup label_text = Ok None.
Proof. unfold label_absent, extract_field_by_label. by intros ->. Qed.

Lemma extract_field_by_label_empty soup label_text :
  resolves_to soup label_text EmptyString ->
  extract_field_by_label soup label_text = Ok None.
Proof.
  intros (label & field_div & value_span & Hl & Hd & Hv & Ht).
  unfold extract_field_by_label. rewrite Hl. simpl. rewrite Hd. simpl.
  rewrite Hv. simpl. by rewrite Ht.
Qed.

(** When the label lookup finds nothing, or fails, the three extractors
    give their empty result. *)
Lemma extract_field_by_label_not_found soup label_text :
  (forall el, find soup "span" (Some "ps-field--label") (Some label_text) <> Ok (Some el)) ->
  extract_field_by_label soup label_text = Ok None.
Proof.
  intros Hno. unfold extract_field_by_label.
  destruct (find soup _ _ _) as [[label|]|?]; simpl; try reflexivity.
  by destruct (Hno label).
Qed.

Lemma extract_list_field_not_found soup label_text :
  (forall el, find soup "span" (Some "ps-field--label") (Some label_text) <> Ok (Some el)) ->
  extract_list_field soup label_text = Ok [].
Proof.
  intros Hno. unfold extract_list_field.
  destruct (find soup _ _ _) as [[label|]|?]; simpl; try reflexivity.
  by destruct (Hno label).
Qed.

Lemma extract_ipc_codes_not_found soup :
  (forall el, find soup "span" (Some "ps-field--label") (Some "IPC") <> Ok (Some el)) ->
  extract_ipc_codes soup = Ok [].
Proof.
  intros Hno. unfold extract_ipc_codes.
  destruct (find soup _ _ _) as [[label|]|?]; simpl; try reflexivity.
  by destruct (Hno label).
Qed.

(** Each scalar field of the record is what its own label gives. *)
Lemma parse_biblio_soup_scalar soup html wo_number key label_text :
  (key, label_text) ∈ scalar_fields ->
  exists v, extract_field_by_label soup label_text = Ok v
    /\ biblio_field (parse_biblio_soup soup html wo_number) key
       = Some (of_optional v).
Proof.
  intros Hin.
  destruct (parse_biblio_soup_record soup html wo_number)
    as (pn & pd & an & fd & ti & ab & pr & ap & iv & ipc &
        Hpn & Hpd & Han & Hfd & Hti & Hab & Hpr & _ & _ & _ & ->).
  pose proof (biblio_record_fields wo_number pn pd an fd ti ab pr ap iv ipc
                (if Str.contains "CPC" html then ipc else []))
    as (F1 & F2 & F3 & F4 & F5 & F6 & F7 & _).
  unfold scalar_fields in Hin.
  repeat (apply elem_of_cons in Hin as [[= -> ->]|Hin]; [eauto|]).
  by apply elem_of_nil in Hin.
Qed.

Lemma other_scalar_fields_scalar key label_text :
  (key, label_text) ∈ other_scalar_fields -> (key, label_text) ∈ scalar_fields.
Proof.
  unfold other_scalar_fields, scalar_fields. intros Hin.
  repeat (apply elem_of_cons in Hin as [[= -> ->]|Hin];
          [repeat ((by apply list_elem_of_here) || apply list_elem_of_further)|]).
  by apply elem_of_nil in Hin.
Qed.

(** The list fields: the loop of [extract_list_field] gives the names
    that the items of the list give, in order. *)
Lemma person_loop_items (lis : list tag) (items : list (option string)) :
  Forall2 item_name lis items ->
  forall names,
    exc_foldl
      (fun names li =>
         exc_bind (find li "span" (Some "biblio-person-list--name") None)
           (fun name_span =>
              match name_span with
              | None => Ok names
              | Some name_span =>
                  exc_bind (get_text name_span EmptyString)
                    (fun name =>
                       Ok (if Str.nonempty name then names ++ [name] else names))
              end))
      names lis
    = Ok (names ++ omap id items).
Proof.
  induction 1 as [|li item lis items Hitem _ IH]; intros names; simpl.
  - by rewrite app_nil_r.
  - destruct item as [text|]; simpl in Hitem.
    + destruct Hitem as (name_span & -> & Hname & Hne). simpl. rewrite Hname. simpl.
      apply nonempty_true in Hne. rewrite Hne, IH. by rewrite <- app_assoc.
    + destruct Hitem as [-> | (name_span & -> & Hname)]; simpl.
      * apply IH.
      * rewrite Hname. simpl. apply IH.
Qed.

Lemma extract_list_field_resolved soup label_text names :
  persons_resolve_to soup label_text names ->
  extract_list_field soup label_text = Ok names.
Proof.
  intros (label & field_div & person_list & lis & items
          & Hl & Hd & Hu & Hlis & Hitems & ->).
  unfold extract_list_field. rewrite Hl. simpl. rewrite Hd. simpl.
  rewrite Hu. simpl. rewrite Hlis. simpl.
  by rewrite (person_loop_items lis items Hitems []).
Qed.

Lemma code_loop_entries (classifications : list tag) (entries : list (option string)) :
  Forall2 entry_code classifications entries ->
  forall codes,
    exc_foldl
      (fun ipc_codes classification =>
         exc_bind (find classification "a" None None)
           (fun link =>
              match link with
              | None => Ok ipc_codes
              | Some link =>
                  exc_bind (get_text link EmptyString)
                    (fun code =>
                       Ok (if Str.nonempty code then ipc_codes ++ [code]
                           else ipc_codes))
              end))
      codes classifications
    = Ok (codes ++ omap id entries).
Proof.
  induction 1 as [|c entry cs entries Hentry _ IH]; intros codes; simpl.
  - by rewrite app_nil_r.
  - destruct entry as [text|]; simpl in Hentry.
    + destruct Hentry as (link & -> & Hcode & Hne). simpl. rewrite Hcode. simpl.
      apply nonempty_true in Hne. rewrite Hne, IH. by rewrite <- app_assoc.
    + destruct Hentry as [-> | (link & -> & Hcode)]; simpl.
      * apply IH.
      * rewrite Hcode. simpl. apply IH.
Qed.

Lemma extract_ipc_codes_resolved soup codes :
  codes_resolve_to soup codes -> extract_ipc_codes soup = Ok codes.
Proof.
  intros (label & field_div & classifications & entries
          & Hl & Hd & Hc & Hentries & ->).
  unfold extract_ipc_codes. rewrite Hl. simpl. rewrite Hd. simpl.
  rewrite Hc. simpl.
  by rewrite (code_loop_entries classifications entries Hentries []).
Qed.

(** C2: the record's [extraction_successful] is true exactly when both
    [publication_number] and [title] are present in it; a present value
    is never the empty string; and two records that agree on these two
    fields agree on [extraction_successful], whatever their other fields
    hold. *)
Theorem extraction_successful_iff_number_and_title html wo_number data :
  parse_biblio_data BeautifulSoup html wo_number = Ok data ->
  (extraction_successful data = true
   <-> exists p t, biblio_field data "publication_number" = Some (VStr p)
                   /\ biblio_field data "title" = Some (VStr t))
  /\ (forall p, biblio_field data "publication_number" = Some (VStr p) -> p <> EmptyString)
  /\ (forall t, biblio_field data "title" = Some (VStr t) -> t <> EmptyString)
  /\ (forall html' wo_number' data',
        parse_biblio_data BeautifulSoup html' wo_number' = Ok data' ->
        biblio_field data' "publication_number" = biblio_field data "publication_number" ->
        biblio_field data' "title" = biblio_field data "title" ->
        extraction_successful data' = extraction_successful data).
Proof.
  intros Hdata.
  assert (Hkey : forall html wo_number data,
    parse_biblio_data BeautifulSoup html wo_number = Ok data ->
    exists pn ti : option string,
      biblio_field data "publication_number" = Some (of_optional pn)
      /\ biblio_field data "title" = Some (of_optional ti)
      /\ extraction_successful data = truthy pn && truthy ti
      /\ (forall p, pn = Some p -> p <> EmptyString)
      /\ (forall t, ti = Some t -> t <> EmptyString)).
  { clear. intros html wo_number data Hdata.
    apply parse_biblio_data_Ok in Hdata as (soup & _ & ->).
    destruct (parse_biblio_soup_record soup html wo_number)
      as (pn & pd & an & fd & ti & ab & pr & ap & iv & ipc &
          Hpn & _ & _ & _ & Hti & _ & _ & _ & _ & _ & ->).
    pose proof (biblio_record_fields wo_number pn pd an fd ti ab pr ap iv ipc
                  (if Str.contains "CPC" html then ipc else []))
      as (F1 & _ & _ & _ & F5 & _).
    exists pn, ti. rewrite biblio_record_flag. repeat split; try assumption.
    - intros p ->. eapply extract_field_by_label_nonempty; eauto.
    - intros t ->. eapply extract_field_by_label_nonempty; eauto. }
  assert (Htruthy : forall o : option string,
            (forall s, o = Some s -> s <> EmptyString) ->
            truthy o = true <-> exists s, o = Some s).
  { intros o Hne. rewrite truthy_Some. split.
    - intros (s & -> & _). eauto.
    - intros (s & ->). eauto. }
  destruct (Hkey html wo_number data Hdata) as (pn & ti & Fp & Ft & Fs & Np & Nt).
  split; [|split; [|split]].
  - rewrite Fs, Fp, Ft, andb_true_iff, (Htruthy pn Np), (Htruthy ti Nt). split.
    + intros [(p & ->) (t & ->)]. by exists p, t.
    + intros (p & t & [= Hp] & [= Ht]).
      apply of_optional_VStr in Hp, Ht. eauto.
  - intros p. rewrite Fp. intros [= Hp]. apply of_optional_VStr in Hp. eauto.
  - intros t. rewrite Ft. intros [= Ht]. apply of_optional_VStr in Ht. eauto.
  - intros html' wo_number' data' Hdata'.
    destruct (Hkey html' wo_number' data' Hdata')
      as (pn' & ti' & Fp' & Ft' & Fs' & Np' & Nt').
    rewrite Fp, Fp', Ft, Ft', Fs, Fs'. intros [= Hp] [= Ht].
    assert (pn' = pn) as -> by (destruct pn', pn; simpl in *; congruence).
    assert (ti' = ti) as -> by (destruct ti', ti; simpl in *; congruence).
    reflexivity.
Qed.

(** C3: the record's [cpc_codes] is the result of the IPC-anchored
    extraction when the text "CPC" occurs in the raw document, and the
    empty list otherwise; [ipc_codes] is that same result, so the two
    fields are equal whenever "CPC" occurs. *)
Theorem cpc_codes_follow_ipc_path html wo_number soup data :
  BeautifulSoup html = Ok soup ->
  parse_biblio_data BeautifulSoup html wo_number = Ok data ->
  exists codes,
    extract_ipc_codes soup = Ok codes
    /\ biblio_field data "ipc_codes" = Some (VList codes)
    /\ biblio_field data "cpc_codes"
       = Some (VList (if Str.contains "CPC" html then codes else []))
    /\ (Str.contains "CPC" html = true ->
        biblio_field data "cpc_codes" = biblio_field data "ipc_codes")
    /\ (Str.contains "CPC" html = false ->
        biblio_field data "cpc_codes" = Some (VList [])).
Proof.
  intros Hsoup Hdata.
  apply parse_biblio_data_Ok in Hdata as (soup' & Hsoup' & ->).
  assert (soup' = soup) as -> by congruence.
  destruct (parse_biblio_soup_record soup html wo_number)
    as (pn & pd & an & fd & ti & ab & pr & ap & iv & ipc &
        _ & _ & _ & _ & _ & _ & _ & _ & _ & Hipc & ->).
  pose proof (biblio_record_fields wo_number pn pd an fd ti ab pr ap iv ipc
                (if Str.contains "CPC" html then ipc else []))
    as (_ & _ & _ & _ & _ & _ & _ & _ & _ & F10 & F11).
  exists ipc. rewrite F10, F11. repeat split; try assumption.
  - by intros ->.
  - by intros ->.
Qed.

(** Partial success.  When the parser has accepted the document and the
    "Publication Number" and "Title" labels are absent, the function
    returns a record with [extraction_successful] false and these two
    fields absent, in which every other scalar field whose label
    resolves to a non-empty text holds that text, every other scalar
    field whose label does not resolve is absent, applicants and
    inventors hold the names that the items of their person list give,
    [ipc_codes] holds the codes that the entries of the IPC field give,
    and [cpc_codes] holds those same codes when "CPC" occurs in the raw
    text, whatever the calls for the other fields do. *)
Theorem partial_success_keeps_resolved_fields html wo_number soup :
  BeautifulSoup html = Ok soup ->
  label_absent soup "Publication Number" ->
  label_absent soup "Title" ->
  exists data,
    parse_biblio_data BeautifulSoup html wo_number = Ok data
    /\ extraction_successful data = false
    /\ biblio_field data "publication_number" = Some VNone
    /\ biblio_field data "title" = Some VNone
    /\ (forall key label_text text,
          (key, label_text) ∈ other_scalar_fields ->
          resolves_to soup label_text text -> text <> EmptyString ->
          biblio_field data key = Some (VStr text))
    /\ (forall key label_text,
          (key, label_text) ∈ other_scalar_fields ->
          (forall text, resolves_to soup label_text text -> text = EmptyString) ->
          biblio_field data key = Some VNone)
    /\ (forall names, persons_resolve_to soup "Applicants" names ->
          biblio_field data "applicants" = Some (VList names))
    /\ (forall names, persons_resolve_to soup "Inventors" names ->
          biblio_field data "inventors" = Some (VList names))
    /\ (forall codes, codes_resolve_to soup codes ->
          biblio_field data "ipc_codes" = Some (VList codes)
          /\ biblio_field data "cpc_codes"
             = Some (VList (if Str.contains "CPC" html then codes else []))).
Proof.
  intros Hsoup Hpn Hti.
  exists (parse_biblio_soup soup html wo_number).
  split; [apply parse_biblio_data_Ok; by exists soup|].
  apply extract_field_by_label_absent in Hpn, Hti.
  destruct (parse_biblio_soup_record soup html wo_number)
    as (pn & pd & an & fd & ti & ab & pr & ap & iv & ipc &
        Hpn' & _ & _ & _ & _ & _ & _ & Hap & Hiv & Hipc & Hrec).
  pose proof (biblio_record_fields wo_number pn pd an fd ti ab pr ap iv ipc
                (if Str.contains "CPC" html then ipc else []))
    as (_ & _ & _ & _ & _ & _ & _ & F8 & F9 & F10 & F11).
  rewrite <- Hrec in F8, F9, F10, F11.
  split; [|split; [|split; [|split; [|split; [|split; [|split]]]]]].
  - rewrite Hrec, biblio_record_flag.
    assert (pn = None) as -> by congruence. reflexivity.
  - destruct (parse_biblio_soup_scalar soup html wo_number "publication_number"
                "Publication Number") as (v & Hv & ->).
    { unfold scalar_fields. apply list_elem_of_here. }
    by assert (v = None) as -> by congruence.
  - destruct (parse_biblio_soup_scalar soup html wo_number "title" "Title")
      as (v & Hv & ->).
    { unfold scalar_fields. do 4 apply list_elem_of_further. apply list_elem_of_here. }
    by assert (v = None) as -> by congruence.
  - intros key label_text text Hin Hres Hne.
    apply other_scalar_fields_scalar in Hin.
    destruct (parse_biblio_soup_scalar soup html wo_number key label_text Hin)
      as (v & Hv & ->).
    assert (extract_field_by_label soup label_text = Ok (Some text)) as Hx
      by (by apply extract_field_by_label_spec).
    by assert (v = Some text) as -> by congruence.
  - intros key label_text Hin Hnone.
    apply other_scalar_fields_scalar in Hin.
    destruct (parse_biblio_soup_scalar soup html wo_number key label_text Hin)
      as (v & Hv & ->).
    destruct v as [text|]; [|reflexivity].
    apply extract_field_by_label_spec in Hv as [Hres Hne].
    by destruct Hne, (Hnone text Hres).
  - intros names Hnames. apply extract_list_field_resolved in Hnames.
    rewrite F8. congruence.
  - intros names Hnames. apply extract_list_field_resolved in Hnames.
    rewrite F9. congruence.
  - intros codes Hcodes. apply extract_ipc_codes_resolved in Hcodes.
    rewrite F10, F11. by assert (ipc = codes) as -> by congruence.
Qed.

(** After the constructor the function cannot raise: it raises exactly
    when the constructor does, with the constructor's exception, and
    when the parser has accepted the document the body of the [try]
    block completes whatever the document calls do.  In the record, a
    scalar field whose label resolves to no text, or to the empty text,
    is absent; a list field whose label is not found is the empty list;
    and where no label is found at all, every scalar field is absent,
    every list field is empty and [extraction_successful] is false. *)
Theorem extraction_raises_only_in_the_constructor html wo_number :
  (forall e, parse_biblio_data BeautifulSoup html wo_number = Raise e
             <-> BeautifulSoup html = Raise e)
  /\ forall soup, BeautifulSoup html = Ok soup ->
     let not_found (label_text : string) :=
       forall el,
         find soup "span" (Some "ps-field--label") (Some label_text) <> Ok (Some el) in
     exists data,
       parse_biblio_data BeautifulSoup html wo_number = Ok data
       /\ parse_biblio_body soup html (initial_data wo_number) = Ok data
       /\ (forall key label_text,
             (key, label_text) ∈ scalar_fields ->
             (forall text, resolves_to soup label_text text -> text = EmptyString) ->
             biblio_field data key = Some VNone)
       /\ (not_found "Applicants" -> biblio_field data "applicants" = Some (VList []))
       /\ (not_found "Inventors" -> biblio_field data "inventors" = Some (VList []))
       /\ (not_found "IPC" ->
           biblio_field data "ipc_codes" = Some (VList [])
           /\ biblio_field data "cpc_codes" = Some (VList []))
       /\ ((forall label_text, not_found label_text) ->
           extraction_successful data = false
           /\ (forall key label_text,
                 (key, label_text) ∈ scalar_fields ->
                 biblio_field data key = Some VNone)
           /\ biblio_field data "applicants" = Some (VList [])
           /\ biblio_field data "inventors" = Some (VList [])
           /\ biblio_field data "ipc_codes" = Some (VList [])
           /\ biblio_field data "cpc_codes" = Some (VList [])).
Proof.
  split; [intros e; apply parse_biblio_data_Raise|].
  intros soup Hsoup not_found.
  exists (parse_biblio_soup soup html wo_number).
  split; [apply parse_biblio_data_Ok; by exists soup|].
  assert (Hscalar : forall key label_text,
            (key, label_text) ∈ scalar_fields ->
            (forall text, resolves_to soup label_text text -> text = EmptyString) ->
            biblio_field (parse_biblio_soup soup html wo_number) key = Some VNone).
  { intros key label_text Hin Hnone.
    destruct (parse_biblio_soup_scalar soup html wo_number key label_text Hin)
      as (v & Hv & ->).
    destruct v as [text|]; [|reflexivity].
    apply extract_field_by_label_spec in Hv as [Hres Hne].
    by destruct Hne, (Hnone text Hres). }
  destruct (parse_biblio_soup_record soup html wo_number)
    as (pn & pd & an & fd & ti & ab & pr & ap & iv & ipc &
        Hpn & _ & _ & _ & _ & _ & _ & Hap & Hiv & Hipc & Hrec).
  pose proof (biblio_record_fields wo_number pn pd an fd ti ab pr ap iv ipc
                (if Str.contains "CPC" html then ipc else []))
    as (_ & _ & _ & _ & _ & _ & _ & F8 & F9 & F10 & F11).
  rewrite <- Hrec in F8, F9, F10, F11.
  assert (Hnap : not_found "Applicants" ->
                 biblio_field (parse_biblio_soup soup html wo_number)
                   "applicants" = Some (VList [])).
  { intros Hno. rewrite F8.
    rewrite (extract_list_field_not_found soup _ Hno) in Hap. congruence. }
  assert (Hniv : not_found "Inventors" ->
                 biblio_field (parse_biblio_soup soup html wo_number)
                   "inventors" = Some (VList [])).
  { intros Hno. rewrite F9.
    rewrite (extract_list_field_not_found soup _ Hno) in Hiv. congruence. }
  assert (Hnipc : not_found "IPC" ->
                  biblio_field (parse_biblio_soup soup html wo_number)
                    "ipc_codes" = Some (VList [])
                  /\ biblio_field (parse_biblio_soup soup html wo_number)
                       "cpc_codes" = Some (VList [])).
  { intros Hno. rewrite F10, F11.
    rewrite (extract_ipc_codes_not_found soup Hno) in Hipc.
    assert (ipc = []) as -> by congruence.
    by destruct (Str.contains "CPC" html). }
  split; [|split; [|split; [|split; [|split]]]]; try assumption.
  - unfold parse_biblio_soup, after_try.
    destruct (parse_biblio_body soup html (initial_data wo_number)) as [d|e] eqn:Hbody.
    + reflexivity.
    + exfalso. revert Hbody. unfold parse_biblio_body.
      destruct (extract_field_by_label_total soup "Publication Date") as [? ->].
      destruct (extract_field_by_label_total soup "International Application No") as [? ->].
      destruct (extract_field_by_label_total soup "International Filing Date") as [? ->].
      destruct (extract_field_by_label_total soup "Title") as [? ->].
      destruct (extract_field_by_label_total soup "Abstract") as [? ->].
      destruct (extract_field_by_label_total soup "Priority Data") as [? ->].
      rewrite Hpn, Hap, Hiv, Hipc. simpl.
      destruct (Str.contains "CPC" html); simpl;
        match goal with |- context [if ?b then _ else _] => destruct b end;
        discriminate.
  - intros Hall. split; [|split; [|split; [|split; [|split]]]].
    + rewrite Hrec, biblio_record_flag.
      rewrite (extract_field_by_label_not_found soup _ (Hall _)) in Hpn.
      by assert (pn = None) as -> by congruence.
    + intros key label_text Hin. apply (Hscalar key label_text Hin).
      intros text (label & _ & _ & Hl & _). by destruct (Hall label_text label).
    + apply Hnap, Hall.
    + apply Hniv, Hall.
    + apply Hnipc, Hall.
    + apply Hnipc, Hall.
Qed.

(** C10: the record always carries the identifier it was called with,
    the source tag "WIPO" and a boolean [extraction_successful].  On the
    exceptional path, where the [try] block raised, the record returned
    is the initial one: the same three components, with
    [extraction_successful] false and an empty [biblio_data]. *)
Theorem record_always_has_identifier_source_and_flag html wo_number data :
  parse_biblio_data BeautifulSoup html wo_number = Ok data ->
  data !! "wo_number" = Some (TStr wo_number)
  /\ data !! "source" = Some (TStr "WIPO")
  /\ (exists b, data !! "extraction_successful" = Some (TBool b))
  /\ (forall e,
        let data' := after_try (Raise e) (initial_data wo_number) in
        data' !! "wo_number" = Some (TStr wo_number)
        /\ data' !! "source" = Some (TStr "WIPO")
        /\ data' !! "extraction_successful" = Some (TBool false)
        /\ data' !! "biblio_data" = Some (TDict ∅)).
Proof.
  intros Hdata. apply parse_biblio_data_Ok in Hdata as (soup & _ & ->).
  split; [|split; [|split]].
  1-3: destruct (parse_biblio_soup_record soup html wo_number)
      as (pn & pd & an & fd & ti & ab & pr & ap & iv & ipc &
          _ & _ & _ & _ & _ & _ & _ & _ & _ & _ & ->);
    pose proof (biblio_record_top wo_number pn pd an fd ti ab pr ap iv ipc
                  (if Str.contains "CPC" html then ipc else []))
      as (T1 & T2 & T3); eauto.
  - intros e. simpl. repeat split; reflexivity.
Qed.

End ExtractionClaims.

(** ** Acquisition *)

Lemma new_events_app {A} (m : M A) (tr0 new : list event) (r : res A) :
  m tr0 = (r, tr0 ++ new) -> new_events m tr0 = new.
Proof. intros Hm. unfold new_events. rewrite Hm. simpl. apply drop_app_length. Qed.

Section AcquisitionFacts.

Variable world : list event -> call -> outcome.

Ltac await_cases :=
  repeat match goal with
         | |- context [world ?t ?c] =>
             let E := fresh "E" in
             destruct (world t c) as [?|[[| |?]|]] eqn:E; cbn -[app]
         end.

(** Every path through [fetch_detail_html], at once. *)
Lemma fetch_detail_html_paths wo_number headless tr0 :
  exists r new,
    fetch_detail_html world wo_number headless tr0 = (r, tr0 ++ new)
    /\ (forall e, r <> Throw (Exn e))
    /\ (existsb is_cancelled new = false -> exists v, r = Ret v)
    /\ (existsb is_settle_timeout new = true ->
        exists o rest,
          events_after is_settle_timeout new
          = Log WARNING (MsgNetworkIdleTimeout wo_number)
              :: Await (WaitSelector READY_SELECTOR) o :: rest)
    /\ (existsb is_gate_timeout new = true ->
        (forall html, r <> Ret (Some html))
        /\ (existsb is_cancelled new = false -> r = Ret None)
        /\ (exists o rest,
              events_after is_gate_timeout new
              = Log ERROR (MsgNeverAppeared wo_number) :: Await BrowserClose o :: rest)
        /\ length (List.filter is_gate_wait new) = 1%nat
        /\ existsb is_content new = false)
    /\ (existsb is_page_created new = true ->
        existsb is_cancelled new = false ->
        existsb is_close new = true)
    /\ omap failure_of new = []
    /\ omap processing_of new = []
    /\ omap progress_of new = []
    /\ omap sleep_of new = [].
Proof.
  unfold fetch_detail_html, with_async_playwright, readiness_gate,
    except_Exception, except_PlaywrightTimeout_Exception, except_PlaywrightTimeout,
    bind, await, log, emit, ret.
  generalize (DETAIL_URL +:+ "?docId=" +:+ wo_number) as url. intros url.
  generalize READY_SELECTOR as sel. intros sel.
  cbn -[app].
  await_cases.
  all: rewrite <- ?app_assoc; cbn [app];
    eexists _, _; split; [reflexivity|];
    cbn; repeat split; try congruence; try lia; eauto.
Qed.

(** C8: within one call of [fetch_detail_html], a timeout of the
    quiet-network wait is followed by the warning and then by the wait on
    the readiness marker; a timeout of the readiness marker is followed
    by the error log and by [browser.close()], the marker is waited for
    once only, the page content is never read, no document is returned,
    and the call returns [None] unless the unit is cancelled meanwhile. *)
Theorem settle_timeout_continues_gate_timeout_fails wo_number headless tr0 :
  let r := fst (fetch_detail_html world wo_number headless tr0) in
  let new := new_events (fetch_detail_html world wo_number headless) tr0 in
  (existsb is_settle_timeout new = true ->
   exists o rest,
     events_after is_settle_timeout new
     = Log WARNING (MsgNetworkIdleTimeout wo_number)
         :: Await (WaitSelector READY_SELECTOR) o :: rest)
  /\ (existsb is_gate_timeout new = true ->
      (forall html, r <> Ret (Some html))
      /\ (existsb is_cancelled new = false -> r = Ret None)
      /\ (exists o rest,
            events_after is_gate_timeout new
            = Log ERROR (MsgNeverAppeared wo_number) :: Await BrowserClose o :: rest)
      /\ length (List.filter is_gate_wait new) = 1%nat
      /\ existsb is_content new = false).
Proof.
  intros r new. subst r new.
  destruct (fetch_detail_html_paths wo_number headless tr0)
    as (r & new & Hf & _ & _ & Hsettle & Hgate & _).
  rewrite (new_events_app _ _ _ _ Hf), Hf. simpl. by split.
Qed.

End AcquisitionFacts.
(** ** One identifier, then the batch *)

Section CoordinatorFacts.

Context {tag : Type} `{Bs4 tag}.
Variable BeautifulSoup : string -> exc tag.
Variable http_get : string -> exc string.
Variable world : list event -> call -> outcome.

(** [process_wo_safe] in terms of what [fetch_detail_html] did. *)
Lemma process_wo_safe_by_fetch wo_number headless tr0 r new :
  fetch_detail_html world wo_number headless tr0 = (r, tr0 ++ new) ->
  (forall e, r <> Throw (Exn e)) ->
  process_wo_safe BeautifulSoup world wo_number headless tr0
  = match r with
    | Ret (Some html) =>
        if Str.nonempty html
        then match parse_biblio_data BeautifulSoup html wo_number with
             | Ok data =>
                 if extraction_successful data
                 then (Ret (Some data), tr0 ++ new)
                 else (Ret None, tr0 ++ new ++ [Log ERROR (MsgExtractFailed wo_number)])
             | Raise AsyncioTimeoutError =>
                 (Ret None, tr0 ++ new ++ [Log ERROR (MsgTimeoutTotal wo_number)])
             | Raise _ =>
                 (Ret None, tr0 ++ new ++ [Log ERROR (MsgUnexpected wo_number)])
             end
        else (Ret None, tr0 ++ new ++ [Log ERROR (MsgFetchFailed wo_number)])
    | Ret None => (Ret None, tr0 ++ new ++ [Log ERROR (MsgFetchFailed wo_number)])
    | Throw _ => (Ret None, tr0 ++ new ++ [Log ERROR (MsgTimeoutTotal wo_number)])
    end.
Proof.
  intros Hf Hexn.
  unfold process_wo_safe, except_TimeoutError_Exception, wait_for,
    _process_wo_internal, bind, log, emit, ret, call_sync.
  rewrite Hf. destruct r as [[html|]|[e|]].
  - cbn [truthy]. destruct (Str.nonempty html); cbn [negb].
    + change (default EmptyString (Some html)) with html.
      destruct (parse_biblio_data BeautifulSoup html wo_number) as [data|[| |msg]].
      * destruct (extraction_successful data); cbn [negb]; by rewrite <- ?app_assoc.
      * by rewrite <- app_assoc.
      * by rewrite <- app_assoc.
      * by rewrite <- app_assoc.
    + by rewrite <- app_assoc.
  - cbn [truthy negb]. by rewrite <- app_assoc.
  - by destruct (Hexn e).
  - by rewrite <- app_assoc.
Qed.

(** Every path through [process_wo_safe]: it always returns, with a
    record or with [None], and a failed unit logs its failure once. *)
Lemma process_wo_safe_paths wo_number headless tr0 :
  exists r new,
    process_wo_safe BeautifulSoup world wo_number headless tr0 = (Ret r, tr0 ++ new)
    /\ omap failure_of new = match r with Some _ => [] | None => [wo_number] end
    /\ omap processing_of new = []
    /\ omap progress_of new = []
    /\ omap sleep_of new = []
    /\ unit_ok BeautifulSoup wo_number r.
Proof.
  destruct (fetch_detail_html_paths world wo_number headless tr0)
    as (r & new & Hf & Hexn & _ & _ & _ & _ & Hfail & Hproc & Hprog & Hsl).
  rewrite (process_wo_safe_by_fetch wo_number headless tr0 r new Hf Hexn).
  assert (Hlog : forall m,
    omap processing_of (new ++ [Log ERROR m]) = []
    /\ omap progress_of (new ++ [Log ERROR m]) = []
    /\ omap sleep_of (new ++ [Log ERROR m]) = []).
  { intros m. rewrite !omap_app, Hproc, Hprog, Hsl. by repeat split. }
  assert (Hnone : forall m,
    failure_of (Log ERROR m) = Some wo_number ->
    exists r' new',
      (Ret None, tr0 ++ new ++ [Log ERROR m])
      = (@Ret (option (gmap string top_value)) r', tr0 ++ new')
      /\ omap failure_of new' = match r' with Some _ => [] | None => [wo_number] end
      /\ omap processing_of new' = []
      /\ omap progress_of new' = []
      /\ omap sleep_of new' = []
      /\ unit_ok BeautifulSoup wo_number r').
  { intros m Hm. exists None, (new ++ [Log ERROR m]).
    destruct (Hlog m) as (? & ? & ?).
    repeat split; try assumption.
    - rewrite omap_app, Hfail. cbn [omap list_omap app]. by rewrite Hm.
    - intros d [=]. }
  destruct r as [[html|]|e]; try (by apply Hnone).
  destruct (Str.nonempty html); [|by apply Hnone].
  destruct (parse_biblio_data BeautifulSoup html wo_number) as [data|[| |msg]] eqn:Hparse;
    try (by apply Hnone).
  destruct (extraction_successful data) eqn:Hok; [|by apply Hnone].
  exists (Some data), new. repeat split; try assumption.
  intros d [= <-]. by exists html.
Qed.

Lemma parse_biblio_data_truthy html wo_number data :
  parse_biblio_data BeautifulSoup html wo_number = Ok data ->
  dict_truthy data = true.
Proof.
  intros Hdata. apply parse_biblio_data_Ok in Hdata as (soup & _ & ->).
  unfold dict_truthy. apply negb_true_iff, bool_decide_eq_false_2. intros Hempty.
  destruct (parse_biblio_soup_record soup html wo_number)
    as (pn & pd & an & fd & ti & ab & pr & ap & iv & ipc &
        _ & _ & _ & _ & _ & _ & _ & _ & _ & _ & Hrec).
  pose proof (biblio_record_top wo_number pn pd an fd ti ab pr ap iv ipc
                (if Str.contains "CPC" html then ipc else [])) as (T1 & _).
  rewrite <- Hrec, Hempty in T1. by rewrite lookup_empty in T1.
Qed.

Lemma bind_run {A B} (m : M A) (k : A -> M B) (tr : list event) (a : A)
    (tr' : list event) :
  m tr = (Ret a, tr') -> bind m k tr = k a tr'.
Proof. unfold bind. by intros ->. Qed.

Lemma cond_emit (b : bool) (ev : event) (tr : list event) :
  (if b then emit ev else ret tt) tr = (Ret tt, tr ++ if b then [ev] else []).
Proof. destruct b; [reflexivity|]. unfold ret. by rewrite app_nil_r. Qed.

(** The loop runs the unit of every identifier, one after the other,
    and adds one block of events per identifier; the records of the
    units that returned one are appended in that order. *)
Lemma process_all_runs progress_callback headless total wo_numbers :
  forall i results tr0,
  exists runs,
    process_all BeautifulSoup world progress_callback headless total i
      wo_numbers results tr0
    = (Ret (results ++ omap fst runs),
       tr0 ++ batch_blocks progress_callback total i wo_numbers (snd <$> runs))
    /\ batch_runs BeautifulSoup world progress_callback headless total i
         wo_numbers runs tr0.
Proof.
  induction wo_numbers as [|wo rest IH]; intros i results tr0.
  - exists []. simpl. rewrite !app_nil_r. by split.
  - set (pre := if progress_callback
                then [Progress (progress_pct i total) (progress_message wo i total)]
                else []).
    set (tr1 := tr0 ++ [Log INFO (MsgProcessing i total wo)] ++ pre).
    destruct (process_wo_safe_paths wo headless tr1)
      as (r & new1 & Hu & _ & _ & _ & _ & Hok1).
    set (post := if (i <? total)%nat then [Sleep 1] else []).
    set (results' := match r with
                     | Some d => if dict_truthy d then results ++ [d] else results
                     | None => results
                     end).
    assert (Hstep :
      process_all BeautifulSoup world progress_callback headless total i
        (wo :: rest) results tr0
      = process_all BeautifulSoup world progress_callback headless total (S i)
          rest results' (tr1 ++ new1 ++ post)).
    { cbn [process_all].
      rewrite (bind_run _ _ tr0 tt (tr0 ++ [Log INFO (MsgProcessing i total wo)]))
        by reflexivity.
      rewrite (bind_run _ _ _ tt tr1)
        by (subst tr1; rewrite app_assoc; apply cond_emit).
      rewrite (bind_run _ _ tr1 r (tr1 ++ new1)) by exact Hu.
      rewrite (bind_run _ _ (tr1 ++ new1) tt (tr1 ++ new1 ++ post))
        by (rewrite (app_assoc tr1); apply cond_emit).
      reflexivity. }
    assert (Hres : results' = results ++ omap fst [(r, new1)]).
    { subst results'. destruct r as [d|]; simpl; [|by rewrite app_nil_r].
      destruct (Hok1 d eq_refl) as (html & Hparse & _).
      by rewrite (parse_biblio_data_truthy html wo d Hparse). }
    rewrite Hstep.
    destruct (IH (S i) results' (tr1 ++ new1 ++ post)) as (runs & Hrun & Hall).
    exists ((r, new1) :: runs). rewrite Hrun, Hres. split.
    + f_equal.
      * rewrite <- app_assoc. f_equal. simpl. by destruct r.
      * cbn [fmap list_fmap snd batch_blocks]. unfold unit_block. fold pre post.
        subst tr1. by rewrite <- !app_assoc.
    + cbn [batch_runs fst snd]. fold pre. fold tr1. fold post. by split.
Qed.

(** What the runs of a batch show in its history. *)
Lemma batch_runs_observed progress_callback headless total wo_numbers :
  forall runs i tr,
  batch_runs BeautifulSoup world progress_callback headless total i
    wo_numbers runs tr ->
  let blocks := batch_blocks progress_callback total i wo_numbers (snd <$> runs) in
  Forall2 (unit_run BeautifulSoup world headless) wo_numbers runs
  /\ Forall2 (unit_ok BeautifulSoup) wo_numbers (fst <$> runs)
  /\ omap processing_of blocks = imap (fun k wo => ((i + k)%nat, wo)) wo_numbers
  /\ omap progress_of blocks
     = (if progress_callback
        then imap (fun k wo => (progress_pct (i + k) total,
                                progress_message wo (i + k) total)) wo_numbers
        else [])
  /\ omap failure_of blocks
     = omap id (zip_with unit_failure wo_numbers (fst <$> runs)).
Proof.
  induction wo_numbers as [|wo rest IH]; intros [|[r new1] runs] i tr Hruns;
    try (by destruct Hruns).
  - simpl. repeat split; try constructor. by destruct progress_callback.
  - cbn [batch_runs fst snd] in Hruns. destruct Hruns as (Hu & Hrest).
    set (pre := if progress_callback
                then [Progress (progress_pct i total) (progress_message wo i total)]
                else []) in *.
    set (tr1 := tr ++ [Log INFO (MsgProcessing i total wo)] ++ pre) in *.
    set (post := if (i <? total)%nat then [Sleep 1] else []) in *.
    destruct (process_wo_safe_paths wo headless tr1)
      as (r' & new' & Hu' & Hf1 & Hpr1 & Hpg1 & Hsl1 & Hok1).
    rewrite Hu in Hu'. injection Hu' as <- Hnew. apply app_inv_head in Hnew as <-.
    destruct (IH runs (S i) _ Hrest) as (Hall & Hoks & Hproc & Hprog & Hfail).
    cbn zeta. cbn [fmap list_fmap fst snd batch_blocks]. unfold unit_block.
    fold pre post.
    assert (Hpre_nothing : omap processing_of pre = [] /\ omap failure_of pre = []).
    { subst pre. by destruct progress_callback. }
    assert (Hpost_nothing : omap processing_of post = [] /\ omap failure_of post = []
              /\ omap progress_of post = []).
    { subst post. by destruct (i <? total)%nat. }
    destruct Hpre_nothing as (Q1 & Q2).
    destruct Hpost_nothing as (R1 & R2 & R3).
    split; [|split; [|split; [|split]]].
    + constructor; [by exists tr1 | exact Hall].
    + constructor; [exact Hok1 | exact Hoks].
    + rewrite !omap_app, Q1, Hpr1, R1, Hproc. simpl.
      rewrite Nat.add_0_r. f_equal. apply imap_ext. intros k x _. simpl.
      f_equal. lia.
    + rewrite !omap_app, Hpg1, R3, Hprog. simpl.
      subst pre. destruct progress_callback; simpl; [|reflexivity].
      rewrite Nat.add_0_r. f_equal. apply imap_ext. intros k x _. simpl.
      by replace (i + S k)%nat with (S (i + k))%nat by lia.
    + rewrite !omap_app, Q2, Hf1, R2, Hfail. simpl.
      by destruct r.
Qed.

(** The whole history of [search_wipo_patents]. *)
Lemma search_wipo_patents_blocks molecule dev_codes cas max_results
    (progress_callback headless : bool) tr0 :
  let found :=
    search_wipo_wo_numbers BeautifulSoup http_get molecule dev_codes cas max_results in
  let wo_numbers := slice_to max_results found in
  let total := length wo_numbers in
  let start :=
    [Log INFO (MsgSearch molecule)]
      ++ (if progress_callback then [Progress 0 "Searching WIPO..."] else []) in
  exists runs,
    batch_runs BeautifulSoup world progress_callback headless total 1
      wo_numbers runs (tr0 ++ start ++ [Log INFO (MsgProcessingAll total)])
    /\ search_wipo_patents BeautifulSoup http_get world molecule dev_codes cas
         max_results progress_callback headless tr0
       = (Ret (omap fst runs),
          tr0 ++ start
              ++ match found with
                 | [] => [Log WARNING MsgNoPatents]
                 | _ :: _ =>
                     [Log INFO (MsgProcessingAll total)]
                       ++ batch_blocks progress_callback total 1 wo_numbers (snd <$> runs)
                       ++ [Log INFO (MsgComplete (length (omap fst runs)) total)]
                 end).
Proof.
  intros found wo_numbers total start. subst start total wo_numbers.
  unfold search_wipo_patents. fold found.
  set (tr1 := tr0 ++ [Log INFO (MsgSearch molecule)]).
  set (pre := if progress_callback then [Progress 0 "Searching WIPO..."] else []).
  rewrite (bind_run _ _ tr0 tt tr1) by reflexivity.
  rewrite (bind_run _ _ tr1 tt (tr1 ++ pre)) by apply cond_emit.
  destruct found as [|wo found'].
  - exists []. rewrite slice_to_nil. split; [exact I|].
    subst tr1. unfold bind, log, emit, ret. by rewrite <- !app_assoc.
  - set (wo_numbers := slice_to max_results (wo :: found')).
    set (tr2 := (tr1 ++ pre) ++ [Log INFO (MsgProcessingAll (length wo_numbers))]).
    rewrite (bind_run _ _ (tr1 ++ pre) tt tr2) by reflexivity.
    destruct (process_all_runs progress_callback headless (length wo_numbers)
                wo_numbers 1%nat [] tr2) as (runs & Hrun & Hall).
    rewrite (bind_run _ _ tr2 (omap fst runs) _ Hrun).
    exists runs. subst tr2 tr1. split.
    + by rewrite <- !app_assoc in Hall.
    + unfold bind, log, emit, ret. by rewrite <- !app_assoc.
Qed.

Lemma record_identifier_parse html wo_number data :
  parse_biblio_data BeautifulSoup html wo_number = Ok data ->
  record_identifier data = Some wo_number.
Proof.
  intros Hdata. apply parse_biblio_data_Ok in Hdata as (soup & _ & ->).
  destruct (parse_biblio_soup_record soup html wo_number)
    as (pn & pd & an & fd & ti & ab & pr & ap & iv & ipc &
        _ & _ & _ & _ & _ & _ & _ & _ & _ & _ & ->).
  pose proof (biblio_record_top wo_number pn pd an fd ti ab pr ap iv ipc
                (if Str.contains "CPC" html then ipc else [])) as (T1 & _).
  unfold record_identifier. by rewrite T1.
Qed.

Lemma units_records wo_numbers units :
  Forall2 (unit_ok BeautifulSoup) wo_numbers units ->
  Forall (fun d => extraction_successful d = true) (omap id units)
  /\ omap record_identifier (omap id units) `sublist_of` wo_numbers
  /\ length (omap record_identifier (omap id units)) = length (omap id units).
Proof.
  induction 1 as [|wo u wos us Hu _ (IH1 & IH2 & IH3)]; simpl.
  - repeat split; constructor.
  - destruct u as [d|]; simpl.
    + destruct (Hu d eq_refl) as (html & Hparse & Hok).
      rewrite (record_identifier_parse html wo d Hparse). simpl.
      repeat split; try (by constructor). f_equal. exact IH3.
    + repeat split; [assumption | by constructor | assumption].
Qed.

Lemma omap_fst_runs {A B} (runs : list (option A * B)) :
  omap fst runs = omap id (fst <$> runs).
Proof.
  induction runs as [|[[a|] b] runs IH]; [reflexivity| |];
    cbn [omap list_omap fmap list_fmap fst]; by rewrite <- IH.
Qed.

(** The observations of a whole batch. *)
Lemma search_wipo_patents_observed molecule dev_codes cas max_results
    (progress_callback headless : bool) tr0 :
  let found :=
    search_wipo_wo_numbers BeautifulSoup http_get molecule dev_codes cas max_results in
  let wo_numbers := slice_to max_results found in
  let total := length wo_numbers in
  let run :=
    search_wipo_patents BeautifulSoup http_get world molecule dev_codes cas
      max_results progress_callback headless in
  let start :=
    [Log INFO (MsgSearch molecule)]
      ++ (if progress_callback then [Progress 0 "Searching WIPO..."] else []) in
  exists runs,
    batch_runs BeautifulSoup world progress_callback headless total 1
      wo_numbers runs (tr0 ++ start ++ [Log INFO (MsgProcessingAll total)])
    /\ fst (run tr0) = Ret (omap fst runs)
    /\ new_events run tr0
       = start
           ++ match found with
              | [] => [Log WARNING MsgNoPatents]
              | _ :: _ =>
                  [Log INFO (MsgProcessingAll total)]
                    ++ batch_blocks progress_callback total 1 wo_numbers (snd <$> runs)
                    ++ [Log INFO (MsgComplete (length (omap fst runs)) total)]
              end
    /\ Forall2 (unit_run BeautifulSoup world headless) wo_numbers runs
    /\ Forall2 (unit_ok BeautifulSoup) wo_numbers (fst <$> runs)
    /\ omap processing_of (new_events run tr0) = imap (fun k wo => (S k, wo)) wo_numbers
    /\ omap progress_of (new_events run tr0)
       = (if progress_callback
          then (0, "Searching WIPO...")
                 :: imap (fun k wo => (progress_pct (S k) total,
                                       progress_message wo (S k) total)) wo_numbers
          else [])
    /\ omap failure_of (new_events run tr0)
       = omap id (zip_with unit_failure wo_numbers (fst <$> runs)).
Proof.
  intros found wo_numbers total run start. subst run.
  destruct (search_wipo_patents_blocks molecule dev_codes cas max_results
              progress_callback headless tr0) as (runs & Hruns & Hrun).
  fold found wo_numbers total start in Hruns, Hrun.
  exists runs. rewrite (new_events_app _ _ _ _ Hrun), Hrun. cbn [fst].
  destruct (batch_runs_observed progress_callback headless total wo_numbers runs
              1%nat _ Hruns) as (Hall & Hoks & Hproc & Hprog & Hfail).
  cbn zeta in Hproc, Hprog, Hfail.
  assert (Hstart : omap processing_of start = [] /\ omap failure_of start = []
            /\ omap progress_of start
               = if progress_callback then [(0, "Searching WIPO...")] else []).
  { subst start. by destruct progress_callback. }
  destruct Hstart as (S1 & S2 & S3).
  do 5 (split; [done|]).
  rewrite !omap_app, S1, S2, S3.
  destruct found as [|wo found'] eqn:Hfound.
  - subst wo_numbers. rewrite slice_to_nil in *.
    destruct runs; [|by destruct Hruns]. simpl.
    by destruct progress_callback.
  - rewrite !omap_app, Hproc, Hprog, Hfail. simpl. rewrite !app_nil_r.
    by destruct progress_callback.
Qed.

(** C1: the batch never raises.  The identifiers it works on are the
    discovered ones (cut once more to [max_results], which changes
    nothing when that is not negative).  For each identifier, in the
    identifiers' order, the unit [process_wo_safe] is run once, from the
    history as it stands after the "Processing" line of that identifier,
    and the history of the batch is made of the events of these runs,
    one block per identifier; a unit that fails logs its failure and
    contributes no record, and the loop goes on; the result is the list
    of the records the units returned, in the same order, and every one
    of them has [extraction_successful] true and carries the identifier
    of its unit. *)
Theorem batch_processes_every_identifier_once molecule dev_codes cas max_results
    (progress_callback headless : bool) tr0 :
  let found :=
    search_wipo_wo_numbers BeautifulSoup http_get molecule dev_codes cas max_results in
  let wo_numbers := slice_to max_results found in
  let total := length wo_numbers in
  let run :=
    search_wipo_patents BeautifulSoup http_get world molecule dev_codes cas
      max_results progress_callback headless in
  let start :=
    [Log INFO (MsgSearch molecule)]
      ++ (if progress_callback then [Progress 0 "Searching WIPO..."] else []) in
  (0 <= max_results -> wo_numbers = found)
  /\ exists runs,
    let units := fst <$> runs in
    batch_runs BeautifulSoup world progress_callback headless total 1
      wo_numbers runs (tr0 ++ start ++ [Log INFO (MsgProcessingAll total)])
    /\ new_events run tr0
       = start
           ++ match found with
              | [] => [Log WARNING MsgNoPatents]
              | _ :: _ =>
                  [Log INFO (MsgProcessingAll total)]
                    ++ batch_blocks progress_callback total 1 wo_numbers (snd <$> runs)
                    ++ [Log INFO (MsgComplete (length (omap id units)) total)]
              end
    /\ fst (run tr0) = Ret (omap id units)
    /\ Forall2 (unit_ok BeautifulSoup) wo_numbers units
    /\ omap processing_of (new_events run tr0) = imap (fun k wo => (S k, wo)) wo_numbers
    /\ omap failure_of (new_events run tr0)
       = omap id (zip_with unit_failure wo_numbers units)
    /\ Forall (fun d => extraction_successful d = true) (omap id units)
    /\ omap record_identifier (omap id units) `sublist_of` wo_numbers
    /\ length (omap record_identifier (omap id units)) = length (omap id units).
Proof.
  intros found wo_numbers total run start.
  split.
  { intros Hmax. subst wo_numbers found.
    rewrite search_wipo_wo_numbers_eq, !slice_to_nonneg by assumption.
    apply take_idemp. }
  destruct (search_wipo_patents_observed molecule dev_codes cas max_results
              progress_callback headless tr0)
    as (runs & Hruns & Hres & Hhist & _ & Hoks & Hproc & _ & Hfail).
  fold found wo_numbers total run start in Hruns, Hres, Hhist, Hoks, Hproc, Hfail.
  exists runs. cbn zeta. rewrite <- omap_fst_runs.
  destruct (units_records wo_numbers (fst <$> runs) Hoks) as (U1 & U2 & U3).
  rewrite <- omap_fst_runs in U1, U2, U3.
  by repeat split.
Qed.

(** C4, as the code has it: when a callback is passed it is first called
    with 0, and then once per identifier, in the identifiers' order, the
    call for the identifier of index [i] (from 1) carrying
    [int((i / total) * 100)] — the double-precision product truncated
    toward zero, not rounded — and the message with that index. *)
Theorem progress_callbacks_truncated_in_order molecule dev_codes cas max_results
    headless tr0 :
  let wo_numbers :=
    slice_to max_results
      (search_wipo_wo_numbers BeautifulSoup http_get molecule dev_codes cas max_results) in
  let total := length wo_numbers in
  let run :=
    search_wipo_patents BeautifulSoup http_get world molecule dev_codes cas
      max_results true headless in
  omap progress_of (new_events run tr0)
  = (0, "Searching WIPO...")
      :: imap (fun k wo => (progress_pct (S k) total, progress_message wo (S k) total))
           wo_numbers.
Proof.
  intros wo_numbers total run. subst run.
  destruct (search_wipo_patents_observed molecule dev_codes cas max_results
              true headless tr0)
    as (runs & _ & _ & _ & _ & _ & _ & Hprog & _).
  exact Hprog.
Qed.

End CoordinatorFacts.

(** ** The claims at concrete inputs *)

Import Examples.

Example discovery_scenario :
  search_wipo_wo_numbers (parse_as result_page) http_ok "darolutamide"
    (Some ["ODM-201"; "BAY-1841788"]) None 5
  = ["WO2019028689"; "WO2018036558"; "WO2017000111"; "WO2016000222"; "WO2015000333"].
Proof. vm_compute. reflexivity. Qed.

Lemma discovery_witness :
  0 < 5
  /\ (let found :=
        response_identifiers (parse_as result_page) http_ok "darolutamide"
          (Some ["ODM-201"; "BAY-1841788"]) None in
      let ids :=
        search_wipo_wo_numbers (parse_as result_page) http_ok "darolutamide"
          (Some ["ODM-201"; "BAY-1841788"]) None 5 in
      Z.of_nat (length ids) <= 5
      /\ NoDup ids
      /\ ids = take (Z.to_nat 5) (first_seen found)
      /\ ids `sublist_of` found
      /\ (forall x, x ∈ ids -> x ∈ found)
      /\ (Z.of_nat (length (first_seen found)) <= 5 -> ids = first_seen found)).
Proof.
  split; [lia|].
  apply (discovery_bounded_nodup_first_seen (parse_as result_page) http_ok
           "darolutamide" (Some ["ODM-201"; "BAY-1841788"]) None 5).
  lia.
Defined.

Example full_page_record :
  parse_biblio_data (parse_as full_page) detail_html "WO2019028689"
  = Ok (parse_biblio_soup (Dom.soup_of full_page) detail_html "WO2019028689")
  /\ (let data := parse_biblio_soup (Dom.soup_of full_page) detail_html "WO2019028689" in
      extraction_successful data = true
      /\ biblio_field data "publication_number" = Some (VStr "WO/2019/028689")
      /\ biblio_field data "abstract" = Some (VStr "A crystalline form")
      /\ biblio_field data "priority_data" = Some VNone
      /\ biblio_field data "applicants" = Some (VList ["ACME PHARMA"; "BETA LABS"])
      /\ biblio_field data "ipc_codes" = Some (VList ["C07D 231/14"; "A61K 31/415"])
      /\ biblio_field data "cpc_codes" = Some (VList ["C07D 231/14"; "A61K 31/415"])).
Proof. split; [reflexivity|]. vm_compute. repeat split; reflexivity. Qed.

Lemma success_criterion_witness :
  let data := parse_biblio_soup (Dom.soup_of full_page) detail_html "WO2019028689" in
  extraction_successful data = true
  <-> exists p t, biblio_field data "publication_number" = Some (VStr p)
                  /\ biblio_field data "title" = Some (VStr t).
Proof.
  apply (extraction_successful_iff_number_and_title (parse_as full_page)
           detail_html "WO2019028689"
           (parse_biblio_soup (Dom.soup_of full_page) detail_html "WO2019028689")).
  reflexivity.
Defined.

Lemma cpc_path_witness :
  let data := parse_biblio_soup (Dom.soup_of full_page) detail_html "WO2019028689" in
  Str.contains "CPC" detail_html = true
  /\ biblio_field data "cpc_codes" = biblio_field data "ipc_codes".
Proof.
  destruct (cpc_codes_follow_ipc_path (parse_as full_page) detail_html "WO2019028689"
              (Dom.soup_of full_page)
              (parse_biblio_soup (Dom.soup_of full_page) detail_html "WO2019028689")
              eq_refl eq_refl) as (codes & _ & _ & _ & Hsame & _).
  split; [reflexivity|]. apply Hsame. reflexivity.
Defined.

Lemma record_components_witness :
  let data := parse_biblio_soup (Dom.soup_of partial_page) "<html/>" "WO2019028689" in
  data !! "wo_number" = Some (TStr "WO2019028689")
  /\ data !! "source" = Some (TStr "WIPO")
  /\ exists b, data !! "extraction_successful" = Some (TBool b).
Proof.
  destruct (record_always_has_identifier_source_and_flag (parse_as partial_page)
              "<html/>" "WO2019028689"
              (parse_biblio_soup (Dom.soup_of partial_page) "<html/>" "WO2019028689")
              eq_refl) as (Hwo & Hsource & Hflag & _).
  by repeat split.
Defined.

(** C6 fails on the code for [cpc_codes]: on a page whose only field is
    labelled CPC, with one classification entry, the label is found and
    the text "CPC" occurs in the raw document, yet [cpc_codes] is empty,
    because the entries are looked up under the label "IPC". *)
Example cpc_label_present_but_cpc_codes_empty :
  let soup := Dom.soup_of cpc_only_page in
  label_absent soup "Publication Number"
  /\ label_absent soup "Title"
  /\ (exists label, find soup "span" (Some "ps-field--label") (Some "CPC")
                    = Ok (Some label))
  /\ Str.contains "CPC" cpc_only_html = true
  /\ exists data,
       parse_biblio_data (parse_as cpc_only_page) cpc_only_html "WO2019028689" = Ok data
       /\ extraction_successful data = false
       /\ biblio_field data "cpc_codes" = Some (VList []).
Proof.
  split; [vm_compute; reflexivity|].
  split; [vm_compute; reflexivity|].
  split; [eexists; vm_compute; reflexivity|].
  split; [vm_compute; reflexivity|].
  eexists. split; [reflexivity|]. vm_compute. by split.
Qed.

(** C7 fails on the code: the constructor is called before the [try]
    statement, so on a markup that the parser rejects the function
    raises and returns no record. *)
Example parse_biblio_data_raises_on_rejected_markup :
  parse_rejecting empty_page rejected_markup = Raise (Error "ParserRejectedMarkup")
  /\ parse_biblio_data (parse_rejecting empty_page) rejected_markup "WO2019028689"
     = Raise (Error "ParserRejectedMarkup")
  /\ forall data,
       parse_biblio_data (parse_rejecting empty_page) rejected_markup "WO2019028689"
       <> Ok data.
Proof. split; [reflexivity|]. split; [reflexivity|]. intros data. discriminate. Qed.

Lemma partial_success_witness :
  let soup := Dom.soup_of partial_page in
  label_absent soup "Publication Number"
  /\ label_absent soup "Title"
  /\ exists data,
       parse_biblio_data (parse_as partial_page) "<html/>" "WO2019028689" = Ok data
       /\ extraction_successful data = false
       /\ biblio_field data "publication_date" = Some (VStr "14.02.2019")
       /\ biblio_field data "applicants" = Some (VList ["ACME PHARMA"])
       /\ biblio_field data "ipc_codes" = Some (VList ["C07D 231/14"])
       /\ biblio_field data "abstract" = Some VNone.
Proof.
  assert (Hnumber : label_absent (Dom.soup_of partial_page) "Publication Number")
    by (vm_compute; reflexivity).
  assert (Htitle : label_absent (Dom.soup_of partial_page) "Title")
    by (vm_compute; reflexivity).
  destruct (partial_success_keeps_resolved_fields (parse_as partial_page)
              "<html/>" "WO2019028689" (Dom.soup_of partial_page) eq_refl Hnumber Htitle)
    as (data & Hdata & Hflag & _ & _ & Hscalar & _ & Happlicants & _ & Hcodes).
  split; [exact Hnumber|]. split; [exact Htitle|].
  exists data. split; [exact Hdata|]. split; [exact Hflag|].
  split; [|split; [|split]].
  - apply (Hscalar "publication_date" "Publication Date" "14.02.2019").
    + apply list_elem_of_here.
    + do 3 eexists. split; [vm_compute; reflexivity|].
      split; [vm_compute; reflexivity|]. split; [vm_compute; reflexivity | vm_compute; reflexivity].
    + discriminate.
  - apply Happlicants.
    do 4 eexists. exists [Some "ACME PHARMA"].
    split; [vm_compute; reflexivity|]. split; [vm_compute; reflexivity|].
    split; [vm_compute; reflexivity|]. split; [vm_compute; reflexivity|].
    split; [|reflexivity].
    repeat constructor. eexists. split; [vm_compute; reflexivity|].
    split; [vm_compute; reflexivity | discriminate].
  - apply Hcodes.
    do 3 eexists. exists [Some "C07D 231/14"].
    split; [vm_compute; reflexivity|]. split; [vm_compute; reflexivity|].
    split; [vm_compute; reflexivity|]. split; [|reflexivity].
    repeat constructor. eexists. split; [vm_compute; reflexivity|].
    split; [vm_compute; reflexivity | discriminate].
  - apply parse_biblio_data_Ok in Hdata as (soup & [= <-] & ->).
    vm_compute. reflexivity.
Defined.

Lemma empty_page_witness :
  exists data,
    parse_biblio_data (parse_as empty_page) "<html/>" "WO2019028689" = Ok data
    /\ extraction_successful data = false
    /\ (forall key label_text,
          (key, label_text) ∈ scalar_fields -> biblio_field data key = Some VNone)
    /\ biblio_field data "applicants" = Some (VList [])
    /\ biblio_field data "inventors" = Some (VList [])
    /\ biblio_field data "ipc_codes" = Some (VList [])
    /\ biblio_field data "cpc_codes" = Some (VList []).
Proof.
  destruct (extraction_raises_only_in_the_constructor (parse_as empty_page)
              "<html/>" "WO2019028689") as (_ & Hok).
  destruct (Hok (Dom.soup_of empty_page) eq_refl)
    as (data & Hdata & _ & _ & _ & _ & _ & Hall).
  exists data. split; [exact Hdata|].
  apply Hall. intros label_text el. vm_compute. discriminate.
Defined.

Lemma gate_timeout_witness :
  let fetch := fetch_detail_html world_timeouts "WO2019028689" true in
  existsb is_settle_timeout (new_events fetch []) = true
  /\ existsb is_gate_timeout (new_events fetch []) = true
  /\ fst (fetch []) = Ret None
  /\ length (List.filter is_gate_wait (new_events fetch [])) = 1%nat.
Proof.
  pose proof (settle_timeout_continues_gate_timeout_fails world_timeouts
                "WO2019028689" true []) as (_ & Hgate).
  assert (Ht : existsb is_gate_timeout
                 (new_events (fetch_detail_html world_timeouts "WO2019028689" true) [])
               = true) by (vm_compute; reflexivity).
  destruct (Hgate Ht) as (_ & Hnone & _ & Hone & _).
  split; [vm_compute; reflexivity|].
  split; [exact Ht|].
  split; [|exact Hone].
  apply Hnone. vm_compute. reflexivity.
Defined.

(** The scenario of three identifiers of which the second never becomes
    ready: two records, for the first and the third. *)
Example batch_scenario :
  let run :=
    search_wipo_patents parse_site http_ok
      (world_marker_missing "WO2018036558" detail_html)
      "darolutamide" None None 3 true true in
  match fst (run []) with
  | Ret records => record_identifier <$> records
  | Throw _ => []
  end = [Some "WO2019028689"; Some "WO2017000111"]
  /\ omap processing_of (new_events run [])
     = [(1%nat, "WO2019028689"); (2%nat, "WO2018036558"); (3%nat, "WO2017000111")]
  /\ omap failure_of (new_events run []) = ["WO2018036558"]
  /\ omap sleep_of (new_events run []) = [1%nat; 1%nat].
Proof. vm_compute. repeat split; reflexivity. Qed.

(** C4 as stated fails: with three identifiers the callback for the
    second one is called with 66, where [round(2/3*100)] is 67. *)
Lemma progress_is_not_rounded :
  let run :=
    search_wipo_patents (parse_as result_page) http_ok (world_ok detail_html)
      "darolutamide" None None 3 true true in
  exists pct msg,
    omap progress_of (new_events run []) !! 2%nat = Some (pct, msg)
    /\ pct = 66
    /\ claimed_pct 2 3 = 67
    /\ pct <> claimed_pct 2 3.
Proof.
  exists 66, "Processing WO2018036558 (2/3)".
  vm_compute. repeat split; try reflexivity. discriminate.
Qed.

(** The truncation is that of the double-precision product: for the
    29th of 50 identifiers it gives 57, although 29/50 is 58 percent. *)
Example progress_pct_29_of_50 : progress_pct 29 50 = 57.
Proof. vm_compute. reflexivity. Qed.

(** For every batch of up to 100 identifiers the product is a finite
    number, so [int] is defined on it, and the percentage is between 0
    and 100, equal to the exact quotient or one below it. *)
Lemma progress_pct_in_range_upto_100 :
  forallb (fun total => forallb (fun i => percent_in_range i total) (seq 1 total))
    (seq 1 100) = true.
Proof. vm_compute. reflexivity. Qed.

Example progress_pct_last (total : nat) :
  (1 <= total <= 100)%nat -> progress_pct total total = 100.
Proof.
  intros Hrange.
  assert (Hall : forallb (fun t => progress_pct t t =? 100) (seq 1 100) = true)
    by (vm_compute; reflexivity).
  rewrite forallb_forall in Hall.
  apply Z.eqb_eq, Hall, in_seq. lia.
Qed.

(* ===================================================================== *)
(** * Further properties *)
(* ===================================================================== *)

(** ** Discovery *)

Lemma take_digits_spec n s digits :
  take_digits n s = Some digits ->
  length digits = n /\ Forall (fun ch => Str.is_decimal ch = true) digits.
Proof.
  unfold take_digits.
  destruct (length (take n (Str.chars s)) =? n)%nat eqn:Hlen; [|discriminate].
  destruct (forallb Str.is_decimal (take n (Str.chars s))) eqn:Hall; [|discriminate].
  intros [= <-]. split.
  - by apply Nat.eqb_eq.
  - apply Forall_forall. intros ch Hch.
    rewrite forallb_forall in Hall. apply Hall. by apply list_elem_of_In.
Qed.

Lemma re_search_docid_shape s wo :
  re_search_docid s = Some wo -> is_wo_number wo.
Proof.
  induction s as [|c s IH].
  - cbn [re_search_docid]. destruct (Str.prefix "docId=WO" EmptyString); discriminate.
  - cbn [re_search_docid].
    destruct (if Str.prefix "docId=WO" (String c s)
              then take_digits 10 (drop_chars 8 (String c s)) else None)
      as [digits|] eqn:Hds; [|exact IH].
    intros [= <-].
    destruct (Str.prefix "docId=WO" (String c s)); [|discriminate].
    apply take_digits_spec in Hds as (Hlen & Hall).
    by exists digits.
Qed.

Lemma first_seen_NoDup (l : list string) : NoDup l -> first_seen l = l.
Proof.
  induction 1 as [|x l Hx Hl IH]; simpl; [reflexivity|].
  rewrite IH. f_equal. clear IH Hl.
  induction l as [|y l IH]; simpl; [reflexivity|].
  apply not_elem_of_cons in Hx as [Hne Hx].
  destruct (String.eqb_spec y x) as [->|_]; [done|]. simpl. by rewrite IH.
Qed.

Section DiscoveryProperties.

Context {tag : Type} `{Bs4 tag}.
Variable BeautifulSoup : string -> exc tag.
Variable http_get : string -> exc string.


(** Every identifier that discovery returns is "WO" followed by ten
    characters that are decimal digits, of ASCII or of any other script
    of Unicode: the digit class of the pattern is not restricted to
    ASCII. *)
Lemma discovered_identifiers_well_formed molecule dev_codes cas max_results wo :
  wo ∈ search_wipo_wo_numbers BeautifulSoup http_get molecule dev_codes cas max_results ->
  is_wo_number wo.
Proof.
  rewrite search_wipo_wo_numbers_eq. intros Hin.
  assert (Hfound : wo ∈ response_identifiers BeautifulSoup http_get molecule
                           dev_codes cas).
  { apply elem_of_first_seen. unfold slice_to in Hin.
    destruct (0 <=? max_results); apply elem_of_take in Hin as (i & Hi & _);
      eapply list_elem_of_lookup_2; eauto. }
  unfold response_identifiers in Hfound.
  destruct (response_links _ _ _ _ _) as [hrefs|]; [|by apply elem_of_nil in Hfound].
  apply list_elem_of_omap in Hfound as (href & _ & Hid).
  unfold link_identifier in Hid.
  destruct (Str.contains _ href); [|discriminate].
  by apply re_search_docid_shape in Hid.
Qed.

(** [max_results = 0] gives no identifier; a negative [max_results]
    does not: as a Python slice bound it drops that many identifiers
    from the end of the deduplicated list. *)
Lemma discovery_zero_and_negative_bound molecule dev_codes cas max_results :
  let distinct :=
    first_seen (response_identifiers BeautifulSoup http_get molecule dev_codes cas) in
  let ids :=
    search_wipo_wo_numbers BeautifulSoup http_get molecule dev_codes cas max_results in
  (max_results = 0 -> ids = [])
  /\ (max_results < 0 ->
      ids = take (length distinct - Z.to_nat (- max_results)) distinct).
Proof.
  intros distinct ids. subst ids. rewrite search_wipo_wo_numbers_eq. fold distinct.
  unfold slice_to. split.
  - intros ->. reflexivity.
  - intros Hneg. destruct (Z.leb_spec 0 max_results) as [?|_]; [lia|].
    f_equal. lia.
Qed.

(** Identifiers that are already distinct and within the bound come back
    unchanged, in the order of the links. *)
Lemma discovery_keeps_distinct_identifiers molecule dev_codes cas max_results :
  let found := response_identifiers BeautifulSoup http_get molecule dev_codes cas in
  NoDup found ->
  Z.of_nat (length found) <= max_results ->
  search_wipo_wo_numbers BeautifulSoup http_get molecule dev_codes cas max_results
  = found.
Proof.
  intros found Hnodup Hlen. rewrite search_wipo_wo_numbers_eq. fold found.
  rewrite (first_seen_NoDup _ Hnodup), slice_to_nonneg by lia.
  apply take_ge. lia.
Qed.

End DiscoveryProperties.

(** ** Extraction *)

Lemma exc_foldl_invariant {A B} (P : B -> Prop) (f : B -> A -> exc B)
    (l : list A) (acc r : B) :
  P acc ->
  (forall acc x acc', P acc -> f acc x = Ok acc' -> P acc') ->
  exc_foldl f acc l = Ok r -> P r.
Proof.
  intros Hacc Hstep. revert acc Hacc.
  induction l as [|x l IH]; intros acc Hacc; simpl.
  - by intros [= <-].
  - destruct (f acc x) as [acc'|] eqn:Hf; simpl; [|discriminate].
    apply IH. eapply Hstep; eauto.
Qed.

Lemma Forall_snoc_nonempty (names : list string) (name : string) :
  Forall (fun n => n <> EmptyString) names ->
  Forall (fun n => n <> EmptyString)
    (if Str.nonempty name then names ++ [name] else names).
Proof.
  intros Hnames. destruct (Str.nonempty name) eqn:Hne; [|assumption].
  apply Forall_app. split; [assumption|].
  constructor; [by apply nonempty_true | constructor].
Qed.

Ltac keys_iff :=
  rewrite ?elem_of_union, ?elem_of_singleton, ?elem_of_cons, elem_of_nil,
    elem_of_empty; tauto.

Section ExtractionProperties.

Context {tag : Type} `{Bs4 tag}.
Variable BeautifulSoup : string -> exc tag.

Lemma extract_list_field_nonempty soup label_text names :
  extract_list_field soup label_text = Ok names ->
  Forall (fun n => n <> EmptyString) names.
Proof.
  unfold extract_list_field.
  destruct (find soup _ _ _) as [[label|]|?]; simpl; try (intros [= <-]; constructor).
  destruct (find_parent label _ _) as [[field_div|]|?]; simpl;
    try (intros [= <-]; constructor).
  destruct (find field_div _ _ _) as [[person_list|]|?]; simpl;
    try (intros [= <-]; constructor).
  destruct (find_all person_list _ _) as [lis|?]; simpl;
    try (intros [= <-]; constructor).
  destruct (exc_foldl _ [] lis) as [r|] eqn:Hfold; simpl;
    [|intros [= <-]; constructor].
  intros [= <-]. revert Hfold. apply exc_foldl_invariant; [constructor|].
  intros acc li acc' Hacc.
  destruct (find li _ _ _) as [[name_span|]|?]; simpl; try congruence.
  destruct (get_text name_span _) as [name|?]; simpl; [|discriminate].
  intros [= <-]. by apply Forall_snoc_nonempty.
Qed.

Lemma extract_ipc_codes_nonempty soup codes :
  extract_ipc_codes soup = Ok codes ->
  Forall (fun n => n <> EmptyString) codes.
Proof.
  unfold extract_ipc_codes.
  destruct (find soup _ _ _) as [[label|]|?]; simpl; try (intros [= <-]; constructor).
  destruct (find_parent label _ _) as [[field_div|]|?]; simpl;
    try (intros [= <-]; constructor).
  destruct (find_all field_div _ _) as [classifications|?]; simpl;
    try (intros [= <-]; constructor).
  destruct (exc_foldl _ [] classifications) as [r|] eqn:Hfold; simpl;
    [|intros [= <-]; constructor].
  intros [= <-]. revert Hfold. apply exc_foldl_invariant; [constructor|].
  intros acc classification acc' Hacc.
  destruct (find classification _ _ _) as [[link|]|?]; simpl; try congruence.
  destruct (get_text link _) as [code|?]; simpl; [|discriminate].
  intros [= <-]. by apply Forall_snoc_nonempty.
Qed.

(** No list field of a record holds an empty string: applicants,
    inventors and classification codes whose text is empty after
    stripping are skipped. *)
Theorem list_fields_hold_no_empty_string html wo_number data key entries :
  parse_biblio_data BeautifulSoup html wo_number = Ok data ->
  key ∈ list_keys ->
  biblio_field data key = Some (VList entries) ->
  Forall (fun n => n <> EmptyString) entries.
Proof.
  intros Hdata Hkey. apply parse_biblio_data_Ok in Hdata as (soup & _ & ->).
  destruct (parse_biblio_soup_record soup html wo_number)
    as (pn & pd & an & fd & ti & ab & pr & ap & iv & ipc &
        _ & _ & _ & _ & _ & _ & _ & Hap & Hiv & Hipc & ->).
  pose proof (biblio_record_fields wo_number pn pd an fd ti ab pr ap iv ipc
                (if Str.contains "CPC" html then ipc else []))
    as (_ & _ & _ & _ & _ & _ & _ & F8 & F9 & F10 & F11).
  apply extract_list_field_nonempty in Hap, Hiv.
  apply extract_ipc_codes_nonempty in Hipc.
  unfold list_keys in Hkey.
  repeat (apply elem_of_cons in Hkey as [->|Hkey]).
  - rewrite F8. by intros [= <-].
  - rewrite F9. by intros [= <-].
  - rewrite F10. by intros [= <-].
  - rewrite F11. intros [= <-]. destruct (Str.contains "CPC" html); [assumption|constructor].
  - by apply elem_of_nil in Hkey.
Qed.

(** When the parser has accepted the document and the "Publication
    Number" and "Title" labels both resolve to a text that is not empty,
    the function returns a record, the extraction succeeds and the
    record holds the two texts, whatever becomes of the other fields. *)
Theorem number_and_title_suffice html wo_number soup number title :
  BeautifulSoup html = Ok soup ->
  resolves_to soup "Publication Number" number -> number <> EmptyString ->
  resolves_to soup "Title" title -> title <> EmptyString ->
  exists data,
    parse_biblio_data BeautifulSoup html wo_number = Ok data
    /\ extraction_successful data = true
    /\ biblio_field data "publication_number" = Some (VStr number)
    /\ biblio_field data "title" = Some (VStr title).
Proof.
  intros Hsoup Hn Hne Ht Hte.
  exists (parse_biblio_soup soup html wo_number).
  split; [apply parse_biblio_data_Ok; by exists soup|].
  assert (Hpn' : extract_field_by_label soup "Publication Number" = Ok (Some number))
    by (by apply extract_field_by_label_spec).
  assert (Hti' : extract_field_by_label soup "Title" = Ok (Some title))
    by (by apply extract_field_by_label_spec).
  destruct (parse_biblio_soup_record soup html wo_number)
    as (pn & pd & an & fd & ti & ab & pr & ap & iv & ipc &
        Hpn & _ & _ & _ & Hti & _ & _ & _ & _ & _ & ->).
  assert (pn = Some number) as -> by congruence.
  assert (ti = Some title) as -> by congruence.
  pose proof (biblio_record_fields wo_number (Some number) pd an fd (Some title)
                ab pr ap iv ipc (if Str.contains "CPC" html then ipc else []))
    as (F1 & _ & _ & _ & F5 & _).
  rewrite biblio_record_flag, F1, F5. simpl.
  apply nonempty_true in Hne, Hte. by rewrite Hne, Hte.
Qed.

(** The record returned has exactly the four top-level keys and its
    [biblio_data] exactly the eleven field keys: no field is ever
    missing and none is added. *)
Theorem record_has_exactly_its_keys html wo_number data key :
  parse_biblio_data BeautifulSoup html wo_number = Ok data ->
  (is_Some (data !! key) <-> key ∈ record_keys)
  /\ (is_Some (biblio_field data key) <-> key ∈ biblio_keys).
Proof.
  intros Hdata. apply parse_biblio_data_Ok in Hdata as (soup & _ & ->).
  destruct (parse_biblio_soup_record soup html wo_number)
    as (pn & pd & an & fd & ti & ab & pr & ap & iv & ipc &
        _ & _ & _ & _ & _ & _ & _ & _ & _ & _ & ->).
  unfold biblio_record, biblio_field, initial_data, record_keys, biblio_keys.
  destruct (truthy pn && truthy ti).
  - split.
    + rewrite <- elem_of_dom, !dom_insert_L, dom_empty_L. keys_iff.
    + rewrite lookup_insert_ne by done. rewrite lookup_insert_eq.
      rewrite <- elem_of_dom, !dom_insert_L, dom_empty_L. keys_iff.
  - split.
    + rewrite <- elem_of_dom, !dom_insert_L, dom_empty_L. keys_iff.
    + rewrite lookup_insert_eq.
      rewrite <- elem_of_dom, !dom_insert_L, dom_empty_L. keys_iff.
Qed.

End ExtractionProperties.

(** ** Extraction from rendered pages *)

Import Dom.

Lemma descendants_tag ps name classes href kids :
  descendants ps (Tag name classes href kids)
  = flat_map (fun k =>
                {| el_node := k; el_parents := Tag name classes href kids :: ps |}
                  :: descendants (Tag name classes href kids :: ps) k) kids.
Proof.
  set (T := Tag name classes href kids).
  change (descendants ps T) with
    ((fix go (ks : list node) : list element :=
        match ks with
        | [] => []
        | k :: ks' =>
            {| el_node := k; el_parents := T :: ps |}
              :: descendants (T :: ps) k ++ go ks'
        end) kids).
  generalize kids at 1 2. intros ks.
  induction ks as [|k ks IH]; [reflexivity|].
  rewrite IH. reflexivity.
Qed.

Lemma filter_flat_map_map {X} (P : element -> bool) (g : node -> list element)
    (f : X -> node) (h : X -> list element) (xs : list X) :
  (forall x, List.filter P (g (f x)) = h x) ->
  List.filter P (flat_map g (map f xs)) = flat_map h xs.
Proof.
  intros Hx. induction xs as [|x xs IH]; [reflexivity|].
  cbn [map flat_map]. by rewrite List.filter_app, Hx, IH.
Qed.

Lemma flat_map_nil {X Y} (xs : list X) : flat_map (fun _ : X => @nil Y) xs = [].
Proof. induction xs; simpl; auto. Qed.

Lemma flat_map_singleton {X Y} (f : X -> Y) (xs : list X) :
  flat_map (fun x => [f x]) xs = map f xs.
Proof. induction xs as [|x xs IH]; simpl; [reflexivity | by rewrite IH]. Qed.

Lemma person_list_eq names :
  person_list names = [Tag "span" ["patent-person"] None [ul_of names]].
Proof. reflexivity. Qed.

(** Inside a list of persons: no label, one [li] per name. *)
Lemma persons_no_label Q names L :
  List.filter (fun d => matches "span" (Some "ps-field--label") (Some L) (el_node d))
    (descendants Q (ul_of names)) = [].
Proof.
  unfold ul_of. rewrite descendants_tag.
  rewrite (filter_flat_map_map _ _ _ (fun _ => [])); [apply flat_map_nil|].
  intros n. reflexivity.
Qed.

Lemma persons_lis Q names :
  List.filter (fun d => matches "li" None None (el_node d))
    (descendants Q (ul_of names))
  = map (fun n => {| el_node := li_of n; el_parents := ul_of names :: Q |}) names.
Proof.
  unfold ul_of at 1. rewrite descendants_tag. fold (ul_of names).
  rewrite (filter_flat_map_map _ _ _
             (fun n => [{| el_node := li_of n; el_parents := ul_of names :: Q |}]));
    [apply flat_map_singleton|].
  intros n. reflexivity.
Qed.

Lemma entries_no_label Q V entries L :
  List.filter (fun d => matches "span" (Some "ps-field--label") (Some L) (el_node d))
    (flat_map (fun k => {| el_node := k; el_parents := V :: Q |}
                          :: descendants (V :: Q) k) (map entry_of entries)) = [].
Proof.
  rewrite (filter_flat_map_map _ _ _ (fun _ => [])); [apply flat_map_nil|].
  intros e. reflexivity.
Qed.

Lemma entries_divs Q V entries :
  List.filter (fun d => matches "div" (Some "patent-classification") None (el_node d))
    (flat_map (fun k => {| el_node := k; el_parents := V :: Q |}
                          :: descendants (V :: Q) k) (map entry_of entries))
  = map (fun e => {| el_node := entry_of e; el_parents := V :: Q |}) entries.
Proof.
  rewrite (filter_flat_map_map _ _ _
             (fun e => [{| el_node := entry_of e; el_parents := V :: Q |}]));
    [apply flat_map_singleton|].
  intros e. reflexivity.
Qed.

Lemma value_no_label Q c L :
  List.filter (fun d => matches "span" (Some "ps-field--label") (Some L) (el_node d))
    (descendants Q (Tag "span" ["ps-field--value"] None (render_content c))) = [].
Proof.
  destruct c as [text|names|entries]; cbn [render_content].
  - reflexivity.
  - rewrite person_list_eq, descendants_tag. cbn [flat_map app].
    rewrite descendants_tag. cbn [flat_map app].
    rewrite !app_nil_r. cbn [List.filter matches el_node].
    change (String.eqb "span" "span") with true. cbn [andb existsb].
    change (String.eqb "ps-field--label" "patent-person") with false.
    cbn [orb andb]. change (String.eqb "ul" "span") with false. cbn [andb].
    apply persons_no_label.
  - rewrite descendants_tag. apply entries_no_label.
Qed.

Lemma descendants_string ps s : descendants ps (NavigableString s) = [].
Proof. reflexivity. Qed.

(** The descendants of a field block: the label, its text, the value
    element and what is below it. *)
Lemma block_descendants fields f :
  el_descendants (block_el fields f)
  = label_el fields f
      :: {| el_node := NavigableString (fst f);
            el_parents := el_node (label_el fields f) :: el_parents (label_el fields f) |}
      :: value_el fields f
      :: el_descendants (value_el fields f).
Proof.
  unfold el_descendants at 1. unfold block_el. cbn [el_node el_parents].
  set (rest := el_descendants (value_el fields f)).
  unfold render_field at 1, ps_field at 1. rewrite descendants_tag.
  fold (ps_field (fst f) (render_content (snd f))). fold (render_field f).
  cbn [flat_map app].
  rewrite (descendants_tag _ "span" ["ps-field--label"]). cbn [flat_map app].
  rewrite descendants_string, !app_nil_r. reflexivity.
Qed.

Lemma flat_map_map_list {X Y Z} (g : Y -> list Z) (f : X -> Y) (xs : list X) :
  flat_map g (map f xs) = flat_map (fun x => g (f x)) xs.
Proof. induction xs as [|x xs IH]; simpl; [reflexivity | by rewrite IH]. Qed.

(** The descendants of a page: the two enclosing elements, then the
    field blocks with their descendants. *)
Lemma page_descendants fields :
  el_descendants (render_page fields)
  = {| el_node := page_html fields; el_parents := [el_node (render_page fields)] |}
      :: {| el_node := page_body fields;
            el_parents := [page_html fields; el_node (render_page fields)] |}
      :: flat_map (fun f => block_el fields f :: el_descendants (block_el fields f))
           fields.
Proof.
  unfold el_descendants at 1. unfold render_page, soup_of, page_html, page_body.
  cbn [el_node el_parents].
  rewrite descendants_tag. cbn [flat_map app].
  rewrite descendants_tag. cbn [flat_map app].
  rewrite descendants_tag, flat_map_map_list, !app_nil_r. reflexivity.
Qed.

Lemma blocks_find_label fields L fs :
  head (List.filter
          (fun d => matches "span" (Some "ps-field--label") (Some L) (el_node d))
          (flat_map (fun f => block_el fields f :: el_descendants (block_el fields f))
             fs))
  = label_el fields <$> first_match L fs.
Proof.
  induction fs as [|f rest IH]; [reflexivity|].
  cbn [flat_map first_match]. rewrite List.filter_app.
  change (block_el fields f :: el_descendants (block_el fields f))
    with ([block_el fields f] ++ el_descendants (block_el fields f)).
  rewrite List.filter_app, block_descendants.
  pose proof (value_no_label (el_parents (value_el fields f)) (snd f) L) as HD.
  change (descendants (el_parents (value_el fields f))
            (Tag "span" ["ps-field--value"] None (render_content (snd f))))
    with (el_descendants (value_el fields f)) in HD.
  revert HD. generalize (el_descendants (value_el fields f)). intros D HD.
  cbn [List.filter]. rewrite HD.
  destruct f as [l c]. cbn [fst snd].
  change (matches "span" (Some "ps-field--label") (Some L)
            (el_node (block_el fields (l, c)))) with false.
  change (matches "span" (Some "ps-field--label") (Some L)
            (el_node (label_el fields (l, c))))
    with (Str.re_search_ignorecase L l).
  change (matches "span" (Some "ps-field--label") (Some L)
            (el_node (value_el fields (l, c)))) with false.
  cbn [el_node matches app].
  destruct (Str.re_search_ignorecase L l); [reflexivity | exact IH].
Qed.

Lemma page_find_label fields L :
  dom_find (render_page fields) "span" (Some "ps-field--label") (Some L)
  = label_el fields <$> first_match L fields.
Proof.
  unfold dom_find, dom_find_all. rewrite page_descendants.
  rewrite <- blocks_find_label. reflexivity.
Qed.

Lemma page_field_elements fields f :
  dom_find_parent (label_el fields f) "div" "ps-field" = Some (block_el fields f)
  /\ dom_find (block_el fields f) "span" (Some "ps-field--value") None
     = Some (value_el fields f).
Proof.
  split; [reflexivity|].
  unfold dom_find, dom_find_all. rewrite block_descendants. reflexivity.
Qed.

Lemma persons_filter_none Q names (P : element -> bool) :
  (forall n Q', List.filter P ({| el_node := li_of n; el_parents := Q' |}
                                 :: descendants Q' (li_of n)) = []) ->
  List.filter P (descendants Q (ul_of names)) = [].
Proof.
  intros Hn. unfold ul_of. rewrite descendants_tag.
  rewrite (filter_flat_map_map _ _ _ (fun _ => [])); [apply flat_map_nil|].
  intros n. apply Hn.
Qed.

Lemma entries_filter_none Q V entries (P : element -> bool) :
  (forall e Q', List.filter P ({| el_node := entry_of e; el_parents := Q' |}
                                 :: descendants Q' (entry_of e)) = []) ->
  List.filter P
    (flat_map (fun k => {| el_node := k; el_parents := V :: Q |}
                          :: descendants (V :: Q) k) (map entry_of entries)) = [].
Proof.
  intros He.
  rewrite (filter_flat_map_map _ _ _ (fun _ => [])); [apply flat_map_nil|].
  intros e. apply He.
Qed.

(** The elements below the value element of a field, by kind. *)
Lemma value_descendants_persons fields l names :
  el_descendants (value_el fields (l, Persons names))
  = {| el_node := Tag "span" ["patent-person"] None [ul_of names];
       el_parents := el_node (value_el fields (l, Persons names))
                       :: el_parents (value_el fields (l, Persons names)) |}
      :: {| el_node := ul_of names;
            el_parents := Tag "span" ["patent-person"] None [ul_of names]
                            :: el_node (value_el fields (l, Persons names))
                            :: el_parents (value_el fields (l, Persons names)) |}
      :: descendants (Tag "span" ["patent-person"] None [ul_of names]
                        :: el_node (value_el fields (l, Persons names))
                        :: el_parents (value_el fields (l, Persons names)))
           (ul_of names).
Proof.
  unfold el_descendants at 1, value_el. cbn [el_node el_parents snd render_content].
  rewrite person_list_eq, descendants_tag. cbn [flat_map app].
  rewrite descendants_tag. cbn [flat_map app]. by rewrite !app_nil_r.
Qed.

Lemma value_descendants_classes fields l entries :
  el_descendants (value_el fields (l, Classes entries))
  = flat_map (fun k =>
                {| el_node := k;
                   el_parents := el_node (value_el fields (l, Classes entries))
                                   :: el_parents (value_el fields (l, Classes entries)) |}
                  :: descendants (el_node (value_el fields (l, Classes entries))
                                    :: el_parents (value_el fields (l, Classes entries))) k)
      (map entry_of entries).
Proof.
  unfold el_descendants at 1, value_el. cbn [el_node el_parents snd render_content].
  by rewrite descendants_tag.
Qed.

(** The loop of [extract_list_field] over the [li] elements of a list
    of persons. *)
Lemma persons_loop Q names acc :
  exc_foldl
    (fun names li =>
       exc_bind (find li "span" (Some "biblio-person-list--name") None)
         (fun name_span =>
            match name_span with
            | None => Ok names
            | Some name_span =>
                exc_bind (get_text name_span EmptyString)
                  (fun name => Ok (if Str.nonempty name then names ++ [name]
                                   else names))
            end))
    acc (map (fun n => {| el_node := li_of n; el_parents := Q |}) names)
  = Ok (acc ++ stripped_all names).
Proof.
  revert acc. induction names as [|n names IH]; intros acc.
  - simpl. by rewrite app_nil_r.
  - cbn [map exc_foldl].
    assert (Hstep :
      exc_bind (find {| el_node := li_of n; el_parents := Q |} "span"
                  (Some "biblio-person-list--name") None)
        (fun name_span =>
           match name_span with
           | None => Ok acc
           | Some name_span =>
               exc_bind (get_text name_span EmptyString)
                 (fun name => Ok (if Str.nonempty name then acc ++ [name] else acc))
           end)
      = Ok (acc ++ stripped_all [n])).
    { unfold stripped_all, stripped. cbn.
      destruct (Str.nonempty (Str.strip n)) eqn:Hne; cbn.
      - by rewrite Hne.
      - by rewrite app_nil_r. }
    rewrite Hstep. cbn [exc_bind]. rewrite IH, <- app_assoc. do 2 f_equal.
    unfold stripped_all. simpl. by destruct (stripped n).
Qed.

(** The loop of [extract_ipc_codes] over the classification entries. *)
Lemma entries_loop Q entries acc :
  exc_foldl
    (fun ipc_codes classification =>
       exc_bind (find classification "a" None None)
         (fun link =>
            match link with
            | None => Ok ipc_codes
            | Some link =>
                exc_bind (get_text link EmptyString)
                  (fun code => Ok (if Str.nonempty code then ipc_codes ++ [code]
                                   else ipc_codes))
            end))
    acc (map (fun e => {| el_node := entry_of e; el_parents := Q |}) entries)
  = Ok (acc ++ stripped_all (map fst entries)).
Proof.
  revert acc. induction entries as [|e entries IH]; intros acc.
  - simpl. by rewrite app_nil_r.
  - cbn [map exc_foldl].
    assert (Hstep :
      exc_bind (find {| el_node := entry_of e; el_parents := Q |} "a" None None)
        (fun link =>
           match link with
           | None => Ok acc
           | Some link =>
               exc_bind (get_text link EmptyString)
                 (fun code => Ok (if Str.nonempty code then acc ++ [code] else acc))
           end)
      = Ok (acc ++ stripped_all [fst e])).
    { unfold stripped_all, stripped. cbn.
      destruct (Str.nonempty (Str.strip (fst e))) eqn:Hne; cbn.
      - by rewrite Hne.
      - by rewrite app_nil_r. }
    rewrite Hstep. cbn [exc_bind]. rewrite IH, <- app_assoc. do 2 f_equal.
    unfold stripped_all. simpl. by destruct (stripped (fst e)).
Qed.

Lemma block_descendants_app fields f :
  el_descendants (block_el fields f)
  = [ label_el fields f;
      {| el_node := NavigableString (fst f);
         el_parents := el_node (label_el fields f) :: el_parents (label_el fields f) |};
      value_el fields f ]
      ++ el_descendants (value_el fields f).
Proof. apply block_descendants. Qed.

(** What the document calls of the extractors return on a rendered
    page. *)
Lemma page_find fields L :
  find (render_page fields) "span" (Some "ps-field--label") (Some L)
  = Ok (label_el fields <$> first_match L fields).
Proof. cbn [find bs4_element]. by rewrite page_find_label. Qed.

Lemma label_parent fields f :
  find_parent (label_el fields f) "div" "ps-field" = Ok (Some (block_el fields f)).
Proof. reflexivity. Qed.

Lemma block_value fields f :
  find (block_el fields f) "span" (Some "ps-field--value") None
  = Ok (Some (value_el fields f)).
Proof.
  cbn [find bs4_element]. unfold dom_find, dom_find_all.
  rewrite block_descendants. reflexivity.
Qed.

Lemma value_text_scalar fields l text :
  get_text (value_el fields (l, Scalar text)) " "
  = Ok (default EmptyString (stripped text)).
Proof.
  cbn [get_text bs4_element]. unfold stripped. cbn.
  by destruct (Str.nonempty (Str.strip text)).
Qed.

Lemma block_ul fields l c :
  find (block_el fields (l, c)) "ul" (Some "biblio-person-list") None
  = Ok match c with
       | Persons names => Some (ul_el fields l names)
       | _ => None
       end.
Proof.
  cbn [find bs4_element]. unfold dom_find, dom_find_all.
  rewrite block_descendants_app, List.filter_app.
  destruct c as [text|names|entries].
  - reflexivity.
  - rewrite value_descendants_persons. reflexivity.
  - rewrite value_descendants_classes, entries_filter_none; [reflexivity|].
    intros e Q'. reflexivity.
Qed.

Lemma ul_lis fields l names :
  find_all (ul_el fields l names) "li" None
  = Ok (map (fun n => {| el_node := li_of n;
                         el_parents := ul_of names :: el_parents (ul_el fields l names) |})
          names).
Proof.
  cbn [find_all bs4_element]. unfold dom_find_all, el_descendants, ul_el.
  cbn [el_node el_parents]. by rewrite persons_lis.
Qed.

Lemma block_divs fields l c :
  find_all (block_el fields (l, c)) "div" (Some "patent-classification")
  = Ok match c with
       | Classes entries =>
           map (fun e => {| el_node := entry_of e;
                            el_parents := el_node (value_el fields (l, c))
                                            :: el_parents (value_el fields (l, c)) |})
             entries
       | _ => []
       end.
Proof.
  cbn [find_all bs4_element]. unfold dom_find_all.
  rewrite block_descendants_app, List.filter_app.
  destruct c as [text|names|entries].
  - reflexivity.
  - rewrite value_descendants_persons.
    set (Q := _ :: _ :: el_parents (value_el fields (l, Persons names))).
    change (List.filter ?P (?a :: ?b :: descendants Q (ul_of names)))
      with (List.filter P (descendants Q (ul_of names))).
    rewrite persons_filter_none; [reflexivity|].
    intros n Q'. reflexivity.
  - rewrite value_descendants_classes, entries_divs. reflexivity.
Qed.

(** On a rendered page a scalar extraction with a label text without
    operators finds the first field whose label contains the label
    text, whatever the case of the letters, and returns the stripped
    text of its value; it returns nothing when no label matches or when
    the text is empty once stripped, even if a later field would match.
    The condition on the label text is the one under which the search of
    the label is that of the source. *)
Theorem rendered_scalar_field fields label_text :
  Str.is_plain label_text = true ->
  (first_field label_text fields = None ->
   extract_field_by_label (render_page fields) label_text = Ok None)
  /\ (forall text,
        first_field label_text fields = Some (Scalar text) ->
        extract_field_by_label (render_page fields) label_text = Ok (stripped text)).
Proof.
  intros _.
  unfold first_field, extract_field_by_label. rewrite page_find.
  destruct (first_match label_text fields) as [[l c]|];
    cbn [fmap option_fmap option_map exc_bind].
  - split; [discriminate|]. intros text [= Hc].
    cbn [snd] in Hc. subst c.
    rewrite label_parent. cbn [exc_bind]. rewrite block_value. cbn [exc_bind].
    rewrite value_text_scalar. unfold stripped. cbn.
    by destruct (Str.nonempty (Str.strip text)) eqn:Hne; cbn; rewrite ?Hne.
  - split; [reflexivity | discriminate].
Qed.

(** On a rendered page the extraction of a list of persons with a label
    text without operators returns the stripped names of the first field
    whose label matches, in order, without the names that are empty once
    stripped; it returns the empty list when no label matches or when
    the field holds no list of persons. *)
Theorem rendered_list_field fields label_text :
  Str.is_plain label_text = true ->
  extract_list_field (render_page fields) label_text
  = Ok (persons_of (first_field label_text fields)).
Proof.
  intros _.
  unfold first_field, extract_list_field. rewrite page_find.
  destruct (first_match label_text fields) as [[l c]|];
    cbn [fmap option_fmap option_map exc_bind]; [|reflexivity].
  rewrite label_parent. cbn [exc_bind]. rewrite block_ul.
  destruct c as [text|names|entries]; cbn [exc_bind snd persons_of];
    try reflexivity.
  rewrite ul_lis. cbn [exc_bind]. rewrite persons_loop. reflexivity.
Qed.

(** On a rendered page the extraction of classification codes returns
    the stripped link texts of the entries of the first field whose
    label contains "IPC", in document order and with repeated codes
    kept. *)
Theorem rendered_ipc_codes fields :
  extract_ipc_codes (render_page fields) = Ok (codes_of (first_field "IPC" fields)).
Proof.
  unfold first_field, extract_ipc_codes. rewrite page_find.
  destruct (first_match "IPC" fields) as [[l c]|];
    cbn [fmap option_fmap option_map exc_bind]; [|reflexivity].
  rewrite label_parent. cbn [exc_bind]. rewrite block_divs.
  destruct c as [text|names|entries]; cbn [exc_bind snd codes_of];
    try reflexivity.
  rewrite entries_loop. reflexivity.
Qed.

(** ** Acquisition: the shape of every run *)

Section AcquisitionProperties.

Variable world : list event -> call -> outcome.

Ltac await_all :=
  repeat match goal with
         | |- context [world ?t ?c] =>
             let E := fresh "E" in
             destruct (world t c) as [?|[[| |?]|]] eqn:E; cbn -[app]
         end.

Ltac prefix_then_closes :=
  let rec closes n k :=
    first [ solve [exists n, k; split; [reflexivity | split; [lia | cbn; lia]]]
          | lazymatch k with
            | 2%nat => fail
            | _ => closes n (S k)
            end ] in
  let rec prefix n :=
    first [ closes n 0%nat
          | lazymatch n with
            | 8%nat => fail
            | _ => prefix (S n)
            end ] in
  prefix 0%nat.

(** More of every path through [fetch_detail_html]. *)
Lemma fetch_detail_html_shape wo_number headless tr0 :
  exists r new,
    fetch_detail_html world wo_number headless tr0 = (r, tr0 ++ new)
    /\ (exists n k, omap awaited new
                    = take (S n) (happy_calls wo_number) ++ replicate k BrowserClose
                    /\ (k <= 2)%nat
                    /\ (length (omap awaited new) <= 10)%nat)
    /\ (existsb is_cancelled new = true -> r = Throw CancelledError)
    /\ (existsb is_cancelled new = false -> existsb is_fatal new = true ->
        r = Ret None)
    /\ (forall html, r = Ret (Some html) ->
          omap content_of new = [html]
          /\ existsb is_fatal new = false
          /\ omap awaited new = happy_calls wo_number)
    /\ (existsb is_fatal new = false -> exists html, r = Ret (Some html))
    /\ (existsb is_goto_failure new = true ->
        (existsb is_cancelled new = false -> r = Ret None)
        /\ (forall html, r <> Ret (Some html))
        /\ existsb is_settle_wait new = false
        /\ existsb is_gate_wait new = false
        /\ existsb is_content new = false
        /\ existsb is_close new = true)
    /\ (existsb is_init_failure new = true ->
        r = Ret None
        /\ existsb is_close new = false
        /\ existsb is_stop new = true
        /\ last new = Some (Log ERROR (MsgInitFailed wo_number)))
    /\ (open_browsers new
        = if existsb is_launched new && negb (existsb is_closed new)
          then 1%nat else 0%nat)
    /\ (existsb is_page_created new = true ->
        existsb is_cancelled new = false ->
        existsb is_close_failure new = false ->
        existsb is_closed new = true)
    /\ (existsb is_cancelled new = true -> existsb is_closed new = false).
Proof.
  unfold fetch_detail_html, with_async_playwright, readiness_gate,
    except_Exception, except_PlaywrightTimeout_Exception, except_PlaywrightTimeout,
    bind, await, log, emit, ret, happy_calls.
  generalize (DETAIL_URL +:+ "?docId=" +:+ wo_number) as url. intros url.
  generalize READY_SELECTOR as sel. intros sel.
  cbn -[app].
  await_all.
  all: rewrite <- ?app_assoc; cbn [app];
    eexists _, _; split; [reflexivity|];
    split; [cbn; prefix_then_closes|];
    cbn; repeat split; try congruence; eauto.
Qed.

(** Only a cancellation leaves [fetch_detail_html] as an exception.
    When the unit is not cancelled the function returns: [None] when an
    awaited call raised, a timeout of the quiet-network wait apart, and
    a document otherwise. *)
Theorem fetch_raises_only_when_cancelled wo_number headless tr0 :
  let r := fst (fetch_detail_html world wo_number headless tr0) in
  let new := new_events (fetch_detail_html world wo_number headless) tr0 in
  (forall e, r <> Throw (Exn e))
  /\ (r = Throw CancelledError <-> existsb is_cancelled new = true)
  /\ (existsb is_cancelled new = false -> exists v, r = Ret v)
  /\ (existsb is_cancelled new = false -> existsb is_fatal new = true ->
      r = Ret None)
  /\ (existsb is_fatal new = false -> exists html, r = Ret (Some html)).
Proof.
  intros r new. subst r new.
  destruct (fetch_detail_html_shape wo_number headless tr0)
    as (r & new & Hf & _ & Hcancel & Hfatal & _ & Hclean & _).
  destruct (fetch_detail_html_paths world wo_number headless tr0)
    as (r' & new' & Hf' & Hexn & Hret & _).
  rewrite Hf in Hf'. injection Hf' as <- Hnew. apply app_inv_head in Hnew as <-.
  rewrite (new_events_app _ _ _ _ Hf), Hf. cbn [fst].
  split; [exact Hexn|]. split; [|split; [exact Hret|split; [exact Hfatal|exact Hclean]]].
  split; [|exact Hcancel].
  intros ->. destruct (existsb is_cancelled new) eqn:Hc; [reflexivity|].
  by destruct (Hret eq_refl).
Qed.

(** The calls of one acquisition are made in a fixed order, each at most
    once: they are an initial part of the sequence start, launch,
    context, page, navigation, quiet-network wait, marker wait, content,
    close, followed by at most two more [browser.close()] of the
    handlers; ten calls at most.  Nothing is retried. *)
Theorem fetch_calls_in_order_without_retry wo_number headless tr0 :
  let new := new_events (fetch_detail_html world wo_number headless) tr0 in
  exists n k,
    omap awaited new
    = take (S n) (happy_calls wo_number) ++ replicate k BrowserClose
    /\ (k <= 2)%nat
    /\ (length (omap awaited new) <= 10)%nat.
Proof.
  intros new. subst new.
  destruct (fetch_detail_html_shape wo_number headless tr0)
    as (r & new & Hf & Hcalls & _).
  by rewrite (new_events_app _ _ _ _ Hf).
Qed.

(** A document is returned exactly when no awaited call raised, a
    timeout of the quiet-network wait apart; it is then the text that
    [page.content()] returned, and all nine calls were made.  In
    particular a [browser.close()] that raises after the capture loses
    the document. *)
Theorem fetch_returns_document_iff_no_call_failed wo_number headless tr0 :
  let r := fst (fetch_detail_html world wo_number headless tr0) in
  let new := new_events (fetch_detail_html world wo_number headless) tr0 in
  ((exists html, r = Ret (Some html)) <-> existsb is_fatal new = false)
  /\ (forall html, r = Ret (Some html) ->
        omap content_of new = [html]
        /\ omap awaited new = happy_calls wo_number).
Proof.
  intros r new. subst r new.
  destruct (fetch_detail_html_shape wo_number headless tr0)
    as (r & new & Hf & _ & _ & _ & Hdoc & Hclean & _).
  rewrite (new_events_app _ _ _ _ Hf), Hf. cbn [fst].
  split; [split|].
  - intros (html & Hr). by destruct (Hdoc html Hr) as (_ & ? & _).
  - exact Hclean.
  - intros html Hr. destruct (Hdoc html Hr) as (? & _ & ?). by split.
Qed.

(** When the navigation raises, a timeout or any other exception, the
    page is given up at once: no wait and no read follows,
    [browser.close()] is called, no document is returned, and the result
    is [None] unless the unit is cancelled during the close. *)
Theorem navigation_failure_closes_and_gives_up wo_number headless tr0 :
  let r := fst (fetch_detail_html world wo_number headless tr0) in
  let new := new_events (fetch_detail_html world wo_number headless) tr0 in
  existsb is_goto_failure new = true ->
  (existsb is_cancelled new = false -> r = Ret None)
  /\ (forall html, r <> Ret (Some html))
  /\ existsb is_settle_wait new = false
  /\ existsb is_gate_wait new = false
  /\ existsb is_content new = false
  /\ existsb is_close new = true.
Proof.
  intros r new. subst r new.
  destruct (fetch_detail_html_shape wo_number headless tr0)
    as (r & new & Hf & _ & _ & _ & _ & _ & Hgoto & _).
  rewrite (new_events_app _ _ _ _ Hf), Hf. exact Hgoto.
Qed.



End AcquisitionProperties.
(** ** One identifier *)

Lemma existsb_snoc_log (P : event -> bool) (new : list event) (l : level) (m : message) :
  P (Log l m) = false -> existsb P (new ++ [Log l m]) = existsb P new.
Proof. intros Hp. rewrite existsb_app. simpl. rewrite Hp. by rewrite !orb_false_r. Qed.

Lemma existsb_snoc_unexpected (new : list event) (wo : string) :
  existsb is_unexpected (new ++ [Log ERROR (MsgUnexpected wo)]) = true.
Proof. rewrite existsb_app. simpl. apply orb_true_r. Qed.

Lemma omap_content_snoc_log (new : list event) (l : level) (m : message) :
  omap content_of (new ++ [Log l m]) = omap content_of new.
Proof. rewrite omap_app. simpl. apply app_nil_r. Qed.

Section UnitProperties.

Context {tag : Type} `{Bs4 tag}.
Variable BeautifulSoup : string -> exc tag.
Variable http_get : string -> exc string.
Variable world : list event -> call -> outcome.

Ltac unit_equation Hunit :=
  match goal with
  | Hf : fetch_detail_html _ _ _ _ = _, Hexn : forall e, _ <> Throw (Exn e) |- _ =>
      pose proof (process_wo_safe_by_fetch BeautifulSoup world _ _ _ _ _ Hf Hexn)
        as Hunit
  end;
  cbn beta iota in Hunit;
  repeat match goal with
         | E : Str.nonempty _ = _ |- _ => rewrite E in Hunit
         | E : parse_biblio_data _ _ _ = _ |- _ => rewrite E in Hunit
         | E : extraction_successful _ = _ |- _ => rewrite E in Hunit
         end;
  cbn beta iota in Hunit.

(** The unit in terms of the page content that was read. *)
Lemma process_wo_safe_cases wo_number headless tr0 :
  exists (new : list event) (last_line : option message),
    let unit_events :=
      new ++ match last_line with Some m => [Log ERROR m] | None => [] end in
    new_events (process_wo_safe BeautifulSoup world wo_number headless) tr0
    = unit_events
    /\ existsb is_unexpected new = false
    /\ existsb is_cancelled unit_events = existsb is_cancelled new
    /\ existsb is_fatal unit_events = existsb is_fatal new
    /\ omap content_of unit_events = omap content_of new
    /\ (existsb is_cancelled new = true -> existsb is_fatal new = true)
    /\ ((existsb is_cancelled new = true
         /\ fst (process_wo_safe BeautifulSoup world wo_number headless tr0) = Ret None
         /\ last_line = Some (MsgTimeoutTotal wo_number))
        \/ (existsb is_cancelled new = false /\ existsb is_fatal new = true
            /\ fst (process_wo_safe BeautifulSoup world wo_number headless tr0)
               = Ret None
            /\ last_line = Some (MsgFetchFailed wo_number))
        \/ (existsb is_fatal new = false
            /\ exists html,
                 omap content_of new = [html]
                 /\ (fst (process_wo_safe BeautifulSoup world wo_number headless tr0),
                     last_line)
                    = if Str.nonempty html
                      then match parse_biblio_data BeautifulSoup html wo_number with
                           | Ok data =>
                               if extraction_successful data
                               then (Ret (Some data), None)
                               else (Ret None, Some (MsgExtractFailed wo_number))
                           | Raise AsyncioTimeoutError =>
                               (Ret None, Some (MsgTimeoutTotal wo_number))
                           | Raise _ => (Ret None, Some (MsgUnexpected wo_number))
                           end
                      else (Ret None, Some (MsgFetchFailed wo_number)))).
Proof.
  destruct (fetch_detail_html_shape world wo_number headless tr0)
    as (r & new & Hf & _ & Hcancel & Hfatal & Hdoc & Hclean & _).
  destruct (fetch_detail_html_paths world wo_number headless tr0)
    as (r' & new' & Hf' & Hexn & _ & _ & _ & _ & Hnofail & _).
  rewrite Hf in Hf'. injection Hf' as <- Hnew. apply app_inv_head in Hnew as <-.
  assert (Hunexp : existsb is_unexpected new = false).
  { clear -Hnofail. induction new as [|ev new IH]; [reflexivity|].
    simpl in *. destruct ev as [| |l m| |]; try (by apply IH).
    destruct l, m; simpl in *; try discriminate; by apply IH. }
  assert (Hfatal_cancel : existsb is_cancelled new = true -> existsb is_fatal new = true).
  { clear. induction new as [|ev new IH]; [discriminate|].
    simpl. destruct ev as [c [?|[e|]]| | | |]; try (by apply IH).
    - destruct c; by apply IH.
    - destruct c, e; simpl; intros Hc; rewrite ?(IH Hc); reflexivity.
    - intros _. by destruct c. }
  assert (Hshape : forall (res : option (gmap string top_value)) (line : option message),
    process_wo_safe BeautifulSoup world wo_number headless tr0
    = (Ret res, tr0 ++ new ++ match line with Some m => [Log ERROR m] | None => [] end) ->
    new_events (process_wo_safe BeautifulSoup world wo_number headless) tr0
    = new ++ match line with Some m => [Log ERROR m] | None => [] end
    /\ existsb is_cancelled (new ++ match line with Some m => [Log ERROR m] | None => [] end)
       = existsb is_cancelled new
    /\ existsb is_fatal (new ++ match line with Some m => [Log ERROR m] | None => [] end)
       = existsb is_fatal new
    /\ omap content_of (new ++ match line with Some m => [Log ERROR m] | None => [] end)
       = omap content_of new
    /\ fst (process_wo_safe BeautifulSoup world wo_number headless tr0) = Ret res).
  { intros res line Hrun. rewrite (new_events_app _ _ _ _ Hrun), Hrun.
    destruct line as [m|]; rewrite ?app_nil_r;
      rewrite ?existsb_snoc_log, ?omap_content_snoc_log by reflexivity; by repeat split. }
  assert (Hnone : forall m,
    process_wo_safe BeautifulSoup world wo_number headless tr0
    = (Ret None, tr0 ++ new ++ [Log ERROR m]) ->
    process_wo_safe BeautifulSoup world wo_number headless tr0
    = (Ret None, tr0 ++ new ++ match Some m with
                                | Some m => [Log ERROR m]
                                | None => []
                                end)) by (by intros m ->).
  destruct r as [[html|]|e].
  - destruct (Hdoc html eq_refl) as (Hcontent & Hft & _).
    destruct (Str.nonempty html) eqn:Hne.
    + destruct (parse_biblio_data BeautifulSoup html wo_number) as [data|e] eqn:Hparse.
      * destruct (extraction_successful data) eqn:Hok.
        -- unit_equation Hunit. exists new, None.
           assert (Hrun : process_wo_safe BeautifulSoup world wo_number headless tr0
                          = (Ret (Some data),
                             tr0 ++ new ++ match @None message with
                                           | Some m => [Log ERROR m]
                                           | None => []
                                           end))
             by (by rewrite Hunit, app_nil_r).
           destruct (Hshape _ None Hrun) as (S1 & S2 & S3 & S4 & S5).
           cbn zeta. repeat split; try assumption.
           right. right. split; [exact Hft|]. exists html. split; [exact Hcontent|].
           by rewrite S5, Hne, Hparse, Hok.
        -- unit_equation Hunit. exists new, (Some (MsgExtractFailed wo_number)).
           destruct (Hshape _ (Some _) (Hnone _ Hunit)) as (S1 & S2 & S3 & S4 & S5).
           cbn zeta. repeat split; try assumption.
           right. right. split; [exact Hft|]. exists html. split; [exact Hcontent|].
           by rewrite S5, Hne, Hparse, Hok.
      * destruct e as [| |msg].
        -- unit_equation Hunit. exists new, (Some (MsgUnexpected wo_number)).
           destruct (Hshape _ (Some _) (Hnone _ Hunit)) as (S1 & S2 & S3 & S4 & S5).
           cbn zeta. repeat split; try assumption.
           right. right. split; [exact Hft|]. exists html. split; [exact Hcontent|].
           by rewrite S5, Hne, Hparse.
        -- unit_equation Hunit. exists new, (Some (MsgTimeoutTotal wo_number)).
           destruct (Hshape _ (Some _) (Hnone _ Hunit)) as (S1 & S2 & S3 & S4 & S5).
           cbn zeta. repeat split; try assumption.
           right. right. split; [exact Hft|]. exists html. split; [exact Hcontent|].
           by rewrite S5, Hne, Hparse.
        -- unit_equation Hunit. exists new, (Some (MsgUnexpected wo_number)).
           destruct (Hshape _ (Some _) (Hnone _ Hunit)) as (S1 & S2 & S3 & S4 & S5).
           cbn zeta. repeat split; try assumption.
           right. right. split; [exact Hft|]. exists html. split; [exact Hcontent|].
           by rewrite S5, Hne, Hparse.
    + unit_equation Hunit. exists new, (Some (MsgFetchFailed wo_number)).
      destruct (Hshape _ (Some _) (Hnone _ Hunit)) as (S1 & S2 & S3 & S4 & S5).
      cbn zeta. repeat split; try assumption.
      right. right. split; [exact Hft|]. exists html. split; [exact Hcontent|].
      by rewrite S5, Hne.
  - unit_equation Hunit. exists new, (Some (MsgFetchFailed wo_number)).
    destruct (Hshape _ (Some _) (Hnone _ Hunit)) as (S1 & S2 & S3 & S4 & S5).
    cbn zeta. repeat split; try assumption.
    destruct (existsb is_fatal new) eqn:Hft;
      [|destruct (Hclean eq_refl) as (html & [=])].
    destruct (existsb is_cancelled new) eqn:Hc;
      [by specialize (Hcancel eq_refl)|].
    right. left. by repeat split.
  - unit_equation Hunit. exists new, (Some (MsgTimeoutTotal wo_number)).
    destruct (Hshape _ (Some _) (Hnone _ Hunit)) as (S1 & S2 & S3 & S4 & S5).
    cbn zeta. repeat split; try assumption.
    destruct (existsb is_fatal new) eqn:Hft;
      [|destruct (Hclean eq_refl) as (html & [=])].
    destruct (existsb is_cancelled new) eqn:Hc.
    + left. by repeat split.
    + by specialize (Hfatal eq_refl eq_refl).
Qed.

(** Why a unit fails.  A unit that is cancelled returns [None] and its
    last log line is the total timeout; a unit in which a call raised
    (the quiet-network wait timing out apart) returns [None] with
    "failed to fetch"; otherwise the page content was read, and: when
    it is empty the unit returns [None] with "failed to fetch"; when the
    parser rejects it, [parse_biblio_data] raises, the exception leaves
    [wait_for], and the unit returns [None] with "unexpected error";
    when the extraction is not successful the unit returns [None] with
    "failed to extract"; and else the unit returns the record.  The
    "unexpected error" line is logged in that one case only. *)
Theorem unit_failure_reasons wo_number headless tr0 :
  let unit := process_wo_safe BeautifulSoup world wo_number headless in
  let r := fst (unit tr0) in
  let new := new_events unit tr0 in
  (existsb is_cancelled new = true ->
   r = Ret None /\ last new = Some (Log ERROR (MsgTimeoutTotal wo_number)))
  /\ (existsb is_cancelled new = false -> existsb is_fatal new = true ->
      r = Ret None /\ last new = Some (Log ERROR (MsgFetchFailed wo_number)))
  /\ (existsb is_fatal new = false ->
      exists html,
        omap content_of new = [html]
        /\ (Str.nonempty html = false ->
            r = Ret None /\ last new = Some (Log ERROR (MsgFetchFailed wo_number)))
        /\ (Str.nonempty html = true ->
            match parse_biblio_data BeautifulSoup html wo_number with
            | Ok data =>
                if extraction_successful data
                then r = Ret (Some data) /\ omap failure_of new = []
                else r = Ret None
                     /\ last new = Some (Log ERROR (MsgExtractFailed wo_number))
            | Raise AsyncioTimeoutError =>
                r = Ret None
                /\ last new = Some (Log ERROR (MsgTimeoutTotal wo_number))
            | Raise _ =>
                r = Ret None
                /\ last new = Some (Log ERROR (MsgUnexpected wo_number))
            end))
  /\ (existsb is_unexpected new = true
      <-> existsb is_fatal new = false
          /\ exists html e,
               omap content_of new = [html]
               /\ Str.nonempty html = true
               /\ parse_biblio_data BeautifulSoup html wo_number = Raise e
               /\ e <> AsyncioTimeoutError).
Proof.
  intros unit r new. subst unit r new.
  destruct (process_wo_safe_cases wo_number headless tr0)
    as (new & line & Hnew & Hunexp & Hc & Hft & Hcontent & Hfc & Hcases).
  cbn zeta in Hnew, Hc, Hft, Hcontent.
  destruct (process_wo_safe_paths BeautifulSoup world wo_number headless tr0)
    as (r' & new' & Hu & Hfail & _).
  pose proof (new_events_app _ _ _ _ Hu) as Hnew'.
  rewrite Hnew in Hnew'. subst new'.
  assert (Hr' : fst (process_wo_safe BeautifulSoup world wo_number headless tr0)
                = Ret r') by (by rewrite Hu).
  clear Hu. rewrite Hnew, Hc, Hft, Hcontent.
  assert (Hlast : forall m, line = Some m ->
            last (new ++ match line with Some m => [Log ERROR m] | None => [] end)
            = Some (Log ERROR m)) by (intros m ->; apply last_snoc).
  assert (Hun : existsb is_unexpected
                  (new ++ match line with Some m => [Log ERROR m] | None => [] end)
                = match line with Some (MsgUnexpected _) => true | _ => false end).
  { destruct line as [m|]; [|by rewrite app_nil_r].
    rewrite existsb_app, Hunexp. simpl. by destruct m. }
  rewrite Hun. clear Hun Hnew.
  destruct Hcases as [(Hcan & Hres & ->) | [(Hcan & Hfat & Hres & ->)
                                           | (Hfat & html & Hhtml & Hres)]].
  - rewrite Hres, Hcan, (Hfc Hcan). repeat split; try congruence.
    + by apply Hlast.
    + intros [[=] _].
  - rewrite Hres, Hcan, Hfat. repeat split; try congruence.
    + by apply Hlast.
    + intros [[=] _].
  - rewrite Hfat. rewrite Hhtml.
    assert (Hcan : existsb is_cancelled new = false).
    { destruct (existsb is_cancelled new) eqn:E; [|reflexivity].
      specialize (Hfc eq_refl). congruence. }
    rewrite Hcan.
    split; [discriminate|]. split; [discriminate|].
    destruct (Str.nonempty html) eqn:Hne.
    + destruct (parse_biblio_data BeautifulSoup html wo_number) as [data|e] eqn:Hparse.
      * destruct (extraction_successful data) eqn:Hok; injection Hres as Hres ->.
        -- split.
           ++ intros _. exists html. rewrite Hne, Hparse, Hok.
              repeat split; try congruence.
              rewrite Hr' in Hres. injection Hres as ->. exact Hfail.
           ++ split; [discriminate|]. intros (_ & h & e & [= <-] & _ & He & _).
              congruence.
        -- split.
           ++ intros _. exists html. rewrite Hne, Hparse, Hok.
              repeat split; try congruence. by apply Hlast.
           ++ split; [discriminate|]. intros (_ & h & e & [= <-] & _ & He & _).
              congruence.
      * destruct e as [| |msg]; injection Hres as Hres ->.
        -- split.
           ++ intros _. exists html. rewrite Hne, Hparse.
              repeat split; try congruence. by apply Hlast.
           ++ split; [|reflexivity]. intros _. split; [reflexivity|].
              exists html, PlaywrightTimeout. by repeat split.
        -- split.
           ++ intros _. exists html. rewrite Hne, Hparse.
              repeat split; try congruence. by apply Hlast.
           ++ split; [discriminate|]. intros (_ & h & e & [= <-] & _ & He & Hne').
              congruence.
        -- split.
           ++ intros _. exists html. rewrite Hne, Hparse.
              repeat split; try congruence. by apply Hlast.
           ++ split; [|reflexivity]. intros _. split; [reflexivity|].
              exists html, (Error msg). by repeat split.
    + injection Hres as Hres ->. split.
      * intros _. exists html. rewrite Hne.
        repeat split; try congruence. by apply Hlast.
      * split; [discriminate|]. intros (_ & h & e & [= <-] & Hne' & _). congruence.
Qed.

End UnitProperties.

(** ** The batch as a sequence of units *)

Lemma tick_of_none (new : list event) :
  omap processing_of new = [] -> omap sleep_of new = [] -> omap tick_of new = [].
Proof.
  induction new as [|ev new IH]; [reflexivity|].
  destruct ev as [| |l m| |]; simpl; try (by apply IH); try discriminate.
  destruct l, m; simpl; try discriminate; by apply IH.
Qed.

Lemma happy_calls_one_start (wo_number : string) (n k : nat) :
  filter is_start_call (take (S n) (happy_calls wo_number) ++ replicate k BrowserClose)
  = [PlaywrightStart].
Proof.
  unfold happy_calls.
  assert (Hclose : filter is_start_call (replicate k BrowserClose) = []).
  { induction k as [|k IH]; [reflexivity | exact IH]. }
  rewrite filter_app, Hclose, app_nil_r.
  do 9 (destruct n as [|n]; [reflexivity|]). reflexivity.
Qed.

Section BatchProperties.

Context {tag : Type} `{Bs4 tag}.
Variable BeautifulSoup : string -> exc tag.
Variable http_get : string -> exc string.
Variable world : list event -> call -> outcome.

(** What a unit contributes to the rhythm and to the calls. *)
Lemma unit_run_facts headless wo_number run :
  unit_run BeautifulSoup world headless wo_number run ->
  omap tick_of run.2 = []
  /\ omap progress_of run.2 = []
  /\ filter is_start_call (omap awaited run.2) = [PlaywrightStart]
  /\ (length (omap awaited run.2) <= 10)%nat.
Proof.
  intros (tr & Hrun).
  destruct (process_wo_safe_paths BeautifulSoup world wo_number headless tr)
    as (r & new & Hu & _ & Hproc & Hprog & Hsleep & _).
  rewrite Hrun in Hu. injection Hu as _ Hnew. apply app_inv_head in Hnew.
  rewrite Hnew. split; [by apply tick_of_none|]. split; [exact Hprog|].
  clear Hproc Hprog Hsleep. subst new.
  destruct (fetch_detail_html_shape world wo_number headless tr)
    as (rf & newf & Hf & (n & k & Hcalls & Hk & Hlen) & _).
  destruct (fetch_detail_html_paths world wo_number headless tr)
    as (rf' & newf' & Hf' & Hexn & _).
  rewrite Hf in Hf'. injection Hf' as <- Hnew. apply app_inv_head in Hnew as <-.
  pose proof (process_wo_safe_by_fetch BeautifulSoup world wo_number headless tr rf newf
                Hf Hexn) as Hunit.
  rewrite Hrun in Hunit.
  assert (Hsame : omap awaited run.2 = omap awaited newf).
  { destruct rf as [[html|]|e]; cbn zeta in Hunit;
      repeat match type of Hunit with
             | context [if ?b then _ else _] => destruct b
             | context [match ?p with Ok _ => _ | Raise _ => _ end] =>
                 destruct p as [?|[| |?]]
             end;
      injection Hunit as _ Hnew; apply app_inv_head in Hnew; rewrite Hnew;
      rewrite ?omap_app; simpl; by rewrite ?app_nil_r. }
  rewrite Hsame. split; [|exact Hlen]. rewrite Hcalls. apply happy_calls_one_start.
Qed.

(** What the blocks of a batch add up to. *)
Lemma batch_blocks_facts headless progress_callback total wo_numbers runs :
  Forall2 (unit_run BeautifulSoup world headless) wo_numbers runs ->
  forall i,
  omap tick_of (batch_blocks progress_callback total i wo_numbers (snd <$> runs))
  = flat_map (fun j => Start j :: if (j <? total)%nat then [Pause 1] else [])
      (seq i (length wo_numbers))
  /\ filter is_start_call
       (omap awaited (batch_blocks progress_callback total i wo_numbers (snd <$> runs)))
     = replicate (length wo_numbers) PlaywrightStart
  /\ (length (omap awaited
               (batch_blocks progress_callback total i wo_numbers (snd <$> runs)))
      <= 10 * length wo_numbers)%nat.
Proof.
  induction 1 as [|wo run wos runs Hrun _ IH]; intros i; [by simpl|].
  destruct (unit_run_facts headless wo run Hrun) as (Hticks & _ & Hstart & Hcalls).
  destruct (IH (S i)) as (IH1 & IH2 & IH3).
  cbn [fmap list_fmap batch_blocks length seq flat_map]. unfold unit_block.
  rewrite !omap_app, !filter_app, !length_app, Hticks, Hstart, IH1, IH2.
  assert (Hcb : omap tick_of
                  (if progress_callback
                   then [Progress (progress_pct i total) (progress_message wo i total)]
                   else []) = []
                /\ omap awaited
                     (if progress_callback
                      then [Progress (progress_pct i total) (progress_message wo i total)]
                      else []) = []).
  { by destruct progress_callback. }
  destruct Hcb as (-> & ->).
  split; [|split].
  - simpl. by destruct (i <? total)%nat.
  - simpl. by destruct (i <? total)%nat.
  - simpl. destruct (i <? total)%nat; simpl; lia.
Qed.

Lemma schedule_all_but_last (total : nat) :
  forall n i, (i + n <= total)%nat ->
  flat_map (fun j => Start j :: if (j <? total)%nat then [Pause 1] else []) (seq i n)
  = flat_map (fun j => [Start j; Pause 1]) (seq i n).
Proof.
  induction n as [|n IH]; intros i Hi; [reflexivity|].
  simpl. rewrite IH by lia.
  destruct (Nat.ltb_spec i total) as [_|Hge]; [reflexivity | lia].
Qed.

(** The whole history of [search_wipo_patents], with its units. *)
Lemma search_wipo_patents_units molecule dev_codes cas max_results
    (progress_callback headless : bool) tr0 :
  let found :=
    search_wipo_wo_numbers BeautifulSoup http_get molecule dev_codes cas max_results in
  let wo_numbers := slice_to max_results found in
  let total := length wo_numbers in
  exists runs,
    Forall2 (unit_run BeautifulSoup world headless) wo_numbers runs
    /\ search_wipo_patents BeautifulSoup http_get world molecule dev_codes cas
         max_results progress_callback headless tr0
       = (Ret (omap fst runs),
          tr0 ++ [Log INFO (MsgSearch molecule)]
              ++ (if progress_callback then [Progress 0 "Searching WIPO..."] else [])
              ++ match found with
                 | [] => [Log WARNING MsgNoPatents]
                 | _ :: _ =>
                     [Log INFO (MsgProcessingAll total)]
                       ++ batch_blocks progress_callback total 1 wo_numbers (snd <$> runs)
                       ++ [Log INFO (MsgComplete (length (omap fst runs)) total)]
                 end).
Proof.
  intros found wo_numbers total.
  destruct (search_wipo_patents_blocks BeautifulSoup http_get world molecule dev_codes
              cas max_results progress_callback headless tr0) as (runs & Hruns & Hrun).
  exists runs. split; [|exact Hrun].
  by destruct (batch_runs_observed BeautifulSoup world progress_callback headless _ _
                 runs 1%nat _ Hruns) as (Hall & _).
Qed.

(** The history of a batch is completely determined by its units: the
    search line, the first progress call when a callback was passed, and
    then either the "no patents" warning, when discovery found nothing,
    or the count line, one block per identifier in order (its
    "Processing" line, its progress call, the events of its unit, and a
    pause of one second unless it is the last) and the summary line with
    the number of records returned.  The result is the list of the
    records of the units that returned one. *)
Theorem batch_history_is_one_block_per_identifier molecule dev_codes cas max_results
    progress_callback headless tr0 :
  let found :=
    search_wipo_wo_numbers BeautifulSoup http_get molecule dev_codes cas max_results in
  let wo_numbers := slice_to max_results found in
  let total := length wo_numbers in
  let run :=
    search_wipo_patents BeautifulSoup http_get world molecule dev_codes cas
      max_results progress_callback headless in
  exists runs,
    Forall2 (unit_run BeautifulSoup world headless) wo_numbers runs
    /\ fst (run tr0) = Ret (omap fst runs)
    /\ new_events run tr0
       = [Log INFO (MsgSearch molecule)]
           ++ (if progress_callback then [Progress 0 "Searching WIPO..."] else [])
           ++ match found with
              | [] => [Log WARNING MsgNoPatents]
              | _ :: _ =>
                  [Log INFO (MsgProcessingAll total)]
                    ++ batch_blocks progress_callback total 1 wo_numbers (snd <$> runs)
                    ++ [Log INFO (MsgComplete (length (omap fst runs)) total)]
              end.
Proof.
  intros found wo_numbers total run. subst run total wo_numbers found.
  destruct (search_wipo_patents_units molecule dev_codes cas max_results
              progress_callback headless tr0) as (runs & Hall & Hrun).
  exists runs. split; [exact Hall|].
  by rewrite (new_events_app _ _ _ _ Hrun), Hrun.
Qed.

(** Pacing: the units start in order with their indices from 1, and
    between two consecutive units the batch sleeps exactly once, for one
    second; there is no sleep before the first unit nor after the last,
    and no unit sleeps on its own. *)
Theorem batch_pauses_one_second_between_units molecule dev_codes cas max_results
    progress_callback headless tr0 :
  let wo_numbers :=
    slice_to max_results
      (search_wipo_wo_numbers BeautifulSoup http_get molecule dev_codes cas max_results) in
  let run :=
    search_wipo_patents BeautifulSoup http_get world molecule dev_codes cas
      max_results progress_callback headless in
  omap tick_of (new_events run tr0)
  = match length wo_numbers with
    | O => []
    | S n => flat_map (fun j => [Start j; Pause 1]) (seq 1 n) ++ [Start (S n)]
    end.
Proof.
  intros wo_numbers run. subst run wo_numbers.
  destruct (search_wipo_patents_units molecule dev_codes cas max_results
              progress_callback headless tr0) as (runs & Hall & Hrun).
  rewrite (new_events_app _ _ _ _ Hrun).
  set (wo_numbers := slice_to max_results _) in *.
  destruct (batch_blocks_facts headless progress_callback (length wo_numbers)
              wo_numbers runs Hall 1%nat) as (Hticks & _).
  assert (Hpre : omap tick_of
                   (if progress_callback then [Progress 0 "Searching WIPO..."] else [])
                 = []) by (by destruct progress_callback).
  rewrite !omap_app, Hpre.
  destruct (search_wipo_wo_numbers _ _ _ _ _ _) as [|wo found'] eqn:Hfound.
  - subst wo_numbers. by rewrite slice_to_nil.
  - rewrite !omap_app, Hticks. cbn [omap list_omap tick_of app]. rewrite app_nil_r.
    destruct (length wo_numbers) as [|n]; [reflexivity|].
    rewrite seq_S, flat_map_app, (schedule_all_but_last (S n) n 1) by lia.
    f_equal. cbn [flat_map Nat.add]. rewrite Nat.ltb_irrefl. reflexivity.
Qed.

(** A batch starts one browser session per identifier, and awaits at
    most ten calls for each: nothing is retried, whatever fails. *)
Theorem batch_starts_one_session_per_identifier molecule dev_codes cas max_results
    progress_callback headless tr0 :
  let wo_numbers :=
    slice_to max_results
      (search_wipo_wo_numbers BeautifulSoup http_get molecule dev_codes cas max_results) in
  let run :=
    search_wipo_patents BeautifulSoup http_get world molecule dev_codes cas
      max_results progress_callback headless in
  filter is_start_call (omap awaited (new_events run tr0))
  = replicate (length wo_numbers) PlaywrightStart
  /\ (length (omap awaited (new_events run tr0)) <= 10 * length wo_numbers)%nat.
Proof.
  intros wo_numbers run. subst run wo_numbers.
  destruct (search_wipo_patents_units molecule dev_codes cas max_results
              progress_callback headless tr0) as (runs & Hall & Hrun).
  rewrite (new_events_app _ _ _ _ Hrun).
  set (wo_numbers := slice_to max_results _) in *.
  destruct (batch_blocks_facts headless progress_callback (length wo_numbers)
              wo_numbers runs Hall 1%nat) as (_ & Hstarts & Hcalls).
  assert (Hpre : omap awaited
                   (if progress_callback then [Progress 0 "Searching WIPO..."] else [])
                 = []) by (by destruct progress_callback).
  rewrite !omap_app, Hpre.
  destruct (search_wipo_wo_numbers _ _ _ _ _ _) as [|wo found'] eqn:Hfound.
  - subst wo_numbers. rewrite slice_to_nil. simpl. split; [reflexivity | lia].
  - rewrite !omap_app. cbn [omap list_omap awaited app]. rewrite app_nil_r.
    by split.
Qed.

(** When discovery finds nothing (no link, or a failed request), the
    batch returns the empty list at once: it logs the warning and makes
    none of the browser calls, so no browser is started and there is no
    pause. *)
Theorem empty_discovery_starts_no_browser molecule dev_codes cas max_results
    progress_callback headless tr0 :
  let run :=
    search_wipo_patents BeautifulSoup http_get world molecule dev_codes cas
      max_results progress_callback headless in
  search_wipo_wo_numbers BeautifulSoup http_get molecule dev_codes cas max_results = [] ->
  fst (run tr0) = Ret []
  /\ omap awaited (new_events run tr0) = []
  /\ omap tick_of (new_events run tr0) = []
  /\ last (new_events run tr0) = Some (Log WARNING MsgNoPatents).
Proof.
  intros run Hfound. subst run.
  destruct (search_wipo_patents_units molecule dev_codes cas max_results
              progress_callback headless tr0) as (runs & Hall & Hrun).
  rewrite Hfound, slice_to_nil in Hall. inversion Hall; subst.
  rewrite Hfound in Hrun.
  rewrite (new_events_app _ _ _ _ Hrun), Hrun. cbn [fst omap list_omap].
  by destruct progress_callback.
Qed.

(** With a bound that is not negative, the batch returns at most
    [max_results] records: no more than there are identifiers, which are
    no more than the bound.  When discovery found something, the last
    line of the history is the summary, and it reports the number of
    records returned and the number of identifiers. *)
Theorem batch_returns_at_most_max_results molecule dev_codes cas max_results
    progress_callback headless tr0 :
  let found :=
    search_wipo_wo_numbers BeautifulSoup http_get molecule dev_codes cas max_results in
  let run :=
    search_wipo_patents BeautifulSoup http_get world molecule dev_codes cas
      max_results progress_callback headless in
  0 <= max_results ->
  exists results,
    fst (run tr0) = Ret results
    /\ (length results <= length found)%nat
    /\ Z.of_nat (length found) <= max_results
    /\ (found <> [] ->
        last (new_events run tr0)
        = Some (Log INFO (MsgComplete (length results) (length found)))).
Proof.
  intros found run Hmax. subst run.
  destruct (search_wipo_patents_units molecule dev_codes cas max_results
              progress_callback headless tr0) as (runs & Hall & Hrun).
  assert (Hsame : slice_to max_results found = found).
  { subst found. rewrite search_wipo_wo_numbers_eq, !slice_to_nonneg by assumption.
    apply take_idemp. }
  fold found in Hall, Hrun. rewrite Hsame in Hall, Hrun.
  exists (omap fst runs). rewrite (new_events_app _ _ _ _ Hrun), Hrun.
  split; [reflexivity|]. split; [|split].
  - rewrite (Forall2_length _ _ _ Hall). clear.
    induction runs as [|[[d|] ev] runs IH]; [done| |];
      cbn [omap list_omap fst length] in *; lia.
  - subst found. rewrite search_wipo_wo_numbers_eq, slice_to_nonneg by assumption.
    rewrite length_take. lia.
  - intros Hne. destruct found as [|wo found']; [done|].
    by rewrite !app_assoc, last_snoc.
Qed.

End BatchProperties.

(** ** The progress percentage *)

Lemma percents_well_behaved_upto_100 :
  forallb percents_well_behaved (seq 1 100) = true.
Proof. vm_compute. reflexivity. Qed.

(** For a batch of up to 100 identifiers (the default bound is 50) the
    percentage passed to the callback stays within 0 and 100, is the
    exact quotient [100 * i / total] rounded down or one below it, never
    decreases from one identifier to the next, and is 100 for the last
    identifier. *)
Theorem progress_percent_monotone_up_to_100 (i total : nat) :
  (1 <= i <= total)%nat -> (total <= 100)%nat ->
  0 <= progress_pct i total <= 100
  /\ (100 * Z.of_nat i) / Z.of_nat total - 1 <= progress_pct i total
     <= (100 * Z.of_nat i) / Z.of_nat total
  /\ progress_pct (i - 1) total <= progress_pct i total
  /\ progress_pct total total = 100.
Proof.
  intros Hi Htotal.
  pose proof percents_well_behaved_upto_100 as Hall.
  rewrite forallb_forall in Hall.
  assert (Hin : In total (seq 1 100)) by (apply in_seq; lia).
  specialize (Hall total Hin). unfold percents_well_behaved in Hall.
  apply andb_prop in Hall as [Hall Hlast]. rewrite forallb_forall in Hall.
  assert (Hin' : In i (seq 1 total)) by (apply in_seq; lia).
  specialize (Hall i Hin'). unfold percent_in_range in Hall.
  destruct (percent_product i total); try discriminate.
  repeat match type of Hall with
         | _ && _ = true => apply andb_prop in Hall as [Hall ?]
         end.
  repeat match goal with
         | Hb : (_ <=? _) = true |- _ => apply Z.leb_le in Hb
         | Hb : (_ =? _) = true |- _ => apply Z.eqb_eq in Hb
         | Hb : _ || _ = true |- _ => apply orb_prop in Hb as [Hb|Hb]
         end; lia.
Qed.

Lemma progress_percent_witness :
  ((1 <= 29 <= 50)%nat /\ (50 <= 100)%nat)
  /\ 0 <= progress_pct 29 50 <= 100
  /\ (100 * Z.of_nat 29) / Z.of_nat 50 - 1 <= progress_pct 29 50
     <= (100 * Z.of_nat 29) / Z.of_nat 50
  /\ progress_pct (29 - 1) 50 <= progress_pct 29 50
  /\ progress_pct 50 50 = 100.
Proof.
  split; [lia|].
  apply (progress_percent_monotone_up_to_100 29 50); lia.
Defined.

(** ** The further properties at concrete inputs *)


Lemma discovered_identifier_witness :
  "WO2018036558"
    ∈ search_wipo_wo_numbers (parse_as result_page) http_ok "darolutamide" None None 5
  /\ is_wo_number "WO2018036558".
Proof.
  assert (Hin : "WO2018036558"
                  ∈ search_wipo_wo_numbers (parse_as result_page) http_ok
                      "darolutamide" None None 5).
  { vm_compute. apply list_elem_of_further, list_elem_of_here. }
  split; [exact Hin|].
  exact (discovered_identifiers_well_formed (parse_as result_page) http_ok
           "darolutamide" None None 5 "WO2018036558" Hin).
Defined.

Lemma distinct_identifiers_witness :
  search_wipo_wo_numbers (parse_as two_links_page) http_ok "darolutamide" None None 5
  = response_identifiers (parse_as two_links_page) http_ok "darolutamide" None None.
Proof.
  apply (discovery_keeps_distinct_identifiers (parse_as two_links_page) http_ok
           "darolutamide" None None 5).
  - apply (bool_decide_unpack _). vm_compute. exact I.
  - vm_compute. discriminate.
Defined.

Lemma list_fields_witness :
  biblio_field (parse_biblio_soup (soup_of full_page) detail_html "WO2019028689")
    "applicants" = Some (VList ["ACME PHARMA"; "BETA LABS"])
  /\ Forall (fun n => n <> EmptyString) ["ACME PHARMA"; "BETA LABS"].
Proof.
  assert (Hfield :
    biblio_field (parse_biblio_soup (soup_of full_page) detail_html "WO2019028689")
      "applicants" = Some (VList ["ACME PHARMA"; "BETA LABS"]))
    by (vm_compute; reflexivity).
  split; [exact Hfield|].
  apply (list_fields_hold_no_empty_string (parse_as full_page) detail_html
           "WO2019028689"
           (parse_biblio_soup (soup_of full_page) detail_html "WO2019028689")
           "applicants" ["ACME PHARMA"; "BETA LABS"]);
    [reflexivity | apply list_elem_of_here | exact Hfield].
Defined.

Lemma number_and_title_witness :
  exists data,
    parse_biblio_data (parse_as full_page) detail_html "WO2019028689" = Ok data
    /\ extraction_successful data = true
    /\ biblio_field data "publication_number" = Some (VStr "WO/2019/028689")
    /\ biblio_field data "title" = Some (VStr "(EN) CRYSTALLINE FORM").
Proof.
  apply (number_and_title_suffice (parse_as full_page) detail_html "WO2019028689"
           (soup_of full_page) "WO/2019/028689" "(EN) CRYSTALLINE FORM").
  - reflexivity.
  - do 3 eexists. split; [vm_compute; reflexivity|].
    split; [vm_compute; reflexivity|].
    split; [vm_compute; reflexivity | vm_compute; reflexivity].
  - discriminate.
  - do 3 eexists. split; [vm_compute; reflexivity|].
    split; [vm_compute; reflexivity|].
    split; [vm_compute; reflexivity | vm_compute; reflexivity].
  - discriminate.
Defined.

Lemma record_keys_witness :
  let data := parse_biblio_soup (soup_of partial_page) "<html/>" "WO2019028689" in
  (is_Some (data !! "source") <-> "source" ∈ record_keys)
  /\ (is_Some (biblio_field data "source") <-> "source" ∈ biblio_keys).
Proof.
  apply (record_has_exactly_its_keys (parse_as partial_page) "<html/>" "WO2019028689"
           (parse_biblio_soup (soup_of partial_page) "<html/>" "WO2019028689")
           "source").
  reflexivity.
Defined.

Lemma navigation_failure_witness :
  let fetch := fetch_detail_html world_goto_fails "WO2019028689" true in
  existsb is_goto_failure (new_events fetch []) = true
  /\ fst (fetch []) = Ret None
  /\ existsb is_content (new_events fetch []) = false
  /\ existsb is_close (new_events fetch []) = true.
Proof.
  assert (Hgoto : existsb is_goto_failure
                    (new_events (fetch_detail_html world_goto_fails "WO2019028689" true) [])
                  = true) by (vm_compute; reflexivity).
  destruct (navigation_failure_closes_and_gives_up world_goto_fails "WO2019028689"
              true [] Hgoto) as (Hnone & _ & _ & _ & Hcontent & Hclose).
  split; [exact Hgoto|]. split; [|split; [exact Hcontent | exact Hclose]].
  apply Hnone. vm_compute. reflexivity.
Defined.


Lemma empty_discovery_witness :
  let run :=
    search_wipo_patents (parse_as result_page) http_down (world_ok detail_html)
      "darolutamide" None None 5 true true in
  fst (run []) = Ret []
  /\ omap awaited (new_events run []) = []
  /\ omap tick_of (new_events run []) = []
  /\ last (new_events run []) = Some (Log WARNING MsgNoPatents).
Proof.
  apply (empty_discovery_starts_no_browser (parse_as result_page) http_down
           (world_ok detail_html) "darolutamide" None None 5 true true []).
  reflexivity.
Defined.

Lemma batch_bound_witness :
  let found :=
    search_wipo_wo_numbers parse_site http_ok "darolutamide" None None 3 in
  let run :=
    search_wipo_patents parse_site http_ok (world_ok detail_html)
      "darolutamide" None None 3 false true in
  0 <= 3
  /\ exists results,
       fst (run []) = Ret results
       /\ (length results <= length found)%nat
       /\ Z.of_nat (length found) <= 3
       /\ (found <> [] ->
           last (new_events run [])
           = Some (Log INFO (MsgComplete (length results) (length found)))).
Proof.
  split; [lia|].
  apply (batch_returns_at_most_max_results parse_site http_ok (world_ok detail_html)
           "darolutamide" None None 3 false true []).
  lia.
Defined.

(** A page given by its fields.  The label "Title" is looked for as a
    part of the label text, so the field "Subtitle", which comes first,
    answers for it; texts are stripped, of no-break spaces too, and the
    entries that are empty once stripped are left out. *)
Lemma rendered_scalar_witness :
  extract_field_by_label (render_page sample_fields) "Title"
  = Ok (stripped "not the title")
  /\ stripped "not the title" = Some "not the title".
Proof.
  split; [|vm_compute; reflexivity].
  apply (rendered_scalar_field sample_fields "Title");
    [reflexivity | vm_compute; reflexivity].
Defined.

Lemma rendered_list_witness :
  extract_list_field (render_page sample_fields) "Applicants"
  = Ok (persons_of (first_field "Applicants" sample_fields))
  /\ persons_of (first_field "Applicants" sample_fields)
     = ["ACME PHARMA"; "BETA LABS"].
Proof.
  split; [|vm_compute; reflexivity].
  apply (rendered_list_field sample_fields "Applicants"). reflexivity.
Defined.

Example rendered_codes_sample :
  extract_ipc_codes (render_page sample_fields) = Ok ["C07D 231/14"; "C07D 231/14"].
Proof. vm_compute. reflexivity. Qed.

Example sample_page_extraction :
  extract_field_by_label (render_page sample_fields) "Publication Number"
  = Ok (Some "WO/2019/028689")
  /\ extract_field_by_label (render_page sample_fields) "Abstract" = Ok None.
Proof. vm_compute. split; reflexivity. Qed.

(** The digit class of the identifier pattern is Unicode's: an
    identifier written with full-width digits is returned as it is. *)
Example fullwidth_identifier :
  let digits := String.concat EmptyString (replicate 10 fullwidth_one) in
  link_identifier ("/search/en/detail.jsf?docId=WO" +:+ digits) = Some ("WO" +:+ digits)
  /\ Str.len ("WO" +:+ digits) = 12%nat
  /\ String.length ("WO" +:+ digits) = 32%nat.
Proof. vm_compute. repeat split; reflexivity. Qed.

(** When the unit is cancelled while the page content is read, the
    browser it launched is not closed by the code. *)
Example cancelled_unit_leaves_the_browser :
  let new := new_events (fetch_detail_html world_cancelled "WO2019028689" true) [] in
  existsb is_cancelled new = true
  /\ existsb is_close new = false
  /\ open_browsers new = 1%nat.
Proof. vm_compute. repeat split; reflexivity. Qed.

(** The ways a unit ends, on a page that is complete: a record; no
    record when the unit is cancelled, when the navigation fails, when
    the page content is empty, when the parser rejects the content. *)
Example unit_scenarios :
  let unit world := process_wo_safe (parse_as full_page) world "WO2019028689" true in
  (match fst (unit (world_ok detail_html) []) with
   | Ret (Some data) => extraction_successful data
   | _ => false
   end = true)
  /\ (fst (unit world_cancelled []) = Ret None
      /\ last (new_events (unit world_cancelled) [])
         = Some (Log ERROR (MsgTimeoutTotal "WO2019028689")))
  /\ (fst (unit world_goto_fails []) = Ret None
      /\ last (new_events (unit world_goto_fails) [])
         = Some (Log ERROR (MsgFetchFailed "WO2019028689")))
  /\ (fst (unit (world_ok EmptyString) []) = Ret None
      /\ last (new_events (unit (world_ok EmptyString)) [])
         = Some (Log ERROR (MsgFetchFailed "WO2019028689")))
  /\ (let rejected :=
        process_wo_safe (parse_rejecting full_page) (world_ok rejected_markup)
          "WO2019028689" true in
      fst (rejected []) = Ret None
      /\ last (new_events rejected [])
         = Some (Log ERROR (MsgUnexpected "WO2019028689"))).
Proof. vm_compute. repeat split; reflexivity. Qed.

